(** * SAM-Raman dataset utilities: a shallow embedding of [utils/dataset.py]

    The file embeds the two classes of [utils/dataset.py]:
    - [SAMRamanDataset], an indexable wrapper around a pair of parallel
      sequences (spectra, integer label codes);
    - [SAMRaman], which builds the label vocabulary, partitions the input
      into train / validation / test and wraps each partition.

    Python values are modelled as follows.  Integers are [Z].  A loaded
    spectra array is the list of its rows, the row type [A] being left
    abstract; a loaded label array is a [list Z].  Exceptions are values of
    [exn] carried by the [result] monad.  Python floats are IEEE-754
    binary64 numbers, computed with the specification of the Standard
    Library ([SpecFloat]).  The ambient numpy random generator is a state
    that is threaded explicitly; numpy's generator and scikit-learn's
    splitter are external and enter as the interfaces [NumpyRandom] and
    [Sklearn].  Of torch's [DataLoader] the constructor is modelled, with
    the two checks that make it raise; the iteration over batches is
    not. *)

From Stdlib Require Import ZArith Lia.
From Stdlib Require Import Floats.SpecFloat.
From stdpp Require Import base list sorting gmap strings.

Open Scope Z_scope.

(** ** Exceptions and the result monad *)

Inductive exn : Type :=
  | FileNotFoundError
  | KeyError
  | IndexError
  | ZeroDivisionError
  | OverflowError
  | ValueError.

Inductive result (T : Type) : Type :=
  | Ok (v : T)
  | Raise (e : exn).
Arguments Ok {T} v.
Arguments Raise {T} e.

#[global] Instance result_ret : MRet result := λ T v, Ok v.
#[global] Instance result_bind : MBind result := λ T U f m,
  match m with
  | Ok v => f v
  | Raise e => Raise e
  end.

Definition is_ok {T} (r : result T) : bool :=
  match r with Ok _ => true | Raise _ => false end.

(** [for x in xs: s = body s x], stopping at the first exception. *)
Fixpoint for_loop {S X : Type} (body : S → X → result S) (xs : list X) (s : S)
  : result S :=
  match xs with
  | [] => Ok s
  | x :: xs' => s' ← body s x; for_loop body xs' s'
  end.

(** ** Python sequences *)

Module Py.

(** Normalisation of one bound of a slice [l[lo:hi]] over a sequence of
    length [len]: a negative bound counts from the end, and every bound is
    clamped to [0, len]. *)
Definition slice_bound (len : nat) (dflt : nat) (b : option Z) : nat :=
  match b with
  | None => dflt
  | Some i =>
      if decide (i < 0) then Z.to_nat (i + Z.of_nat len)
      else Z.to_nat (Z.min i (Z.of_nat len))
  end.

(** [l[lo:hi]] with unit step. *)
Definition slice {T} (lo hi : option Z) (l : list T) : list T :=
  let len := length l in
  let lo' := slice_bound len 0%nat lo in
  let hi' := slice_bound len len hi in
  take (hi' - lo')%nat (drop lo' l).

(** [l[i]] on a list or on the first axis of an array: a negative index
    counts from the end, anything outside [-len, len) raises
    [IndexError]. *)
Definition getitem {T} (l : list T) (i : Z) : result T :=
  let len := Z.of_nat (length l) in
  let j := if decide (i < 0) then i + len else i in
  if decide (0 ≤ j < len) then
    match l !! Z.to_nat j with
    | Some x => Ok x
    | None => Raise IndexError
    end
  else Raise IndexError.

(** [d[k]] on a dict. *)
Definition dict_getitem `{Countable K} {V} (d : gmap K V) (k : K) : result V :=
  match d !! k with
  | Some v => Ok v
  | None => Raise KeyError
  end.

(** [{k: v for k, v in kvs}]: a later pair overwrites an earlier one with
    the same key. *)
Definition dict_comprehension `{Countable K} {V} (kvs : list (K * V)) : gmap K V :=
  foldl (λ d kv, <[kv.1 := kv.2]> d) ∅ kvs.

(** [enumerate(xs)] *)
Definition enumerate {T} (xs : list T) : list (Z * T) :=
  imap (λ i x, (Z.of_nat i, x)) xs.

(** [[x] * n] *)
Definition list_repeat {T} (x : T) (n : Z) : list T := replicate (Z.to_nat n) x.

(** [a // b] on integers: floor division. *)
Definition floordiv (a b : Z) : result Z :=
  if decide (b = 0) then Raise ZeroDivisionError else Ok (a `div` b).

(** *** Floats (binary64) *)

Definition prec : Z := 53.
Definition emax : Z := 1024.

(** The double nearest to the integer [n], before the overflow check. *)
Definition double_of_Z (n : Z) : spec_float := binary_normalize prec emax n 0 false.

(** The decimal literal [a/b], read as the correctly rounded quotient of
    two exactly representable integers. *)
Definition literal (a b : Z) : spec_float :=
  SFdiv prec emax (double_of_Z a) (double_of_Z b).

(** Conversion of an [int] operand of a float operation. *)
Definition float_of_int (n : Z) : result spec_float :=
  match double_of_Z n with
  | S754_infinity _ => Raise OverflowError
  | f => Ok f
  end.

Definition float_add : spec_float → spec_float → spec_float := SFadd prec emax.
Definition float_mul : spec_float → spec_float → spec_float := SFmul prec emax.

(** [int(f)]: truncation toward zero. *)
Definition int_of_float (f : spec_float) : result Z :=
  match f with
  | S754_zero _ => Ok 0
  | S754_finite s m e =>
      let a := match e with
               | Zneg k => Z.shiftr (Zpos m) (Zpos k)
               | _ => Z.shiftl (Zpos m) e
               end in
      Ok (if s then - a else a)
  | S754_infinity _ => Raise OverflowError
  | S754_nan => Raise ValueError
  end.

(** [f * n] for a float [f] and an int [n]. *)
Definition float_mul_int (f : spec_float) (n : Z) : result spec_float :=
  x ← float_of_int n; Ok (float_mul f x).

End Py.

(** ** numpy *)

Module Np.

Fixpoint insert_unique (x : Z) (l : list Z) : list Z :=
  match l with
  | [] => [x]
  | y :: l' =>
      if decide (x < y) then x :: l
      else if decide (x = y) then l
      else y :: insert_unique x l'
  end.

(** [np.unique(xs)]: the distinct values, ascending. *)
Definition unique (xs : list Z) : list Z := foldr insert_unique [] xs.

(** [np.arange(n)] *)
Definition arange (n : Z) : list Z := Z.of_nat <$> seq 0 (Z.to_nat n).

(** [labels == l] *)
Definition eq_scalar (labels : list Z) (l : Z) : list bool :=
  (λ x, bool_decide (x = l)) <$> labels.

Fixpoint select_rows {T} (rows : list T) (mask : list bool) : list T :=
  match rows, mask with
  | r :: rows', b :: mask' =>
      if b then r :: select_rows rows' mask' else select_rows rows' mask'
  | _, _ => []
  end.

(** [rows[mask]] for a boolean mask, which must be as long as the first
    axis. *)
Definition boolean_index {T} (rows : list T) (mask : list bool) : result (list T) :=
  if decide (length mask = length rows) then Ok (select_rows rows mask)
  else Raise IndexError.

(** The array files.  A path holds a spectra array (its rows) or a label
    array. *)
Record files (T : Type) : Type := {
  spectra_files : gmap string (list T);
  label_files : gmap string (list Z);
}.
Arguments spectra_files {T} _.
Arguments label_files {T} _.

Definition load_spectra {T} (fs : files T) (path : string) : result (list T) :=
  match spectra_files fs !! path with
  | Some a => Ok a
  | None => Raise FileNotFoundError
  end.

Definition load_labels {T} (fs : files T) (path : string) : result (list Z) :=
  match label_files fs !! path with
  | Some a => Ok a
  | None => Raise FileNotFoundError
  end.

End Np.

(** The ambient generator of [np.random].  [np_random_permutation] returns
    the permuted copy and the advanced state; that the copy is a
    rearrangement of its argument is numpy's contract. *)
Class NumpyRandom : Type := {
  rng_state : Type;
  np_random_seed_state : Z → rng_state;
  np_random_permutation : rng_state → list Z → list Z * rng_state;
  np_random_permutation_perm : ∀ g l, (np_random_permutation g l).1 ≡ₚ l;
}.

(** [np.random.seed(seed)] accepts a seed in [0, 2**32 - 1]. *)
Definition np_random_seed `{NumpyRandom} (seed : Z) : result rng_state :=
  if decide (0 ≤ seed < 2 ^ 32) then Ok (np_random_seed_state seed)
  else Raise ValueError.

(** [train_test_split(X, y, test_size=0.25, stratify=y, random_state=seed)],
    returning [(X_train, X_test, y_train, y_test)]. *)
Class Sklearn (A : Type) : Type := {
  train_test_split :
    list A → list Z → Z → result (list A * list A * list Z * list Z);
}.

(** ** [class SAMRamanDataset] *)

Module SAMRamanDataset.

Record t (A : Type) : Type := {
  spectral_data : list A;
  labels : list Z;
}.
Arguments spectral_data {A} _.
Arguments labels {A} _.

Definition __len__ {A} (self : t A) : Z := Z.of_nat (length (labels self)).

(** The sample is returned under one more leading axis of length one
    ([unsqueeze(0)]); the conversion of its numbers to 32-bit floats is not
    modelled, the row type being abstract. *)
Definition __getitem__ {A} (self : t A) (idx : Z) : result (list A * Z) :=
  data ← Py.getitem (spectral_data self) idx;
  label ← Py.getitem (labels self) idx;
  Ok ([data], label).

End SAMRamanDataset.

(** ** [class SAMRaman] *)

Module SAMRaman.

(** The constructor's arguments. *)
Record config : Type := {
  spectral_dirs : list string;
  label_dirs : list string;
  patient_intervals : list Z;
  use_pre_split : bool;
  train_data_path : list string;
  train_labels_path : list string;
  test_data_path : list string;
  test_labels_path : list string;
  batch_size : Z;
  seed : Z;
}.

(** One of [train_set], [val_set], [test_set]: a [defaultdict(list)] read
    and written under the keys ["data"] and ["labels"] only. *)
Record split_set (A : Type) : Type := {
  data : list A;
  labels : list Z;
}.
Arguments data {A} _.
Arguments labels {A} _.

Definition empty_set {A} : split_set A := {| data := []; labels := [] |}.

Definition splits (A : Type) : Type := split_set A * split_set A * split_set A.

(** [for f in paths: labels.extend(np.load(f))] *)
Definition extend_loaded {A} (fs : Np.files A) (paths : list string) (labels : list Z)
  : result (list Z) :=
  for_loop (λ labels f, a ← Np.load_labels fs f; Ok (labels ++ a)) paths labels.

Definition label_mapping_of (labels : list Z) : gmap Z Z :=
  Py.dict_comprehension ((λ p, (p.2, p.1)) <$> Py.enumerate (Np.unique labels)).

Definition _get_label_mapping {A} (fs : Np.files A) (cfg : config) : result (gmap Z Z) :=
  labels ←
    (if use_pre_split cfg then
       labels ← extend_loaded fs (train_labels_path cfg) [];
       extend_loaded fs (test_labels_path cfg) labels
     else
       extend_loaded fs (label_dirs cfg) []);
  Ok (label_mapping_of labels).

(** [{idx: l for l, idx in label_map.items()}].  The items are taken in the
    order of [map_to_list], not in insertion order; the two give the same
    dict whenever no two labels share a code ([inverse_mapping_lookup]). *)
Definition inverse_mapping_of (label_map : gmap Z Z) : gmap Z Z :=
  Py.dict_comprehension ((λ p, (p.2, p.1)) <$> map_to_list label_map).

Definition train_split : spec_float := Py.literal 7 10.
Definition validation_split : spec_float := Py.literal 15 100.

(** [int(train_split*num_patients)] *)
Definition train_split_end_of (num_patients : Z) : result Z :=
  x ← Py.float_mul_int train_split num_patients; Py.int_of_float x.

(** [int((train_split+validation_split)*num_patients)] *)
Definition validation_split_end_of (num_patients : Z) : result Z :=
  x ← Py.float_mul_int (Py.float_add train_split validation_split) num_patients;
  Py.int_of_float x.

Section Splits.
Context {A : Type} `{NumpyRandom} `{Sklearn A}.

(** The body of each of the three loops over patient indices:
    [part["data"].extend(label_spectra[i * p_int : i * p_int + p_int])]
    and [part["labels"].extend([self.label_map[l]] * p_int)]. *)
Definition extend_block (label_map : gmap Z Z) (l : Z) (p_int : Z)
    (label_spectra : list A) (part : split_set A) (i : Z) : result (split_set A) :=
  let data' := data part ++ Py.slice (Some (i * p_int)) (Some (i * p_int + p_int)) label_spectra in
  code ← Py.dict_getitem label_map l;
  Ok {| data := data'; labels := labels part ++ Py.list_repeat code p_int |}.

(** The body of [for l in np.unique(labels)]. *)
Definition split_label (label_map : gmap Z Z) (spectra : list A) (labels : list Z)
    (p_int : Z) (st : splits A * rng_state) (l : Z) : result (splits A * rng_state) :=
  let '(train_set, val_set, test_set, g) := st in
  label_spectra ← Np.boolean_index spectra (Np.eq_scalar labels l);
  num_patients ← Py.floordiv (Z.of_nat (length label_spectra)) p_int;
  let patient_idxs := Np.arange num_patients in
  let '(patient_idxs, g) := np_random_permutation g patient_idxs in
  train_split_end ← train_split_end_of num_patients;
  validation_split_end ← validation_split_end_of num_patients;
  train_set ←
    for_loop (extend_block label_map l p_int label_spectra)
      (Py.slice None (Some train_split_end) patient_idxs) train_set;
  val_set ←
    for_loop (extend_block label_map l p_int label_spectra)
      (Py.slice (Some train_split_end) (Some validation_split_end) patient_idxs) val_set;
  test_set ←
    for_loop (extend_block label_map l p_int label_spectra)
      (Py.slice (Some validation_split_end) None patient_idxs) test_set;
  Ok (train_set, val_set, test_set, g).

(** The body of the generation-mode loop over
    [zip(spectral_dirs, label_dirs, patient_intervals)]. *)
Definition split_source (fs : Np.files A) (label_map : gmap Z Z)
    (st : splits A * rng_state) (src : string * string * Z)
  : result (splits A * rng_state) :=
  let '(spectral_path, label_path, p_int) := src in
  spectra ← Np.load_spectra fs spectral_path;
  labels ← Np.load_labels fs label_path;
  for_loop (split_label label_map spectra labels p_int) (Np.unique labels) st.

(** [for l in ls: part["labels"].extend([self.label_map[l]])] *)
Definition extend_codes (label_map : gmap Z Z) (ls : list Z) (part : split_set A)
  : result (split_set A) :=
  for_loop
    (λ part l,
       code ← Py.dict_getitem label_map l;
       Ok {| data := data part; labels := labels part ++ [code] |})
    ls part.

(** The body of the pre-split loop over the four zipped path lists.  The
    ["data"] entries are assigned, the ["labels"] entries are extended. *)
Definition split_given (fs : Np.files A) (label_map : gmap Z Z) (seed : Z)
    (st : splits A) (grp : string * string * string * string) : result (splits A) :=
  let '(train_set, val_set, test_set) := st in
  let '(train_data_path, train_labels_path, test_data_path, test_labels_path) := grp in
  test_set_data ← Np.load_spectra fs test_data_path;
  test_set_labels ← Np.load_labels fs test_labels_path;
  train_and_validation_set_data ← Np.load_spectra fs train_data_path;
  train_and_validation_set_labels ← Np.load_labels fs train_labels_path;
  '(train_set_data, validation_set_data, train_set_labels, validation_set_labels) ←
    train_test_split train_and_validation_set_data train_and_validation_set_labels seed;
  let test_set := {| data := test_set_data; labels := labels test_set |} in
  let train_set := {| data := train_set_data; labels := labels train_set |} in
  let val_set := {| data := validation_set_data; labels := labels val_set |} in
  test_set ← extend_codes label_map test_set_labels test_set;
  train_set ← extend_codes label_map train_set_labels train_set;
  val_set ← extend_codes label_map validation_set_labels val_set;
  Ok (train_set, val_set, test_set).

(** [zip] of three and of four lists stops at the shortest. *)
Definition zip3 {X Y W} (xs : list X) (ys : list Y) (ws : list W) : list (X * Y * W) :=
  zip (zip xs ys) ws.
Definition zip4 {X Y W V} (xs : list X) (ys : list Y) (ws : list W) (vs : list V)
  : list (X * Y * W * V) :=
  zip (zip (zip xs ys) ws) vs.

Definition _get_splits (fs : Np.files A) (cfg : config) (label_map : gmap Z Z)
    (g : rng_state) : result (splits A * rng_state) :=
  let st := (empty_set, empty_set, empty_set) in
  if use_pre_split cfg then
    st ← for_loop (split_given fs label_map (seed cfg))
           (zip4 (train_data_path cfg) (train_labels_path cfg)
                 (test_data_path cfg) (test_labels_path cfg)) st;
    Ok (st, g)
  else
    for_loop (split_source fs label_map)
      (zip3 (spectral_dirs cfg) (label_dirs cfg) (patient_intervals cfg)) (st, g).

(** A [DataLoader] is recorded by what it is built from: the wrapped
    dataset, the batch size and the [shuffle] flag.  The iteration over
    batches, which is torch's, is not modelled. *)
Record loader : Type := {
  dataset : SAMRamanDataset.t A;
  loader_batch_size : Z;
  shuffle : bool;
}.

(** [DataLoader(dataset, batch_size=batch_size, shuffle=shuffle)], as far
    as torch's constructor goes on these arguments.  With [shuffle=True] it
    builds a [RandomSampler], which raises [ValueError] unless
    [len(dataset)] is positive; with [shuffle=False] a [SequentialSampler],
    which checks nothing.  It then builds a [BatchSampler], which raises
    [ValueError] unless the batch size is positive. *)
Definition DataLoader (ds : SAMRamanDataset.t A) (batch_size : Z) (shuffle : bool)
  : result loader :=
  if shuffle && bool_decide (SAMRamanDataset.__len__ ds ≤ 0) then Raise ValueError
  else if decide (batch_size ≤ 0) then Raise ValueError
  else Ok {| dataset := ds; loader_batch_size := batch_size; shuffle := shuffle |}.

Definition dataset_of (s : split_set A) : SAMRamanDataset.t A :=
  {| SAMRamanDataset.spectral_data := data s; SAMRamanDataset.labels := labels s |}.

(** The three loaders, from the fields of [self] that the method reads. *)
Definition _create_dataloaders (batch_size : Z) (train_set val_set test_set : split_set A)
  : result (loader * loader * loader) :=
  let train_dataset := dataset_of train_set in
  let val_dataset := dataset_of val_set in
  let test_dataset := dataset_of test_set in
  train_loader ← DataLoader train_dataset batch_size true;
  val_loader ← DataLoader val_dataset batch_size false;
  test_loader ← DataLoader test_dataset batch_size false;
  Ok (train_loader, val_loader, test_loader).

(** The object after [__init__]. *)
Record t : Type := {
  self_cfg : config;
  label_map : gmap Z Z;
  inverse_map : gmap Z Z;
  train_set : split_set A;
  val_set : split_set A;
  test_set : split_set A;
  train_loader : loader;
  val_loader : loader;
  test_loader : loader;
}.

(** [g0] is the state of the ambient generator when the constructor is
    entered; the constructor returns the object and the state it leaves
    behind. *)
Definition __init__ (g0 : rng_state) (fs : Np.files A) (cfg : config)
  : result (t * rng_state) :=
  g ← np_random_seed (seed cfg);
  label_map ← _get_label_mapping fs cfg;
  let inverse_map := inverse_mapping_of label_map in
  '(train_set, val_set, test_set, g) ← _get_splits fs cfg label_map g;
  '(train_loader, val_loader, test_loader) ←
    _create_dataloaders (batch_size cfg) train_set val_set test_set;
  Ok ({| self_cfg := cfg; label_map := label_map; inverse_map := inverse_map;
         train_set := train_set; val_set := val_set; test_set := test_set;
         train_loader := train_loader; val_loader := val_loader;
         test_loader := test_loader |}, g).

Definition _get_original_label (self : t) (pred_idx : Z) : result Z :=
  Py.dict_getitem (inverse_map self) pred_idx.

End Splits.

End SAMRaman.

(** ** Patient blocks, as the partitioning is described

    These definitions state what the partitions are expected to be made of;
    they are not part of the program and are related to it by the theorems
    below. *)

Module Blocks.

(** Truncation of [w * 2^e] for a non-negative integer [w]: what [int]
    returns on a positive float, in integer arithmetic. *)
Definition scale (w e : Z) : Z :=
  if decide (e < 0) then w `div` 2 ^ (- e) else w * 2 ^ e.

(** The [i]-th run of [p] consecutive rows. *)
Definition patient_block {A} (p : Z) (rows : list A) (i : Z) : list A :=
  take (Z.to_nat p) (drop (Z.to_nat (i * p)) rows).

(** The [len(rows) // p] patient blocks of a sequence of rows. *)
Definition patient_blocks {A} (p : Z) (rows : list A) : list (list A) :=
  patient_block p rows <$> Np.arange (Z.of_nat (length rows) `div` p).

(** The rows after the last whole block. *)
Definition remainder {A} (p : Z) (rows : list A) : list A :=
  drop (Z.to_nat (Z.of_nat (length rows) `div` p * p)) rows.

(** A (source, label) group: the rows of one source that carry one label,
    with the patient interval of the source. *)
Record label_group (A : Type) : Type := {
  grp_interval : Z;
  grp_label : Z;
  grp_spectra : list A;
}.
Arguments grp_interval {A} _.
Arguments grp_label {A} _.
Arguments grp_spectra {A} _.

Definition groups_of {A} (spectra : list A) (labels : list Z) (p_int : Z)
  : list (label_group A) :=
  (λ l, {| grp_interval := p_int; grp_label := l;
           grp_spectra := Np.select_rows spectra (Np.eq_scalar labels l) |})
    <$> Np.unique labels.

(** The groups of one source.  A missing file counts as an empty array
    here; construction raises on it, so that the case does not arise for a
    constructed object. *)
Definition source_groups {A} (fs : Np.files A) (src : string * string * Z)
  : list (label_group A) :=
  groups_of (default [] (Np.spectra_files fs !! src.1.1))
            (default [] (Np.label_files fs !! src.1.2)) src.2.

(** The sources that generation mode processes, and their groups. *)
Definition sources (cfg : SAMRaman.config) : list (string * string * Z) :=
  SAMRaman.zip3 (SAMRaman.spectral_dirs cfg) (SAMRaman.label_dirs cfg)
                (SAMRaman.patient_intervals cfg).

Definition label_groups {A} (fs : Np.files A) (cfg : SAMRaman.config)
  : list (label_group A) :=
  sources cfg ≫= source_groups fs.

Definition group_blocks {A} (g : label_group A) : list (list A) :=
  patient_blocks (grp_interval g) (grp_spectra g).

Definition group_remainder {A} (g : label_group A) : list A :=
  remainder (grp_interval g) (grp_spectra g).

(** Every patient block of the input. *)
Definition all_patient_blocks {A} (fs : Np.files A) (cfg : SAMRaman.config)
  : list (list A) :=
  label_groups fs cfg ≫= group_blocks.

(** Every row of every spectra array that generation mode is given: the
    arrays of all the paths of [spectral_dirs], whether [zip] reaches them
    or not. *)
Definition input_samples {A} (fs : Np.files A) (cfg : SAMRaman.config) : list A :=
  SAMRaman.spectral_dirs cfg ≫= λ path, default [] (Np.spectra_files fs !! path).

(** [zip] reaches every spectra path: no other list is shorter than
    [spectral_dirs]. *)
Definition no_spectra_left_out (cfg : SAMRaman.config) : Prop :=
  (length (SAMRaman.spectral_dirs cfg) ≤ length (SAMRaman.label_dirs cfg))%nat
  ∧ (length (SAMRaman.spectral_dirs cfg) ≤ length (SAMRaman.patient_intervals cfg))%nat.

(** In every processed source the label array is as long as the spectra
    array. *)
Definition aligned_sources {A} (fs : Np.files A) (cfg : SAMRaman.config) : Prop :=
  Forall (λ src, length (default [] (Np.label_files fs !! src.1.2))
                 = length (default [] (Np.spectra_files fs !! src.1.1)))
         (sources cfg).

(** A generation-mode input on which the partitioning cannot go wrong: the
    seed is one that numpy accepts, every label file and every processed
    spectra file exists, label and spectra arrays have the same length, the
    intervals are positive and the arrays have fewer than [2^1000] rows. *)
Definition well_formed_generation {A} (fs : Np.files A) (cfg : SAMRaman.config) : Prop :=
  0 ≤ SAMRaman.seed cfg < 2 ^ 32
  ∧ Forall (λ path, is_Some (Np.label_files fs !! path)) (SAMRaman.label_dirs cfg)
  ∧ Forall (λ src, is_Some (Np.spectra_files fs !! src.1.1) ∧ 0 < src.2
                   ∧ Z.of_nat (length (default [] (Np.spectra_files fs !! src.1.1)))
                     < 2 ^ 1000)
           (sources cfg)
  ∧ aligned_sources fs cfg.

(** A partition made of blocks, each block with the code of its rows. *)
Definition assemble {A} (bs : list (list A * Z)) : SAMRaman.split_set A :=
  {| SAMRaman.data := mjoin bs.*1;
     SAMRaman.labels := bs ≫= λ b, replicate (length b.1) b.2 |}.

Definition coded_blocks {A} (lm : gmap Z Z) (g : label_group A) : list (list A * Z) :=
  (λ b, (b, default 0 (lm !! grp_label g))) <$> group_blocks g.

(** Where a coded block of a partition comes from: it is a patient block
    of some group, as long as the interval of the group, and it carries
    the code of the label of the group. *)
Definition block_origin {A} (fs : Np.files A) (cfg : SAMRaman.config)
    (lm : gmap Z Z) (bc : list A * Z) : Prop :=
  ∃ g, g ∈ label_groups fs cfg ∧ bc.1 ∈ group_blocks g
       ∧ length bc.1 = Z.to_nat (grp_interval g)
       ∧ lm !! grp_label g = Some bc.2.

(** The configuration whose aligned lists are cut to the length of the
    shortest one, for each of the two modes. *)
Definition truncate_aligned (cfg : SAMRaman.config) : SAMRaman.config :=
  let k := ((length (SAMRaman.spectral_dirs cfg) `min` length (SAMRaman.label_dirs cfg))
            `min` length (SAMRaman.patient_intervals cfg))%nat in
  let j := (((length (SAMRaman.train_data_path cfg)
              `min` length (SAMRaman.train_labels_path cfg))
             `min` length (SAMRaman.test_data_path cfg))
            `min` length (SAMRaman.test_labels_path cfg))%nat in
  {| SAMRaman.spectral_dirs := take k (SAMRaman.spectral_dirs cfg);
     SAMRaman.label_dirs := take k (SAMRaman.label_dirs cfg);
     SAMRaman.patient_intervals := take k (SAMRaman.patient_intervals cfg);
     SAMRaman.use_pre_split := SAMRaman.use_pre_split cfg;
     SAMRaman.train_data_path := take j (SAMRaman.train_data_path cfg);
     SAMRaman.train_labels_path := take j (SAMRaman.train_labels_path cfg);
     SAMRaman.test_data_path := take j (SAMRaman.test_data_path cfg);
     SAMRaman.test_labels_path := take j (SAMRaman.test_labels_path cfg);
     SAMRaman.batch_size := SAMRaman.batch_size cfg;
     SAMRaman.seed := SAMRaman.seed cfg |}.

(** Every row of every spectra array that pre-split mode is given. *)
Definition pre_split_input_samples {A} (fs : Np.files A) (cfg : SAMRaman.config)
  : list A :=
  (SAMRaman.train_data_path cfg ++ SAMRaman.test_data_path cfg)
    ≫= λ path, default [] (Np.spectra_files fs !! path).

(** Two configurations with the same seed and the same inputs: the same
    mode and the same lists among those that the mode reads.  They may
    differ in the batch size and in the lists of the other mode. *)
Definition same_inputs (c1 c2 : SAMRaman.config) : Prop :=
  SAMRaman.seed c1 = SAMRaman.seed c2
  ∧ SAMRaman.use_pre_split c1 = SAMRaman.use_pre_split c2
  ∧ if SAMRaman.use_pre_split c1 then
      SAMRaman.train_data_path c1 = SAMRaman.train_data_path c2
      ∧ SAMRaman.train_labels_path c1 = SAMRaman.train_labels_path c2
      ∧ SAMRaman.test_data_path c1 = SAMRaman.test_data_path c2
      ∧ SAMRaman.test_labels_path c1 = SAMRaman.test_labels_path c2
    else
      SAMRaman.spectral_dirs c1 = SAMRaman.spectral_dirs c2
      ∧ SAMRaman.label_dirs c1 = SAMRaman.label_dirs c2
      ∧ SAMRaman.patient_intervals c1 = SAMRaman.patient_intervals c2.

(** What a construction yields: the exception, or the three partitions in
    their order, the two maps and the state left to the generator. *)
Definition outcome {A} `{NumpyRandom} (r : result (@SAMRaman.t A * rng_state))
  : result (SAMRaman.split_set A * SAMRaman.split_set A * SAMRaman.split_set A
            * gmap Z Z * gmap Z Z * rng_state) :=
  match r with
  | Ok (o, g) =>
      Ok (SAMRaman.train_set o, SAMRaman.val_set o, SAMRaman.test_set o,
          SAMRaman.label_map o, SAMRaman.inverse_map o, g)
  | Raise e => Raise e
  end.

(** The label files read by the vocabulary construction. *)
Definition label_sources (cfg : SAMRaman.config) : list string :=
  if SAMRaman.use_pre_split cfg
  then SAMRaman.train_labels_path cfg ++ SAMRaman.test_labels_path cfg
  else SAMRaman.label_dirs cfg.

(** A raw label is seen when it occurs in one of these files. *)
Definition seen {A} (fs : Np.files A) (cfg : SAMRaman.config) (l : Z) : Prop :=
  ∃ path a, path ∈ label_sources cfg ∧ Np.label_files fs !! path = Some a ∧ l ∈ a.

End Blocks.

(** ** Shares of the partitions, and what else the further properties are
    stated with

    Like the definitions of [Blocks], these are not part of the program. *)

Module Shares.
Import Blocks.

(** The value of a result, or a default when it is an exception. *)
Definition value_or {T} (d : T) (r : result T) : T :=
  match r with Ok v => v | Raise _ => d end.

(** [num_patients] of a group: [len(label_spectra) // p_int]. *)
Definition num_patients {A} (g : label_group A) : Z :=
  Z.of_nat (length (grp_spectra g)) `div` grp_interval g.

(** The two boundaries computed for a group. *)
Definition train_end {A} (g : label_group A) : Z :=
  value_or 0 (SAMRaman.train_split_end_of (num_patients g)).
Definition validation_end {A} (g : label_group A) : Z :=
  value_or 0 (SAMRaman.validation_split_end_of (num_patients g)).

Definition sum_over {X} (f : X → Z) (xs : list X) : Z :=
  foldr (λ x s, f x + s) 0 xs.

(** What a source must be for generation mode to get through it: both
    files exist and, unless the label array is empty, the two arrays have
    the same length and the interval is not zero. *)
Definition source_passes {A} (fs : Np.files A) (src : string * string * Z) : Prop :=
  ∃ spectra labels,
    Np.spectra_files fs !! src.1.1 = Some spectra
    ∧ Np.label_files fs !! src.1.2 = Some labels
    ∧ (labels = [] ∨ (length labels = length spectra ∧ src.2 ≠ 0)).

(** The groups that pre-split mode processes. *)
Definition pre_split_groups (cfg : SAMRaman.config)
  : list (string * string * string * string) :=
  SAMRaman.zip4 (SAMRaman.train_data_path cfg) (SAMRaman.train_labels_path cfg)
                (SAMRaman.test_data_path cfg) (SAMRaman.test_labels_path cfg).

(** The test labels of all the groups of pre-split mode, in their order. *)
Definition pre_split_test_labels {A} (fs : Np.files A) (cfg : SAMRaman.config)
  : list Z :=
  pre_split_groups cfg ≫= λ grp, default [] (Np.label_files fs !! grp.2).

(** The state of the generator after one permutation of the patient indices
    of each group, drawn in the order of the groups. *)
Definition draws `{NumpyRandom} {A} (g : rng_state) (gs : list (label_group A))
  : rng_state :=
  foldl (λ g grp, (np_random_permutation g (Np.arange (num_patients grp))).2) g gs.

(** The code that the samples of a group are stored with. *)
Definition code_of {A} (lm : gmap Z Z) (g : label_group A) : Z :=
  default 0 (lm !! grp_label g).

(** [k] patients of a group, as the run of codes they are stored with. *)
Definition code_run {A} (lm : gmap Z Z) (k : label_group A → Z) (g : label_group A)
  : list Z :=
  replicate (Z.to_nat (k g * grp_interval g)) (code_of lm g).

(** A partition holds a whole patient block of a group, next to the code
    of the label of the group. *)
Definition holds_block {A} (lm : gmap Z Z) (g : label_group A)
    (part : SAMRaman.split_set A) : Prop :=
  ∃ b c, b ∈ group_blocks g ∧ lm !! grp_label g = Some c
         ∧ (∀ r, r ∈ b → r ∈ SAMRaman.data part) ∧ c ∈ SAMRaman.labels part.

(** Every code of a partition is the code of some label. *)
Definition coded_by {A} (lm : gmap Z Z) (part : SAMRaman.split_set A) : Prop :=
  Forall (λ c, ∃ l, lm !! l = Some c) (SAMRaman.labels part).

End Shares.

(** ** Shifted mantissas

    What [shr_1] keeps of a mantissa [x] after [j] steps: the quotient by
    [2^j], and the position of the remainder against the half of [2^j]. *)
Definition shifted (x j : Z) (mrs : shr_record) : Prop :=
  shr_m mrs = x `div` 2 ^ j
  ∧ loc_of_shr_record mrs
    = if decide (x `mod` 2 ^ j = 0) then loc_Exact
      else loc_Inexact (2 * (x `mod` 2 ^ j) ?= 2 ^ j).

(** ** Concrete inputs

    Small inputs on which the program is run below.  Rows are named by
    integers.  The two instances stand for numpy's generator and for
    scikit-learn's splitter on these inputs. *)

Module Examples.

(** A generator whose permutation reverses its argument; the state counts
    the draws. *)
Definition reversing_random : NumpyRandom :=
  {| rng_state := Z;
     np_random_seed_state := λ seed, seed;
     np_random_permutation := λ g l, (reverse l, g + 1);
     np_random_permutation_perm := λ g l, reverse_Permutation l |}.

(** A splitter that keeps the last quarter for validation; on the training
    arrays below, whose two labels alternate, this is a stratified split. *)
Definition quarter_splitter : Sklearn Z :=
  {| train_test_split := λ X y _,
       if decide (length X = length y) then
         let k := (length X - length X `div` 4)%nat in
         Ok (take k X, drop k X, take k y, drop k y)
       else Raise ValueError |}.

Definition config_of (spectral label : list string) (intervals : list Z)
    (pre : bool) (trd trl ted tel : list string) : SAMRaman.config :=
  {| SAMRaman.spectral_dirs := spectral; SAMRaman.label_dirs := label;
     SAMRaman.patient_intervals := intervals; SAMRaman.use_pre_split := pre;
     SAMRaman.train_data_path := trd; SAMRaman.train_labels_path := trl;
     SAMRaman.test_data_path := ted; SAMRaman.test_labels_path := tel;
     SAMRaman.batch_size := 16; SAMRaman.seed := 42 |}.

(** Twenty rows of one label. *)
Definition files_one_label : Np.files Z :=
  {| Np.spectra_files := {[ "s.npy" := Np.arange 20 ]};
     Np.label_files := {[ "l.npy" := replicate 20 5 ]} |}.

Definition cfg_one_label : SAMRaman.config :=
  config_of ["s.npy"] ["l.npy"] [2] false [] [] [] [].

(** Seven rows, three of label 0 and four of label 1, in blocks of two. *)
Definition files_two_labels : Np.files Z :=
  {| Np.spectra_files := {[ "s.npy" := Np.arange 7 ]};
     Np.label_files := {[ "l.npy" := [1; 1; 1; 0; 0; 1; 0] ]} |}.

Definition cfg_two_labels : SAMRaman.config :=
  config_of ["s.npy"] ["l.npy"] [2] false [] [] [] [].

(** One spectra path and one interval against two label paths. *)
Definition files_unequal : Np.files Z :=
  {| Np.spectra_files := {[ "s.npy" := Np.arange 4 ]};
     Np.label_files := {[ "l.npy" := [0; 0; 0; 0] ]} ∪ {[ "l2.npy" := [7] ]} |}.

Definition cfg_unequal : SAMRaman.config :=
  config_of ["s.npy"] ["l.npy"; "l2.npy"] [2] false [] [] [] [].

(** Two pre-split groups of eight training rows and one test row each. *)
Definition files_pre_split : Np.files Z :=
  {| Np.spectra_files :=
       {[ "tr1.npy" := [10; 11; 12; 13; 14; 15; 16; 17] ]} ∪ {[ "te1.npy" := [18] ]} ∪
       {[ "tr2.npy" := [20; 21; 22; 23; 24; 25; 26; 27] ]} ∪ {[ "te2.npy" := [28] ]};
     Np.label_files :=
       {[ "trl1.npy" := [0; 1; 0; 1; 0; 1; 0; 1] ]} ∪ {[ "tel1.npy" := [0] ]} ∪
       {[ "trl2.npy" := [1; 0; 1; 0; 1; 0; 1; 0] ]} ∪ {[ "tel2.npy" := [1] ]} |}.

Definition cfg_pre_split : SAMRaman.config :=
  config_of [] [] [] true
    ["tr1.npy"; "tr2.npy"] ["trl1.npy"; "trl2.npy"]
    ["te1.npy"; "te2.npy"] ["tel1.npy"; "tel2.npy"].

(** A wrapper of two pairs. *)
Definition wrapper : SAMRamanDataset.t Z :=
  {| SAMRamanDataset.spectral_data := [10; 20]; SAMRamanDataset.labels := [0; 1] |}.

Definition init_with (fs : Np.files Z) (cfg : SAMRaman.config)
  : result (SAMRaman.t * Z) :=
  @SAMRaman.__init__ Z reversing_random quarter_splitter 0 fs cfg.

(** The seven rows with another batch size and with a path of the other
    mode, which generation mode does not read. *)
Definition cfg_two_labels_other : SAMRaman.config :=
  {| SAMRaman.spectral_dirs := ["s.npy"]; SAMRaman.label_dirs := ["l.npy"];
     SAMRaman.patient_intervals := [2]; SAMRaman.use_pre_split := false;
     SAMRaman.train_data_path := ["tr1.npy"]; SAMRaman.train_labels_path := [];
     SAMRaman.test_data_path := []; SAMRaman.test_labels_path := [];
     SAMRaman.batch_size := 4; SAMRaman.seed := 42 |}.

(** The seven rows with a second spectra path, which [zip] leaves out and
    which names no file. *)
Definition cfg_unequal_spectra : SAMRaman.config :=
  config_of ["s.npy"; "absent.npy"] ["l.npy"] [2] false [] [] [] [].

(** Four rows of label 5, and a second label file with the smaller label
    3, which [zip] leaves out. *)
Definition files_low_label : Np.files Z :=
  {| Np.spectra_files := {[ "s.npy" := Np.arange 4 ]};
     Np.label_files := {[ "l.npy" := [5; 5; 5; 5] ]} ∪ {[ "l2.npy" := [3] ]} |}.

(** The seven rows and a second source of two rows, 7 and 8, with three
    ways to configure it: without a label path, with the interval [-2], and
    with an empty label array. *)
Definition files_two_sources : Np.files Z :=
  {| Np.spectra_files := {[ "s.npy" := Np.arange 7 ]} ∪ {[ "s2.npy" := [7; 8] ]};
     Np.label_files :=
       {[ "l.npy" := [1; 1; 1; 0; 0; 1; 0] ]} ∪ {[ "l2.npy" := [0; 0] ]}
       ∪ {[ "l3.npy" := [] ]} |}.

Definition cfg_left_out : SAMRaman.config :=
  config_of ["s.npy"; "s2.npy"] ["l.npy"] [2] false [] [] [] [].
Definition cfg_mixed_intervals : SAMRaman.config :=
  config_of ["s.npy"; "s2.npy"] ["l.npy"; "l2.npy"] [2; -2] false [] [] [] [].
Definition cfg_unlabelled : SAMRaman.config :=
  config_of ["s.npy"; "s2.npy"] ["l.npy"; "l3.npy"] [2; 2] false [] [] [] [].

(** The first of the two pre-split groups alone. *)
Definition cfg_pre_split_one : SAMRaman.config :=
  config_of [] [] [] true ["tr1.npy"] ["trl1.npy"] ["te1.npy"] ["tel1.npy"].

(** A configuration with another seed. *)
Definition with_seed (s : Z) (cfg : SAMRaman.config) : SAMRaman.config :=
  {| SAMRaman.spectral_dirs := SAMRaman.spectral_dirs cfg;
     SAMRaman.label_dirs := SAMRaman.label_dirs cfg;
     SAMRaman.patient_intervals := SAMRaman.patient_intervals cfg;
     SAMRaman.use_pre_split := SAMRaman.use_pre_split cfg;
     SAMRaman.train_data_path := SAMRaman.train_data_path cfg;
     SAMRaman.train_labels_path := SAMRaman.train_labels_path cfg;
     SAMRaman.test_data_path := SAMRaman.test_data_path cfg;
     SAMRaman.test_labels_path := SAMRaman.test_labels_path cfg;
     SAMRaman.batch_size := SAMRaman.batch_size cfg;
     SAMRaman.seed := s |}.

(** The seven rows with a seed that numpy refuses. *)
Definition cfg_bad_seed : SAMRaman.config := with_seed (2 ^ 32) cfg_two_labels.

(** The seven rows with a second label path that names no file. *)
Definition cfg_absent_labels : SAMRaman.config :=
  config_of ["s.npy"] ["l.npy"; "absent.npy"] [2] false [] [] [] [].

(** The seven rows with the intervals 0 and -2. *)
Definition cfg_zero_interval : SAMRaman.config :=
  config_of ["s.npy"] ["l.npy"] [0] false [] [] [] [].
Definition cfg_negative_interval : SAMRaman.config :=
  config_of ["s.npy"] ["l.npy"] [-2] false [] [] [] [].

(** The seven rows in blocks of four: one whole block, of label 1. *)
Definition cfg_one_patient : SAMRaman.config :=
  config_of ["s.npy"] ["l.npy"] [4] false [] [] [] [].

(** The two label paths of [cfg_unequal] in the other order. *)
Definition cfg_unequal_swapped : SAMRaman.config :=
  config_of ["s.npy"] ["l2.npy"; "l.npy"] [2] false [] [] [] [].

(** A pre-split group whose training labels are fewer than its rows. *)
Definition cfg_ragged : SAMRaman.config :=
  config_of [] [] [] true ["tr1.npy"] ["tel1.npy"] ["te1.npy"] ["tel1.npy"].

End Examples.

(** * Properties *)

(** ** Rounding of binary64 products

    The split boundaries are truncations of rounded products.  What the
    partitioning needs from them is their order; it follows from a bound on
    the rounding error of [binary_round_aux], proved here on the integer
    mantissas. *)

Section Rounding.

Lemma digits2_pos_size p : digits2_pos p = Pos.size p.
Proof. induction p; simpl; congruence. Qed.

Lemma Zdigits2_log2 p : Zdigits2 (Zpos p) = Z.log2 (Zpos p) + 1.
Proof. simpl. rewrite digits2_pos_size. destruct p; simpl; lia. Qed.

Lemma Zdigits2_bounds p :
  2 ^ (Zdigits2 (Zpos p) - 1) ≤ Zpos p < 2 ^ Zdigits2 (Zpos p).
Proof.
  rewrite Zdigits2_log2.
  replace (Z.log2 (Z.pos p) + 1 - 1) with (Z.log2 (Z.pos p)) by lia.
  apply (Z.log2_spec (Zpos p)). lia.
Qed.

Lemma Zdigits2_unique p d :
  2 ^ (d - 1) ≤ Zpos p < 2 ^ d → 1 ≤ d → Zdigits2 (Zpos p) = d.
Proof.
  intros Hb Hd. rewrite Zdigits2_log2.
  rewrite (Z.log2_unique (Zpos p) (d - 1)); [lia | lia |].
  replace (Z.succ (d - 1)) with d by lia. exact Hb.
Qed.

Lemma shr_1_m mrs : 0 ≤ shr_m mrs → shr_m (shr_1 mrs) = shr_m mrs `div` 2.
Proof.
  destruct mrs as [m r s]. simpl. intros Hm.
  destruct m as [|[p|p|]|p]; cbn [shr_1 shr_m orb]; try lia; try reflexivity.
  - apply (Z.div_unique _ _ _ 1); lia.
  - apply (Z.div_unique _ _ _ 0); lia.
Qed.

Lemma iter_pos_shr_m k mrs :
  0 ≤ shr_m mrs →
  shr_m (SpecFloat.iter_pos shr_1 k mrs) = shr_m mrs `div` 2 ^ Zpos k.
Proof.
  revert mrs. induction k as [k IH|k IH|]; intros mrs Hm; simpl SpecFloat.iter_pos.
  - assert (H1 : 0 ≤ shr_m (shr_1 mrs)).
    { rewrite shr_1_m by done. apply Z.div_pos; lia. }
    assert (H2 : 0 ≤ shr_m (SpecFloat.iter_pos shr_1 k (shr_1 mrs))).
    { rewrite IH by done. apply Z.div_pos; lia. }
    rewrite IH, IH, shr_1_m by done.
    rewrite !Z.div_div by lia. f_equal.
    replace (Zpos k~1) with (1 + Zpos k + Zpos k) by lia.
    rewrite !Z.pow_add_r by lia. change (2 ^ 1) with 2. lia.
  - assert (H2 : 0 ≤ shr_m (SpecFloat.iter_pos shr_1 k mrs)).
    { rewrite IH by done. apply Z.div_pos; lia. }
    rewrite IH, IH by done. rewrite Z.div_div by lia. f_equal.
    replace (Zpos k~0) with (Zpos k + Zpos k) by lia.
    rewrite Z.pow_add_r by lia. reflexivity.
  - rewrite shr_1_m by done. reflexivity.
Qed.

Lemma round_nearest_even_bounds m l : m ≤ round_nearest_even m l ≤ m + 1.
Proof. destruct l as [|[]]; simpl; try destruct (Z.even m); lia. Qed.

(** Above the subnormal range the shift is the excess of digits over 53. *)
Lemma shr_fexp_exact_spec (m : positive) e :
  -1074 ≤ Zdigits2 (Zpos m) + e - 53 →
  shr_fexp 53 1024 (Zpos m) e loc_Exact =
    match Zdigits2 (Zpos m) - 53 with
    | Zpos k => (SpecFloat.iter_pos shr_1 k (Build_shr_record (Zpos m) false false),
                 e + (Zdigits2 (Zpos m) - 53))
    | _ => (Build_shr_record (Zpos m) false false, e)
    end.
Proof.
  intros Hd. unfold shr_fexp, fexp, SpecFloat.emin, shr.
  cbn [shr_record_of_loc].
  replace (Z.max (Zdigits2 (Z.pos m) + e - 53) (3 - 1024 - 53) - e)
    with (Zdigits2 (Zpos m) - 53) by lia.
  reflexivity.
Qed.

Lemma round_bound_arith m m1 m2 P :
  0 < P → m1 = m `div` P → 2 ^ 52 ≤ m1 → m1 ≤ m2 ≤ m1 + 1 →
  m * (2 ^ 52 - 1) ≤ m2 * P * 2 ^ 52 ≤ m * (2 ^ 52 + 1).
Proof.
  intros HP Hm1 Hlo Hm2.
  pose proof (Z.div_mod m P ltac:(lia)) as Hdm.
  pose proof (Z.mod_pos_bound m P HP) as Hr.
  rewrite <- Hm1 in Hdm. set (r := m `mod` P) in *. clearbody r.
  set (c := 2 ^ 52) in *. assert (Hc : 0 < c) by (subst c; lia). clearbody c.
  subst m.
  assert (H1 : P * c ≤ P * m1) by (apply Z.mul_le_mono_nonneg_l; lia).
  assert (H2 : r * c ≤ P * c) by (apply Z.mul_le_mono_nonneg_r; lia).
  assert (H3 : m1 * (P * c) ≤ m2 * (P * c)) by (apply Z.mul_le_mono_nonneg_r; nia).
  assert (H4 : m2 * (P * c) ≤ (m1 + 1) * (P * c)) by (apply Z.mul_le_mono_nonneg_r; nia).
  nia.
Qed.

(** Rounding a positive mantissa of [d] digits to 53 bits, above the
    subnormal range: the exponent grows by the excess of [d] over 53, and by
    one more when the rounded mantissa reaches [2^53]; the value moves by a
    factor within [1 ± 2^-52]; the result is infinite exactly when the new
    exponent exceeds 971. *)
Lemma binary_round_aux_shape (m : positive) (e : Z) :
  -1074 ≤ Zdigits2 (Zpos m) + e - 53 →
  ∃ m' k, 0 ≤ k ≤ Z.max 0 (Zdigits2 (Zpos m) - 53) + 1 ∧
    binary_round_aux 53 1024 false (Zpos m) e loc_Exact
    = (if e + k <=? 971 then S754_finite false m' (e + k) else S754_infinity false) ∧
    Zpos m * (2 ^ 52 - 1) ≤ Zpos m' * 2 ^ k * 2 ^ 52 ≤ Zpos m * (2 ^ 52 + 1) ∧
    (53 ≤ Zdigits2 (Zpos m) → Zdigits2 (Zpos m') = 53).
Proof.
  intros Hd. unfold binary_round_aux.
  rewrite shr_fexp_exact_spec by done.
  pose proof (Zdigits2_bounds m) as Hm.
  destruct (Zdigits2 (Zpos m) - 53) as [|k|k] eqn:Hk.
  - cbn [shr_m loc_of_shr_record round_nearest_even].
    rewrite shr_fexp_exact_spec by done. rewrite Hk. cbn [shr_m].
    exists m, 0. rewrite Z.add_0_r. split_and!; [lia|lia|done|lia|lia|lia].
  - set (mrs := SpecFloat.iter_pos shr_1 k _).
    assert (Hm1 : shr_m mrs = Zpos m `div` 2 ^ Zpos k).
    { subst mrs. by rewrite iter_pos_shr_m. }
    assert (HP : 0 < 2 ^ Zpos k) by (apply Z.pow_pos_nonneg; lia).
    assert (Hd' : Zdigits2 (Zpos m) = 53 + Zpos k) by lia.
    rewrite Hd' in Hm.
    replace (53 + Zpos k - 1) with (52 + Zpos k) in Hm by lia.
    rewrite !Z.pow_add_r in Hm by lia.
    assert (Hlo : 2 ^ 52 ≤ shr_m mrs).
    { rewrite Hm1. apply Z.div_le_lower_bound; lia. }
    assert (Hhi : shr_m mrs < 2 ^ 53).
    { rewrite Hm1. apply Z.div_lt_upper_bound; lia. }
    pose proof (round_nearest_even_bounds (shr_m mrs) (loc_of_shr_record mrs)) as Hr.
    set (m2 := round_nearest_even _ _) in *.
    pose proof (round_bound_arith (Zpos m) (shr_m mrs) m2 (2 ^ Zpos k) HP Hm1 Hlo Hr) as Hb.
    destruct m2 as [|q|q] eqn:Hq; [lia| |lia].
    destruct (decide (Zpos q < 2 ^ 53)) as [Hlt|Hge].
    + assert (Hdq : Zdigits2 (Zpos q) = 53).
      { apply Zdigits2_unique; [|lia]. change (53 - 1) with 52. lia. }
      rewrite shr_fexp_exact_spec by lia. rewrite Hdq.
      change (53 - 53) with 0. cbn [shr_m].
      exists q, (Zpos k). split_and!; [lia|lia|done|lia|lia|done].
    + assert (Hq53 : Zpos q = 2 ^ 53) by lia.
      assert (Hdq : Zdigits2 (Zpos q) = 54) by (rewrite Hq53; reflexivity).
      rewrite shr_fexp_exact_spec by lia. rewrite Hdq.
      change (54 - 53) with 1. cbn [SpecFloat.iter_pos].
      rewrite shr_1_m by (cbn; lia). cbn [shr_m]. rewrite Hq53.
      change (2 ^ 53 `div` 2) with (Zpos (2 ^ 52)%positive).
      rewrite Hq53 in Hb. change (2 ^ 53) with (2 ^ 52 * 2) in Hb.
      exists (2 ^ 52)%positive, (Zpos k + 1).
      rewrite Z.pow_add_r by lia. change (Zpos (2 ^ 52)) with (2 ^ 52).
      change (2 ^ 1) with 2. rewrite Z.add_assoc.
      split_and!; [lia|lia|done|lia|lia|done].
  - cbn [shr_m loc_of_shr_record round_nearest_even].
    rewrite shr_fexp_exact_spec by done. rewrite Hk. cbn [shr_m].
    exists m, 0. rewrite Z.add_0_r. split_and!; [lia|lia|done|lia|lia|lia].
Qed.

(** In particular the result overflows or is a positive float whose exponent
    did not decrease and whose value is within a factor [1 ± 2^-52] of the
    exact one. *)
Lemma binary_round_aux_spec (m : positive) (e : Z) :
  -1074 ≤ Zdigits2 (Zpos m) + e - 53 →
  binary_round_aux 53 1024 false (Zpos m) e loc_Exact = S754_infinity false ∨
  ∃ m' k, 0 ≤ k ∧
    binary_round_aux 53 1024 false (Zpos m) e loc_Exact = S754_finite false m' (e + k) ∧
    Zpos m * (2 ^ 52 - 1) ≤ Zpos m' * 2 ^ k * 2 ^ 52 ≤ Zpos m * (2 ^ 52 + 1).
Proof.
  intros (m' & k & Hk & Heq & Hb & _)%binary_round_aux_shape.
  destruct (e + k <=? 971); [right|by left].
  exists m', k. split_and!; [lia|done|lia|lia].
Qed.

(** It does not overflow when the exact value is below [2^1023]. *)
Lemma binary_round_aux_finite (m : positive) (e : Z) :
  53 ≤ Zdigits2 (Zpos m) → -1074 ≤ Zdigits2 (Zpos m) + e - 53 →
  Zdigits2 (Zpos m) + e ≤ 1023 →
  ∃ m' k, 0 ≤ k ≤ Zdigits2 (Zpos m) - 52 ∧
    binary_round_aux 53 1024 false (Zpos m) e loc_Exact = S754_finite false m' (e + k) ∧
    Zdigits2 (Zpos m') = 53.
Proof.
  intros Hd53 Hd Hhi.
  destruct (binary_round_aux_shape m e Hd) as (m' & k & Hk & Heq & _ & Hdig).
  exists m', k. rewrite Heq.
  destruct (Z.leb_spec (e + k) 971); [|lia].
  split_and!; [lia|lia|done|by apply Hdig].
Qed.

Lemma Zdigits2_le (p : positive) (d : Z) : Zpos p < 2 ^ d → 0 ≤ d → Zdigits2 (Zpos p) ≤ d.
Proof.
  intros Hp Hd. pose proof (Zdigits2_bounds p) as [Hlo _].
  assert (Hlt : 2 ^ (Zdigits2 (Zpos p) - 1) < 2 ^ d) by lia.
  apply Z.pow_lt_mono_r_iff in Hlt; lia.
Qed.

Lemma Zdigits2_ge (p : positive) (d : Z) : 2 ^ (d - 1) ≤ Zpos p → d ≤ Zdigits2 (Zpos p).
Proof.
  intros Hp. pose proof (Zdigits2_bounds p) as [_ Hhi].
  assert (0 < Zdigits2 (Zpos p)) by (simpl; lia).
  destruct (decide (d - 1 < 0)); [lia|].
  assert (Hlt : 2 ^ (d - 1) < 2 ^ Zdigits2 (Zpos p)) by lia.
  apply Z.pow_lt_mono_r_iff in Hlt; lia.
Qed.

Lemma iter_xO_pow2 (p j : positive) : Zpos (Pos.iter xO p j) = Zpos p * 2 ^ Zpos j.
Proof.
  rewrite <- Z.shiftl_mul_pow2 by lia. cbn [Z.shiftl].
  apply (Pos.iter_swap_gen _ _ Zpos xO (Z.mul 2)). intros a. lia.
Qed.

End Rounding.

(** ** The split boundaries *)

Section SplitBoundaries.

Lemma scale_mono w1 w2 e : 0 ≤ w1 ≤ w2 → 0 ≤ Blocks.scale w1 e ≤ Blocks.scale w2 e.
Proof.
  intros Hw. unfold Blocks.scale. case_decide.
  - assert (0 < 2 ^ (- e)) by (apply Z.pow_pos_nonneg; lia).
    split; [apply Z.div_pos; lia | apply Z.div_le_mono; lia].
  - assert (0 < 2 ^ e) by (apply Z.pow_pos_nonneg; lia). nia.
Qed.

Lemma int_of_float_scale (m : positive) (e k : Z) :
  0 ≤ k →
  Py.int_of_float (S754_finite false m (e + k)) = Ok (Blocks.scale (Zpos m * 2 ^ k) e).
Proof.
  intros Hk. unfold Py.int_of_float, Blocks.scale. f_equal.
  assert (HP : 0 < 2 ^ k) by (apply Z.pow_pos_nonneg; lia).
  destruct (e + k) as [|j|j] eqn:Hj.
  - rewrite Z.shiftl_mul_pow2 by lia. case_decide.
    + replace k with (- e) by lia. rewrite Z.div_mul by lia. simpl. lia.
    + replace k with 0 by lia. replace e with 0 by lia. simpl. lia.
  - rewrite Z.shiftl_mul_pow2 by lia. case_decide.
    + replace k with (Zpos j + - e) by lia.
      assert (0 < 2 ^ (- e)) by (apply Z.pow_pos_nonneg; lia).
      rewrite Z.pow_add_r, Z.mul_assoc, Z.div_mul by lia. reflexivity.
    + replace (Zpos j) with (k + e) by lia.
      rewrite Z.pow_add_r by lia. lia.
  - rewrite Z.shiftr_div_pow2 by lia. case_decide; [|lia].
    replace (- e) with (Zpos j + k) by lia.
    assert (0 < 2 ^ Zpos j) by (apply Z.pow_pos_nonneg; lia).
    rewrite Z.pow_add_r by lia.
    rewrite Z.div_mul_cancel_r by lia. reflexivity.
Qed.

(** A positive [int] converts to a positive double whose exponent is at
    least [-52], or overflows. *)
Lemma float_of_int_pos (n : Z) (y : spec_float) :
  0 < n → Py.float_of_int n = Ok y →
  ∃ my ey, y = S754_finite false my ey ∧ -52 ≤ ey.
Proof.
  intros Hn. unfold Py.float_of_int, Py.double_of_Z, binary_normalize.
  destruct n as [|p|p]; [lia| |lia].
  unfold binary_round, shl_align, fexp, SpecFloat.emin, Py.prec, Py.emax.
  pose proof (Zdigits2_bounds p) as Hp.
  assert (Hd : 1 ≤ Zdigits2 (Zpos p)) by (simpl; lia).
  change (Zpos (digits2_pos p)) with (Zdigits2 (Zpos p)).
  set (d := Zdigits2 (Zpos p)) in *.
  replace (Z.max (d + 0 - 53) (3 - 1024 - 53) - 0) with (d - 53) by lia.
  replace (Z.max (d + 0 - 53) (3 - 1024 - 53)) with (d - 53) by lia.
  destruct (d - 53) as [|j|j] eqn:Hj.
  - destruct (binary_round_aux_spec p 0) as [Hinf|(m' & k & Hk & Hfin & _)];
      [fold d; lia | rewrite Hinf; done | rewrite Hfin].
    intros [= <-]. exists m', (0 + k). split; [done|lia].
  - destruct (binary_round_aux_spec p 0) as [Hinf|(m' & k & Hk & Hfin & _)];
      [fold d; lia | rewrite Hinf; done | rewrite Hfin].
    intros [= <-]. exists m', (0 + k). split; [done|lia].
  - set (mz := Pos.iter xO p j).
    assert (Hz : 1 ≤ Zdigits2 (Zpos mz)) by (simpl; lia).
    destruct (binary_round_aux_spec mz (Zneg j)) as [Hinf|(m' & k & Hk & Hfin & _)];
      [lia | rewrite Hinf; done | rewrite Hfin].
    intros [= <-]. exists m', (Zneg j + k). split; [done|lia].
Qed.

Lemma train_split_value :
  SAMRaman.train_split = S754_finite false 6305039478318694 (-53).
Proof. vm_compute. reflexivity. Qed.

Lemma validation_boundary_value :
  Py.float_add SAMRaman.train_split SAMRaman.validation_split
  = S754_finite false 7656119366529843 (-53).
Proof. vm_compute. reflexivity. Qed.

(** [int(c * n)] for a double [c = mc * 2^-53] and a positive int [n], when
    it is defined: the truncation of an integer within [1 ± 2^-52] of
    [mc * my], scaled by the exponent of the exact product. *)
Lemma int_mul_spec (mc : positive) (n a : Z) (y : spec_float) :
  0 < n → Py.float_of_int n = Ok y →
  (x ← Py.float_mul_int (S754_finite false mc (-53)) n; Py.int_of_float x) = Ok a →
  ∃ my ey w, y = S754_finite false my ey ∧ 0 ≤ w ∧ a = Blocks.scale w (-53 + ey) ∧
    Zpos mc * Zpos my * (2 ^ 52 - 1) ≤ w * 2 ^ 52 ≤ Zpos mc * Zpos my * (2 ^ 52 + 1).
Proof.
  intros Hn Hy. unfold Py.float_mul_int. rewrite Hy. cbn [mbind result_bind].
  destruct (float_of_int_pos n y Hn Hy) as (my & ey & -> & Hey).
  unfold Py.float_mul, SFmul, Py.prec, Py.emax. cbn [xorb].
  assert (Hd : 1 ≤ Zdigits2 (Zpos (mc * my))) by (simpl; lia).
  destruct (binary_round_aux_spec (mc * my) (-53 + ey))
    as [Hinf|(m' & k & Hk & Hfin & Hb)]; [lia | rewrite Hinf; done | rewrite Hfin].
  rewrite int_of_float_scale by done. intros [= <-].
  exists my, ey, (Zpos m' * 2 ^ k). split_and!; [done| |done| |].
  - assert (0 < 2 ^ k) by (apply Z.pow_pos_nonneg; lia). lia.
  - rewrite <- Pos2Z.inj_mul. lia.
  - rewrite <- Pos2Z.inj_mul. lia.
Qed.

(** The two boundaries are ordered, whatever the number of patients. *)
Lemma split_ends_ordered (n a b : Z) :
  0 ≤ n →
  SAMRaman.train_split_end_of n = Ok a →
  SAMRaman.validation_split_end_of n = Ok b →
  0 ≤ a ≤ b.
Proof.
  intros Hn. unfold SAMRaman.train_split_end_of, SAMRaman.validation_split_end_of.
  rewrite validation_boundary_value, train_split_value.
  destruct (decide (n = 0)) as [->|Hn0].
  { vm_compute. intros [= <-] [= <-]. done. }
  destruct (Py.float_of_int n) as [y|ex] eqn:Hy; last first.
  { unfold Py.float_mul_int. rewrite Hy. done. }
  intros Ha Hb.
  destruct (int_mul_spec _ n a y ltac:(lia) Hy Ha) as (my & ey & wa & Hya & Hwa & -> & Hba).
  destruct (int_mul_spec _ n b y ltac:(lia) Hy Hb) as (my' & ey' & wb & Hyb & Hwb & -> & Hbb).
  rewrite Hya in Hyb. injection Hyb as <- <-.
  apply scale_mono. split; [done|].
  assert (Hc : Zpos 6305039478318694 * (2 ^ 52 + 1) ≤ Zpos 7656119366529843 * (2 ^ 52 - 1))
    by (vm_compute; discriminate).
  assert (Hmy : 0 < Zpos my) by lia.
  set (c := 2 ^ 52) in *. assert (0 < c) by (subst c; lia).
  assert (wa * c ≤ wb * c) by nia.
  nia.
Qed.

(** A positive [int] below [2^1000] converts to a normal double. *)
Lemma float_of_int_finite (n : Z) :
  0 < n < 2 ^ 1000 →
  ∃ my ey, Py.float_of_int n = Ok (S754_finite false my ey)
           ∧ Zdigits2 (Zpos my) = 53 ∧ -52 ≤ ey ≤ 948.
Proof.
  intros [Hn Hhi]. unfold Py.float_of_int, Py.double_of_Z, binary_normalize.
  destruct n as [|p|p]; [lia| |lia].
  unfold binary_round, shl_align, fexp, SpecFloat.emin, Py.prec, Py.emax.
  pose proof (Zdigits2_bounds p) as Hp.
  assert (Hd : 1 ≤ Zdigits2 (Zpos p)) by (simpl; lia).
  assert (Hd' : Zdigits2 (Zpos p) ≤ 1000) by (apply Zdigits2_le; lia).
  change (Zpos (digits2_pos p)) with (Zdigits2 (Zpos p)).
  set (d := Zdigits2 (Zpos p)) in *.
  replace (Z.max (d + 0 - 53) (3 - 1024 - 53) - 0) with (d - 53) by lia.
  replace (Z.max (d + 0 - 53) (3 - 1024 - 53)) with (d - 53) by lia.
  destruct (d - 53) as [|j|j] eqn:Hj.
  - destruct (binary_round_aux_finite p 0) as (m' & k & Hk & -> & Hdig);
      [fold d; lia..|]. fold d in Hk.
    exists m', (0 + k). split_and!; [done|done|lia|lia].
  - destruct (binary_round_aux_finite p 0) as (m' & k & Hk & -> & Hdig);
      [fold d; lia..|]. fold d in Hk.
    exists m', (0 + k). split_and!; [done|done|lia|lia].
  - set (mz := Pos.iter xO p j).
    assert (Hz : Zdigits2 (Zpos mz) = 53).
    { apply Zdigits2_unique; [|lia]. subst mz. rewrite iter_xO_pow2.
      assert (HP : 0 < 2 ^ Zpos j) by (apply Z.pow_pos_nonneg; lia).
      replace (2 ^ (53 - 1)) with (2 ^ (d - 1) * 2 ^ Zpos j)
        by (rewrite <- Z.pow_add_r by lia; f_equal; lia).
      replace (2 ^ 53) with (2 ^ d * 2 ^ Zpos j)
        by (rewrite <- Z.pow_add_r by lia; f_equal; lia).
      split; [apply Z.mul_le_mono_nonneg_r; lia|apply Z.mul_lt_mono_pos_r; lia]. }
    destruct (binary_round_aux_finite mz (Zneg j)) as (m' & k & Hk & -> & Hdig);
      [lia..|]. rewrite Hz in Hk.
    exists m', (Zneg j + k). split_and!; [done|done|lia|lia].
Qed.

(** The product of a double of [[0.5, 1)] with such a double is finite. *)
Lemma float_mul_finite (mc my : positive) (ey : Z) :
  Zdigits2 (Zpos mc) = 53 → Zdigits2 (Zpos my) = 53 → -52 ≤ ey ≤ 948 →
  ∃ m e, Py.float_mul (S754_finite false mc (-53)) (S754_finite false my ey)
         = S754_finite false m e.
Proof.
  intros Hc Hy Hey. unfold Py.float_mul, SFmul, Py.prec, Py.emax. cbn [xorb].
  pose proof (Zdigits2_bounds mc) as Hbc. pose proof (Zdigits2_bounds my) as Hby.
  rewrite Hc in Hbc. rewrite Hy in Hby. change (53 - 1) with 52 in *.
  assert (Hlo : 105 ≤ Zdigits2 (Zpos (mc * my))).
  { apply Zdigits2_ge. rewrite Pos2Z.inj_mul. change (105 - 1) with (52 + 52).
    rewrite Z.pow_add_r by lia. nia. }
  assert (Hhi : Zdigits2 (Zpos (mc * my)) ≤ 106).
  { apply Zdigits2_le; [|lia]. rewrite Pos2Z.inj_mul. change 106 with (53 + 53).
    rewrite Z.pow_add_r by lia. nia. }
  destruct (binary_round_aux_finite (mc * my) (-53 + ey)) as (m' & k & _ & -> & _);
    [lia..|]. by eexists _, _.
Qed.

(** Both boundaries are defined for any number of patients below [2^1000]. *)
Lemma split_ends_defined (n : Z) :
  0 ≤ n < 2 ^ 1000 →
  ∃ a b, SAMRaman.train_split_end_of n = Ok a
         ∧ SAMRaman.validation_split_end_of n = Ok b.
Proof.
  intros [Hn Hhi]. unfold SAMRaman.train_split_end_of, SAMRaman.validation_split_end_of.
  rewrite validation_boundary_value, train_split_value.
  destruct (decide (n = 0)) as [->|Hn0].
  { exists 0, 0. split; vm_compute; reflexivity. }
  destruct (float_of_int_finite n) as (my & ey & Hy & Hdig & Hey); [lia|].
  unfold Py.float_mul_int. rewrite Hy. cbn [mbind result_bind].
  destruct (float_mul_finite 6305039478318694 my ey) as (m1 & e1 & ->);
    [reflexivity|done..|].
  destruct (float_mul_finite 7656119366529843 my ey) as (m2 & e2 & ->);
    [reflexivity|done..|].
  unfold Py.int_of_float. by eexists _, _.
Qed.

End SplitBoundaries.

(** ** Slices and loops *)

Section Slices.
Context {T : Type}.
Implicit Types l : list T.

Lemma slice_nil lo hi : Py.slice lo hi ([] : list T) = [].
Proof. unfold Py.slice. by rewrite drop_nil, take_nil. Qed.

Lemma slice_prefix l a :
  0 ≤ a → Py.slice None (Some a) l = take (Z.to_nat a) l.
Proof.
  intros Ha. unfold Py.slice, Py.slice_bound.
  rewrite decide_False by lia. rewrite Nat.sub_0_r, drop_0.
  destruct (decide (a ≤ Z.of_nat (length l))).
  - f_equal. lia.
  - rewrite !take_ge; [done| |]; lia.
Qed.

Lemma slice_suffix l b :
  0 ≤ b → Py.slice (Some b) None l = drop (Z.to_nat b) l.
Proof.
  intros Hb. unfold Py.slice, Py.slice_bound.
  rewrite decide_False by lia.
  rewrite take_ge by (rewrite length_drop; lia).
  destruct (decide (b ≤ Z.of_nat (length l))).
  - f_equal. lia.
  - rewrite !drop_ge; [done| |]; lia.
Qed.

Lemma slice_middle l a b :
  0 ≤ a → 0 ≤ b →
  Py.slice (Some a) (Some b) l = take (Z.to_nat b - Z.to_nat a) (drop (Z.to_nat a) l).
Proof.
  intros Ha Hb. unfold Py.slice, Py.slice_bound.
  rewrite !decide_False by lia.
  destruct (decide (a ≤ Z.of_nat (length l))).
  - replace (Z.to_nat (a `min` Z.of_nat (length l))) with (Z.to_nat a) by lia.
    destruct (decide (b ≤ Z.of_nat (length l))).
    + do 2 f_equal. lia.
    + rewrite !take_ge; [done| |]; rewrite length_drop; lia.
  - rewrite !drop_ge by lia. by rewrite !take_nil.
Qed.

Lemma elem_of_slice l lo hi x : x ∈ Py.slice lo hi l → x ∈ l.
Proof.
  unfold Py.slice. intros (i & Hi & _)%elem_of_take.
  rewrite lookup_drop in Hi. by eapply list_elem_of_lookup_2.
Qed.

(** Three slices at ordered boundaries cut the sequence in three. *)
Lemma slice_three l a b :
  0 ≤ a ≤ b →
  Py.slice None (Some a) l ++ Py.slice (Some a) (Some b) l ++ Py.slice (Some b) None l = l.
Proof.
  intros [Ha Hab].
  rewrite slice_prefix, slice_middle, slice_suffix by lia.
  transitivity (take (Z.to_nat a) l ++ drop (Z.to_nat a) l); [|apply take_drop].
  f_equal.
  transitivity (take (Z.to_nat b - Z.to_nat a) (drop (Z.to_nat a) l)
                ++ drop (Z.to_nat b - Z.to_nat a) (drop (Z.to_nat a) l));
    [|apply take_drop].
  f_equal. rewrite drop_drop. f_equal. lia.
Qed.

(** The slice that the loops take for patient [i] is block [i]. *)
Lemma slice_block l p i :
  0 ≤ p → 0 ≤ i →
  Py.slice (Some (i * p)) (Some (i * p + p)) l = Blocks.patient_block p l i.
Proof.
  intros Hp Hi. rewrite slice_middle by lia. unfold Blocks.patient_block.
  do 2 f_equal. lia.
Qed.

Lemma patient_block_length l p i :
  0 ≤ p → 0 ≤ i → i < Z.of_nat (length l) `div` p →
  length (Blocks.patient_block p l i) = Z.to_nat p.
Proof.
  intros Hp Hi Hlt. unfold Blocks.patient_block.
  rewrite length_take, length_drop.
  assert (Hp' : 0 < p).
  { destruct (decide (p = 0)) as [->|]; [|lia]. rewrite Z.div_0_r in Hlt. lia. }
  pose proof (Z.mul_div_le (Z.of_nat (length l)) p Hp') as Hle.
  assert ((i + 1) * p ≤ Z.of_nat (length l) `div` p * p) by nia.
  lia.
Qed.

End Slices.

Section Loops.
Context {S X : Type}.

Lemma for_loop_app (body : S → X → result S) xs ys s :
  for_loop body (xs ++ ys) s = (s' ← for_loop body xs s; for_loop body ys s').
Proof.
  revert s. induction xs as [|x xs IH]; intros s; [done|].
  simpl. destruct (body s x) as [s'|e]; [apply IH|done].
Qed.

(** A loop whose body keeps an invariant, whenever it returns. *)
Lemma for_loop_invariant (I : S → Prop) (body : S → X → result S) xs s s' :
  (∀ s x s', x ∈ xs → I s → body s x = Ok s' → I s') →
  I s → for_loop body xs s = Ok s' → I s'.
Proof.
  revert s. induction xs as [|x xs IH]; intros s Hbody Hs; simpl.
  - by intros [= <-].
  - destruct (body s x) as [s1|e] eqn:Hb; [|done]. cbn [mbind result_bind].
    apply IH; [|by eapply Hbody; [left|..]].
    intros ??? Hin. apply Hbody. by right.
Qed.

End Loops.

(** ** Generation mode: what each loop adds to the partitions *)

Section Generation.
Context {A : Type} `{NumpyRandom} `{Sklearn A}.
Import SAMRaman Blocks.

Implicit Types (bs cs : list (list A * Z)) (rows spectra : list A).
Implicit Types (lm : gmap Z Z) (labels : list Z) (g : rng_state).

Lemma assemble_app bs cs :
  assemble (bs ++ cs) =
    {| data := data (assemble bs) ++ mjoin cs.*1;
       labels := labels (assemble bs) ++ (cs ≫= λ b, replicate (length b.1) b.2) |}.
Proof. unfold assemble. simpl. by rewrite fmap_app, join_app, bind_app. Qed.

Lemma arange_bounds (n : Z) : Forall (λ i, 0 ≤ i < n) (Np.arange n).
Proof.
  unfold Np.arange. apply Forall_fmap, Forall_forall.
  intros i [_ Hi]%elem_of_seq. simpl. lia.
Qed.

Lemma arange_nonpos (n : Z) : n ≤ 0 → Np.arange n = [].
Proof. intros Hn. unfold Np.arange. by replace (Z.to_nat n) with 0%nat by lia. Qed.

Lemma extend_block_some lm l p rows code part i :
  lm !! l = Some code →
  extend_block lm l p rows part i
  = Ok {| data := data part ++ Py.slice (Some (i * p)) (Some (i * p + p)) rows;
          labels := labels part ++ Py.list_repeat code p |}.
Proof. intros Hl. unfold extend_block, Py.dict_getitem. by rewrite Hl. Qed.

Lemma extend_block_none lm l p rows part i :
  lm !! l = None → extend_block lm l p rows part i = Raise KeyError.
Proof. intros Hl. unfold extend_block, Py.dict_getitem. by rewrite Hl. Qed.

(** With a code for the label, the loop over patient indices appends one
    coded block per index. *)
Lemma for_loop_extend_block_some lm l p rows code idxs bs :
  lm !! l = Some code → 0 ≤ p →
  Forall (λ i, 0 ≤ i < Z.of_nat (length rows) `div` p) idxs →
  for_loop (extend_block lm l p rows) idxs (assemble bs)
  = Ok (assemble (bs ++ ((λ i, (patient_block p rows i, code)) <$> idxs))).
Proof.
  intros Hl Hp. revert bs. induction idxs as [|i idxs IH]; intros bs Hidx.
  - simpl. by rewrite app_nil_r.
  - apply Forall_cons in Hidx as [Hi Hidx]. cbn [for_loop].
    rewrite (extend_block_some _ _ _ _ code) by done. cbn [mbind result_bind].
    rewrite slice_block by lia.
    replace {| data := _; labels := _ |}
      with (assemble (bs ++ [(patient_block p rows i, code)])).
    + rewrite IH by done. by rewrite <- app_assoc.
    + rewrite assemble_app. simpl. rewrite !app_nil_r.
      rewrite patient_block_length by lia. done.
Qed.

(** Without one, the first index raises [KeyError]. *)
Lemma for_loop_extend_block_none lm l p rows idxs part part' :
  lm !! l = None →
  for_loop (extend_block lm l p rows) idxs part = Ok part' → idxs = [].
Proof.
  intros Hl. destruct idxs as [|i idxs]; [done|]. cbn [for_loop].
  by rewrite extend_block_none.
Qed.

Lemma floordiv_pos (len p : Z) : 0 ≤ len → 0 < len `div` p → 0 < p.
Proof.
  intros Hlen Hn. destruct (decide (0 < p)); [done|].
  destruct (decide (p = 0)) as [->|]; [rewrite Z.div_0_r in Hn; lia|].
  rewrite <- Z.div_opp_opp in Hn by done.
  assert ((- len) `div` (- p) ≤ 0); [|lia].
  apply Z.div_le_upper_bound; lia.
Qed.

(** One (source, label) group: the loops append the coded patient blocks
    of the group, each to one of the three partitions. *)
Lemma split_label_spec lm spectra labels p (b1 b2 b3 : list (list A * Z)) g l st' :
  split_label lm spectra labels p (assemble b1, assemble b2, assemble b3, g) l = Ok st' →
  ∃ n1 n2 n3 g',
    st' = (assemble (b1 ++ n1), assemble (b2 ++ n2), assemble (b3 ++ n3), g') ∧
    n1 ++ n2 ++ n3 ≡ₚ
      coded_blocks lm {| grp_interval := p; grp_label := l;
                         grp_spectra := Np.select_rows spectra (Np.eq_scalar labels l) |}.
Proof.
  unfold split_label, Np.boolean_index, Py.floordiv, coded_blocks, group_blocks,
    patient_blocks. cbn [grp_interval grp_label grp_spectra].
  destruct (decide (length _ = length spectra)) as [Hmask|];
    cbn [mbind result_bind]; [|done].
  destruct (decide (p = 0)) as [|Hp0]; cbn [mbind result_bind]; [done|].
  set (rows := Np.select_rows spectra (Np.eq_scalar labels l)).
  set (n := Z.of_nat (length rows) `div` p).
  pose proof (np_random_permutation_perm g (Np.arange n)) as Hperm.
  destruct (np_random_permutation g (Np.arange n)) as [perm g1]. simpl in Hperm.
  destruct (train_split_end_of n) as [a|] eqn:Ha; cbn [mbind result_bind]; [|done].
  destruct (validation_split_end_of n) as [b|] eqn:Hb; cbn [mbind result_bind]; [|done].
  destruct (decide (n ≤ 0)) as [Hn|Hn].
  { rewrite arange_nonpos in Hperm |- * by done.
    apply Permutation_nil_r in Hperm as ->. rewrite !slice_nil. simpl.
    intros [= <-]. exists [], [], [], g1. by rewrite !app_nil_r. }
  assert (Hp : 0 < p) by (apply (floordiv_pos (Z.of_nat (length rows))); lia).
  pose proof (split_ends_ordered n a b ltac:(lia) Ha Hb) as Hab.
  pose proof (slice_three perm a b Hab) as Hcut.
  set (i1 := Py.slice None (Some a) perm) in *.
  set (i2 := Py.slice (Some a) (Some b) perm) in *.
  set (i3 := Py.slice (Some b) None perm) in *.
  assert (Hall : Forall (λ i, 0 ≤ i < n) (i1 ++ i2 ++ i3)).
  { rewrite Hcut, Hperm. apply arange_bounds. }
  apply Forall_app in Hall as [H1 Hall]. apply Forall_app in Hall as [H2 H3].
  destruct (lm !! l) as [code|] eqn:Hl.
  - rewrite (for_loop_extend_block_some _ _ _ _ code) by (done || lia).
    cbn [mbind result_bind].
    rewrite (for_loop_extend_block_some _ _ _ _ code) by (done || lia).
    cbn [mbind result_bind].
    rewrite (for_loop_extend_block_some _ _ _ _ code) by (done || lia).
    cbn [mbind result_bind].
    intros [= <-]. eexists _, _, _, g1. split; [done|].
    rewrite <- !fmap_app, Hcut, Hperm. simpl.
    by rewrite <- list_fmap_compose.
  - destruct (for_loop _ i1 _) as [t1|] eqn:E1; cbn [mbind result_bind]; [|done].
    destruct (for_loop _ i2 _) as [t2|] eqn:E2; cbn [mbind result_bind]; [|done].
    destruct (for_loop _ i3 _) as [t3|] eqn:E3; cbn [mbind result_bind]; [|done].
    intros _.
    apply for_loop_extend_block_none in E1, E2, E3; try done.
    rewrite E1, E2, E3 in Hcut. simpl in Hcut. subst perm.
    apply Permutation_length in Hperm.
    unfold Np.arange in Hperm. rewrite length_fmap, length_seq in Hperm.
    simpl in Hperm. lia.
Qed.

(** The converse direction: when the mask fits, the interval is positive,
    the boundaries are defined and the label has a code, the group is
    processed and the result is the following. *)
Lemma split_label_closed lm spectra labels p (b1 b2 b3 : list (list A * Z))
    g l code a b perm g1 :
  let rows := Np.select_rows spectra (Np.eq_scalar labels l) in
  let n := Z.of_nat (length rows) `div` p in
  let coded := λ i, (patient_block p rows i, code) in
  length labels = length spectra → 0 < p →
  np_random_permutation g (Np.arange n) = (perm, g1) →
  train_split_end_of n = Ok a → validation_split_end_of n = Ok b →
  lm !! l = Some code →
  split_label lm spectra labels p (assemble b1, assemble b2, assemble b3, g) l
  = Ok (assemble (b1 ++ (coded <$> Py.slice None (Some a) perm)),
        assemble (b2 ++ (coded <$> Py.slice (Some a) (Some b) perm)),
        assemble (b3 ++ (coded <$> Py.slice (Some b) None perm)), g1).
Proof.
  intros rows n coded Hlen Hp Hperm Ha Hb Hl.
  unfold split_label, Np.boolean_index, Py.floordiv.
  rewrite decide_True by (unfold Np.eq_scalar; by rewrite length_fmap).
  cbn [mbind result_bind]. rewrite decide_False by lia. cbn [mbind result_bind].
  fold rows. fold n. rewrite Hperm, Ha, Hb. cbn [mbind result_bind].
  pose proof (np_random_permutation_perm g (Np.arange n)) as HP.
  rewrite Hperm in HP. simpl in HP.
  assert (Hin : ∀ lo hi, Forall (λ i, 0 ≤ i < n) (Py.slice lo hi perm)).
  { intros lo hi. apply Forall_forall. intros i Hi%elem_of_slice.
    rewrite HP in Hi. pose proof (arange_bounds n) as Hn.
    by eapply Forall_forall in Hn. }
  rewrite !(for_loop_extend_block_some _ _ _ _ code) by (done || lia || apply Hin).
  done.
Qed.

Lemma labels_loop_spec lm spectra labels p ls
    (b1 b2 b3 : list (list A * Z)) g st' :
  for_loop (split_label lm spectra labels p) ls
    (assemble b1, assemble b2, assemble b3, g) = Ok st' →
  ∃ n1 n2 n3 g',
    st' = (assemble (b1 ++ n1), assemble (b2 ++ n2), assemble (b3 ++ n3), g') ∧
    n1 ++ n2 ++ n3 ≡ₚ
      ls ≫= λ l, coded_blocks lm
                   {| grp_interval := p; grp_label := l;
                      grp_spectra := Np.select_rows spectra (Np.eq_scalar labels l) |}.
Proof.
  revert b1 b2 b3 g. induction ls as [|l ls IH]; intros b1 b2 b3 g.
  - simpl. intros [= <-]. exists [], [], [], g. by rewrite !app_nil_r.
  - cbn [for_loop].
    destruct (split_label _ _ _ _ _ l) as [st1|] eqn:E; cbn [mbind result_bind]; [|done].
    apply split_label_spec in E as (m1 & m2 & m3 & g1 & -> & HP).
    intros (n1 & n2 & n3 & g2 & -> & HP')%IH.
    exists (m1 ++ n1), (m2 ++ n2), (m3 ++ n3), g2. rewrite !app_assoc.
    split; [done|].
    rewrite bind_cons, <- HP, <- HP'. solve_Permutation.
Qed.

Lemma split_source_spec (fs : Np.files A) lm src
    (b1 b2 b3 : list (list A * Z)) g st' :
  split_source fs lm (assemble b1, assemble b2, assemble b3, g) src = Ok st' →
  ∃ n1 n2 n3 g',
    st' = (assemble (b1 ++ n1), assemble (b2 ++ n2), assemble (b3 ++ n3), g') ∧
    n1 ++ n2 ++ n3 ≡ₚ source_groups fs src ≫= coded_blocks lm.
Proof.
  destruct src as [[sp lp] p].
  unfold split_source, source_groups, groups_of, Np.load_spectra, Np.load_labels.
  cbn [fst snd].
  destruct (Np.spectra_files fs !! sp) as [spectra|]; cbn [mbind result_bind]; [|done].
  destruct (Np.label_files fs !! lp) as [labels|]; cbn [mbind result_bind]; [|done].
  intros (n1 & n2 & n3 & g' & -> & HP)%labels_loop_spec.
  exists n1, n2, n3, g'. split; [done|]. rewrite HP. cbn [from_option id].
  clear. induction (Np.unique labels) as [|l ls IH]; [done|].
  rewrite fmap_cons, !bind_cons. by rewrite IH.
Qed.

Lemma sources_loop_spec (fs : Np.files A) lm srcs
    (b1 b2 b3 : list (list A * Z)) g st' :
  for_loop (split_source fs lm) srcs (assemble b1, assemble b2, assemble b3, g) = Ok st' →
  ∃ n1 n2 n3 g',
    st' = (assemble (b1 ++ n1), assemble (b2 ++ n2), assemble (b3 ++ n3), g') ∧
    n1 ++ n2 ++ n3 ≡ₚ srcs ≫= λ src, source_groups fs src ≫= coded_blocks lm.
Proof.
  revert b1 b2 b3 g. induction srcs as [|src srcs IH]; intros b1 b2 b3 g.
  - simpl. intros [= <-]. exists [], [], [], g. by rewrite !app_nil_r.
  - cbn [for_loop].
    destruct (split_source _ _ _ src) as [st1|] eqn:E; cbn [mbind result_bind]; [|done].
    apply split_source_spec in E as (m1 & m2 & m3 & g1 & -> & HP).
    intros (n1 & n2 & n3 & g2 & -> & HP')%IH.
    exists (m1 ++ n1), (m2 ++ n2), (m3 ++ n3), g2. rewrite !app_assoc.
    split; [done|].
    rewrite bind_cons, <- HP, <- HP'. solve_Permutation.
Qed.

(** Generation mode as a whole: the three partitions are assembled from
    coded blocks that together are the coded patient blocks of all
    groups. *)
Lemma generation_spec (fs : Np.files A) cfg lm g tr va te g' :
  use_pre_split cfg = false →
  _get_splits fs cfg lm g = Ok (tr, va, te, g') →
  ∃ b1 b2 b3,
    tr = assemble b1 ∧ va = assemble b2 ∧ te = assemble b3 ∧
    b1 ++ b2 ++ b3 ≡ₚ label_groups fs cfg ≫= coded_blocks lm.
Proof.
  intros Hmode. unfold _get_splits. rewrite Hmode.
  change empty_set with (assemble ([] : list (list A * Z))).
  intros (n1 & n2 & n3 & g2 & [= -> -> -> ->] & HP)%sources_loop_spec.
  exists n1, n2, n3. split_and!; [done..|].
  rewrite HP. unfold label_groups, sources.
  clear. induction (zip3 _ _ _) as [|src srcs IH]; [done|].
  rewrite !bind_cons, bind_app. by rewrite IH.
Qed.

End Generation.

(** ** The label vocabulary *)

Section Vocabulary.
Import SAMRaman Blocks.

Lemma elem_of_insert_unique x y l : y ∈ Np.insert_unique x l ↔ y = x ∨ y ∈ l.
Proof.
  induction l as [|z l IH]; simpl.
  - rewrite list_elem_of_singleton, elem_of_nil. tauto.
  - repeat case_decide; subst; rewrite ?elem_of_cons, ?IH, ?elem_of_cons; tauto.
Qed.

Lemma elem_of_unique y l : y ∈ Np.unique l ↔ y ∈ l.
Proof.
  induction l as [|x l IH]; simpl; [done|].
  by rewrite elem_of_insert_unique, IH, elem_of_cons.
Qed.

Lemma insert_unique_sorted x l :
  StronglySorted Z.lt l → StronglySorted Z.lt (Np.insert_unique x l).
Proof.
  induction l as [|y l IH]; simpl; intros Hs.
  - repeat constructor.
  - apply StronglySorted_inv in Hs as [Hs Hy].
    repeat case_decide.
    + constructor; [by constructor|].
      constructor; [done|]. eapply Forall_impl; [exact Hy|]. simpl. lia.
    + by constructor.
    + constructor; [by apply IH|].
      apply Forall_forall. intros z [->|Hz]%elem_of_insert_unique; [lia|].
      by eapply Forall_forall in Hy.
Qed.

Lemma unique_sorted l : StronglySorted Z.lt (Np.unique l).
Proof.
  induction l as [|x l IH]; simpl; [constructor|by apply insert_unique_sorted].
Qed.

Lemma sorted_lookup_lt (u : list Z) (i j : nat) a b :
  StronglySorted Z.lt u → (i < j)%nat → u !! i = Some a → u !! j = Some b → a < b.
Proof.
  intros Hs. revert i j. induction Hs as [|x u Hs IH Hx]; intros i j Hij Hi Hj; [done|].
  destruct j as [|j]; [lia|]. simpl in Hj.
  destruct i as [|i]; simpl in Hi.
  - injection Hi as ->. eapply Forall_forall in Hx; [done|].
    by eapply list_elem_of_lookup_2.
  - apply (IH i j); [lia|done..].
Qed.

Lemma sorted_NoDup (u : list Z) : StronglySorted Z.lt u → NoDup u.
Proof.
  induction 1 as [|x u Hs IH Hx]; constructor; [|done].
  intros Hin. eapply Forall_forall in Hx; [|done]. lia.
Qed.

Lemma dict_comprehension_lookup `{Countable K} {V} (kvs : list (K * V)) k v :
  NoDup kvs.*1 → Py.dict_comprehension kvs !! k = Some v ↔ (k, v) ∈ kvs.
Proof.
  unfold Py.dict_comprehension.
  induction kvs as [|[k' v'] kvs IH] using rev_ind; intros Hnd.
  - simpl. rewrite lookup_empty. set_solver.
  - rewrite foldl_snoc. cbn [fst snd].
    rewrite fmap_app in Hnd. apply NoDup_app in Hnd as (Hnd & Hk' & _).
    rewrite elem_of_app, list_elem_of_singleton.
    destruct (decide (k = k')) as [->|Hne].
    + rewrite lookup_insert_eq. split.
      * intros [= ->]. by right.
      * intros [Hin|[= ->]]; [|done].
        exfalso. apply (Hk' k'); [|by left].
        apply list_elem_of_fmap. by exists (k', v).
    + rewrite lookup_insert_ne by done. rewrite IH by done.
      split; [by left|]. intros [?|[= ? ?]]; [done|congruence].
Qed.

Lemma elem_of_enumerate {T} (xs : list T) c x :
  (c, x) ∈ Py.enumerate xs ↔ 0 ≤ c ∧ xs !! Z.to_nat c = Some x.
Proof.
  unfold Py.enumerate. rewrite elem_of_lookup_imap. split.
  - intros (i & y & [= -> ->] & Hi). split; [lia|]. by rewrite Nat2Z.id.
  - intros [Hc Hx]. exists (Z.to_nat c), x. split; [f_equal; lia|done].
Qed.

(** The code of a label is its position among the distinct labels in
    ascending order. *)
Lemma label_mapping_lookup labels l c :
  label_mapping_of labels !! l = Some c
  ↔ 0 ≤ c ∧ Np.unique labels !! Z.to_nat c = Some l.
Proof.
  unfold label_mapping_of. rewrite dict_comprehension_lookup.
  - rewrite list_elem_of_fmap. rewrite <- elem_of_enumerate. split.
    + intros ([c' l'] & [= -> ->] & Hin). done.
    + intros Hin. by exists (c, l).
  - rewrite <- list_fmap_compose.
    assert (Heq : ((fst ∘ λ p : Z * Z, (p.2, p.1)) <$> Py.enumerate (Np.unique labels))
                  = Np.unique labels).
    { unfold Py.enumerate. generalize (Np.unique labels). intros u.
      apply list_eq. intros i. rewrite list_lookup_fmap, list_lookup_imap.
      by destruct (u !! i). }
    rewrite Heq. apply sorted_NoDup, unique_sorted.
Qed.

Lemma label_mapping_inj labels l1 l2 c :
  label_mapping_of labels !! l1 = Some c →
  label_mapping_of labels !! l2 = Some c → l1 = l2.
Proof. rewrite !label_mapping_lookup. intros [_ H1] [_ H2]. congruence. Qed.

(** The inverse map of an injective dict inverts it. *)
Lemma inverse_mapping_lookup (lm : gmap Z Z) c l :
  (∀ l1 l2 c, lm !! l1 = Some c → lm !! l2 = Some c → l1 = l2) →
  inverse_mapping_of lm !! c = Some l ↔ lm !! l = Some c.
Proof.
  intros Hinj. unfold inverse_mapping_of. rewrite dict_comprehension_lookup.
  - rewrite list_elem_of_fmap. split.
    + intros ([l' c'] & [= -> ->] & Hin). by apply elem_of_map_to_list.
    + intros Hl. exists (l, c). split; [done|]. by apply elem_of_map_to_list.
  - rewrite <- list_fmap_compose.
    apply NoDup_fmap_2_strong; [|apply NoDup_map_to_list].
    intros [l1 c1] [l2 c2] H1%elem_of_map_to_list H2%elem_of_map_to_list Heq.
    simpl in Heq. subst c2. f_equal. by eapply Hinj.
Qed.

Lemma extend_loaded_spec {A} (fs : Np.files A) paths acc labels :
  extend_loaded fs paths acc = Ok labels →
  ∀ l, l ∈ labels ↔
       l ∈ acc ∨ ∃ path a, path ∈ paths ∧ Np.label_files fs !! path = Some a ∧ l ∈ a.
Proof.
  unfold extend_loaded. revert acc.
  induction paths as [|f paths IH]; intros acc; cbn [for_loop].
  - intros [= <-] l. split; [by left|].
    by intros [?|(? & ? & ?%elem_of_nil & _)].
  - destruct (Np.load_labels fs f) as [a|] eqn:Hf; cbn [mbind result_bind]; [|done].
    unfold Np.load_labels in Hf.
    destruct (Np.label_files fs !! f) as [a'|] eqn:Hf'; [|done].
    injection Hf as ->. intros Hrest l. rewrite (IH _ Hrest), elem_of_app. split.
    + intros [[?|?]|(path & a' & ? & ? & ?)]; [by left| |].
      * right. exists f, a. split_and!; [left|done..].
      * right. exists path, a'. split_and!; [by right|done..].
    + intros [?|(path & a' & [->|?]%elem_of_cons & Ha & ?)]; [by left;left| |].
      * left; right. congruence.
      * right. by exists path, a'.
Qed.

(** The vocabulary is built from exactly the labels that are read. *)
Lemma get_label_mapping_spec {A} (fs : Np.files A) cfg lm :
  _get_label_mapping fs cfg = Ok lm →
  ∃ labels, lm = label_mapping_of labels ∧ ∀ l, l ∈ labels ↔ seen fs cfg l.
Proof.
  unfold _get_label_mapping, seen, label_sources.
  destruct (use_pre_split cfg).
  - destruct (extend_loaded fs (train_labels_path cfg) []) as [l1|] eqn:E1;
      cbn [mbind result_bind]; [|done].
    destruct (extend_loaded fs (test_labels_path cfg) l1) as [l2|] eqn:E2;
      cbn [mbind result_bind]; [|done].
    intros [= <-]. exists l2. split; [done|]. intros l.
    rewrite (extend_loaded_spec _ _ _ _ E2), (extend_loaded_spec _ _ _ _ E1).
    setoid_rewrite elem_of_app. split.
    + intros [[[]%elem_of_nil|(path & a & Hp & Ha & Hl)]|(path & a & Hp & Ha & Hl)];
        exists path, a; split_and!; try done; [by left|by right].
    + intros (path & a & [Hp|Hp] & Ha & Hl); [left; right|right]; by exists path, a.
  - destruct (extend_loaded fs (label_dirs cfg) []) as [l1|] eqn:E1;
      cbn [mbind result_bind]; [|done].
    intros [= <-]. exists l1. split; [done|]. intros l.
    rewrite (extend_loaded_spec _ _ _ _ E1), elem_of_nil. tauto.
Qed.

End Vocabulary.

(** ** The constructor *)

Section Constructor.
Context {A : Type} `{NumpyRandom} `{Sklearn A}.
Import SAMRaman Blocks.

(** [DataLoader] returns exactly when the batch size is positive and, with
    [shuffle=True], the dataset has a label; it raises [ValueError]
    otherwise. *)
Lemma DataLoader_ok (ds : SAMRamanDataset.t A) (bs : Z) (sh : bool) :
  0 < bs → (sh = true → SAMRamanDataset.labels ds ≠ []) →
  DataLoader ds bs sh = Ok {| dataset := ds; loader_batch_size := bs; shuffle := sh |}.
Proof.
  intros Hbs Hds. unfold DataLoader, SAMRamanDataset.__len__.
  destruct (decide (bs ≤ 0)); [lia|].
  destruct sh; cbn [andb]; [|done].
  rewrite bool_decide_eq_false_2; [done|].
  destruct (SAMRamanDataset.labels ds); [by destruct Hds|]. simpl. lia.
Qed.

Lemma DataLoader_raise (ds : SAMRamanDataset.t A) (bs : Z) (sh : bool) e :
  DataLoader ds bs sh = Raise e →
  e = ValueError ∧ (bs ≤ 0 ∨ (sh = true ∧ SAMRamanDataset.labels ds = [])).
Proof.
  unfold DataLoader, SAMRamanDataset.__len__.
  destruct sh; cbn [andb].
  - case_bool_decide as Hlen.
    + intros [= <-]. split; [done|]. right. split; [done|].
      destruct (SAMRamanDataset.labels ds); [done|]. simpl in Hlen. lia.
    + case_decide; [|done]. intros [= <-]. split; [done|]. by left.
  - case_decide; [|done]. intros [= <-]. split; [done|]. by left.
Qed.

Lemma DataLoader_inv (ds : SAMRamanDataset.t A) (bs : Z) (sh : bool) ld :
  DataLoader ds bs sh = Ok ld →
  0 < bs ∧ (sh = true → SAMRamanDataset.labels ds ≠ [])
  ∧ ld = {| dataset := ds; loader_batch_size := bs; shuffle := sh |}.
Proof.
  unfold DataLoader, SAMRamanDataset.__len__.
  destruct sh; cbn [andb].
  - case_bool_decide as Hlen; [done|]. case_decide; [done|]. intros [= <-].
    split; [lia|]. split; [|done]. intros _ Hnil. rewrite Hnil in Hlen. simpl in Hlen. lia.
  - case_decide; [done|]. intros [= <-]. split; [lia|]. by split.
Qed.

(** The three loaders are built exactly when the batch size is positive
    and the training partition has a label. *)
Lemma create_dataloaders_ok (bs : Z) (tr va te : split_set A) :
  0 < bs → labels tr ≠ [] →
  _create_dataloaders bs tr va te
  = Ok ({| dataset := dataset_of tr; loader_batch_size := bs; shuffle := true |},
        {| dataset := dataset_of va; loader_batch_size := bs; shuffle := false |},
        {| dataset := dataset_of te; loader_batch_size := bs; shuffle := false |}).
Proof.
  intros Hbs Htr. unfold _create_dataloaders. cbv zeta.
  rewrite !DataLoader_ok by done. done.
Qed.

Lemma create_dataloaders_raise (bs : Z) (tr va te : split_set A) e :
  _create_dataloaders bs tr va te = Raise e →
  e = ValueError ∧ (bs ≤ 0 ∨ labels tr = []).
Proof.
  unfold _create_dataloaders. cbv zeta.
  destruct (DataLoader (dataset_of tr) bs true) as [l1|e1] eqn:E1;
    cbn [mbind result_bind].
  - apply DataLoader_inv in E1 as (Hbs & _ & _).
    rewrite !DataLoader_ok by done. done.
  - intros [= <-]. apply DataLoader_raise in E1 as (-> & [?|[_ ?]]); auto.
Qed.

Lemma create_dataloaders_inv (bs : Z) (tr va te : split_set A) l1 l2 l3 :
  _create_dataloaders bs tr va te = Ok (l1, l2, l3) →
  0 < bs ∧ labels tr ≠ []
  ∧ l1 = {| dataset := dataset_of tr; loader_batch_size := bs; shuffle := true |}
  ∧ l2 = {| dataset := dataset_of va; loader_batch_size := bs; shuffle := false |}
  ∧ l3 = {| dataset := dataset_of te; loader_batch_size := bs; shuffle := false |}.
Proof.
  unfold _create_dataloaders. cbv zeta.
  destruct (DataLoader (dataset_of tr) bs true) as [l1'|] eqn:E1;
    cbn [mbind result_bind]; [|done].
  apply DataLoader_inv in E1 as (Hbs & Htr & ->).
  rewrite !DataLoader_ok by done. cbn [mbind result_bind].
  intros [= <- <- <-]. split; [done|]. split; [by apply Htr|done].
Qed.

(** What a successful construction went through. *)
Lemma init_inv (g0 : rng_state) (fs : Np.files A) cfg o g' :
  __init__ g0 fs cfg = Ok (o, g') →
  ∃ g,
    np_random_seed (seed cfg) = Ok g ∧
    _get_label_mapping fs cfg = Ok (label_map o) ∧
    inverse_map o = inverse_mapping_of (label_map o) ∧
    _get_splits fs cfg (label_map o) g = Ok (train_set o, val_set o, test_set o, g').
Proof.
  unfold __init__.
  destruct (np_random_seed (seed cfg)) as [g|]; cbn [mbind result_bind]; [|done].
  destruct (_get_label_mapping fs cfg) as [lm|]; cbn [mbind result_bind]; [|done].
  destruct (_get_splits fs cfg lm g) as [[[[tr va] te] g1]|] eqn:Hsplits;
    cbn [mbind result_bind]; [|done].
  destruct (_create_dataloaders _ tr va te) as [[[l1 l2] l3]|];
    cbn [mbind result_bind]; [|done].
  intros [= <- <-]. by exists g.
Qed.

(** A constructed object has a positive batch size and a training
    partition that is not empty; its loaders wrap the three partitions. *)
Lemma init_checks (g0 : rng_state) (fs : Np.files A) cfg o g' :
  __init__ g0 fs cfg = Ok (o, g') →
  0 < batch_size cfg ∧ labels (train_set o) ≠ []
  ∧ train_loader o = {| dataset := dataset_of (train_set o);
                        loader_batch_size := batch_size cfg; shuffle := true |}
  ∧ val_loader o = {| dataset := dataset_of (val_set o);
                      loader_batch_size := batch_size cfg; shuffle := false |}
  ∧ test_loader o = {| dataset := dataset_of (test_set o);
                       loader_batch_size := batch_size cfg; shuffle := false |}.
Proof.
  unfold __init__.
  destruct (np_random_seed (seed cfg)) as [g|]; cbn [mbind result_bind]; [|done].
  destruct (_get_label_mapping fs cfg) as [lm|]; cbn [mbind result_bind]; [|done].
  destruct (_get_splits fs cfg lm g) as [[[[tr va] te] g1]|] eqn:Hsplits;
    cbn [mbind result_bind]; [|done].
  destruct (_create_dataloaders _ tr va te) as [[[l1 l2] l3]|] eqn:Hld;
    cbn [mbind result_bind]; [|done].
  intros [= <- <-]. cbn [train_set val_set test_set train_loader val_loader test_loader].
  by apply create_dataloaders_inv in Hld.
Qed.

(** The constructor in terms of its three fallible steps after the seed. *)
Lemma init_ok (g0 : rng_state) (fs : Np.files A) cfg g lm tr va te g' :
  np_random_seed (seed cfg) = Ok g → _get_label_mapping fs cfg = Ok lm →
  _get_splits fs cfg lm g = Ok (tr, va, te, g') →
  0 < batch_size cfg → labels tr ≠ [] →
  ∃ o, __init__ g0 fs cfg = Ok (o, g')
       ∧ label_map o = lm ∧ inverse_map o = inverse_mapping_of lm
       ∧ train_set o = tr ∧ val_set o = va ∧ test_set o = te.
Proof.
  intros Hseed Hlm Hsplits Hbs Htr. unfold __init__.
  rewrite Hseed. cbn [mbind result_bind]. rewrite Hlm. cbn [mbind result_bind].
  rewrite Hsplits. cbn [mbind result_bind].
  rewrite create_dataloaders_ok by done. cbn [mbind result_bind].
  eexists. split; [reflexivity|]. by cbn.
Qed.

(** With the three steps done, a construction that raises raises
    [ValueError], for a batch size that is not positive or for an empty
    training partition. *)
Lemma init_raise_late (g0 : rng_state) (fs : Np.files A) cfg g lm tr va te g' e :
  np_random_seed (seed cfg) = Ok g → _get_label_mapping fs cfg = Ok lm →
  _get_splits fs cfg lm g = Ok (tr, va, te, g') →
  __init__ g0 fs cfg = Raise e →
  e = ValueError ∧ (batch_size cfg ≤ 0 ∨ labels tr = []).
Proof.
  intros Hseed Hlm Hsplits. unfold __init__.
  rewrite Hseed. cbn [mbind result_bind]. rewrite Hlm. cbn [mbind result_bind].
  rewrite Hsplits. cbn [mbind result_bind].
  destruct (_create_dataloaders _ tr va te) as [[[l1 l2] l3]|e1] eqn:Hld;
    cbn [mbind result_bind]; [done|].
  intros [= <-]. by apply create_dataloaders_raise in Hld.
Qed.

Lemma dict_comprehension_size `{Countable K} {V} (kvs : list (K * V)) :
  NoDup kvs.*1 → size (Py.dict_comprehension kvs) = length kvs.
Proof.
  induction kvs as [|[k v] kvs IH] using rev_ind; intros Hnd; [done|].
  pose proof (dict_comprehension_lookup (kvs ++ [(k, v)]) k) as Hlook.
  unfold Py.dict_comprehension in *. rewrite foldl_snoc, length_app. cbn [fst snd length].
  rewrite fmap_app in Hnd. apply NoDup_app in Hnd as (Hnd & Hk & _).
  rewrite map_size_insert_None; [rewrite IH by done; lia|].
  destruct (foldl _ ∅ kvs !! k) as [v'|] eqn:Hv; [|done].
  exfalso. apply (Hk k); [|by left].
  apply list_elem_of_fmap. exists (k, v'). split; [done|].
  by apply (dict_comprehension_lookup kvs k v' Hnd).
Qed.

Lemma label_mapping_size labels :
  size (label_mapping_of labels) = length (Np.unique labels).
Proof.
  unfold label_mapping_of. rewrite dict_comprehension_size.
  - unfold Py.enumerate. by rewrite length_fmap, length_imap.
  - rewrite <- list_fmap_compose.
    assert (Heq : ((fst ∘ λ p : Z * Z, (p.2, p.1)) <$> Py.enumerate (Np.unique labels))
                  = Np.unique labels).
    { unfold Py.enumerate. generalize (Np.unique labels). intros u.
      apply list_eq. intros i. rewrite list_lookup_fmap, list_lookup_imap.
      by destruct (u !! i). }
    rewrite Heq. apply sorted_NoDup, unique_sorted.
Qed.

End Constructor.

(** ** Claims about the dataset wrapper and the vocabulary *)

Section WrapperAndVocabulary.
Context {A : Type} `{NumpyRandom} `{Sklearn A}.
Import SAMRaman Blocks.

Lemma getitem_outside {T} (l : list T) (i : Z) :
  i < - Z.of_nat (length l) ∨ Z.of_nat (length l) ≤ i →
  Py.getitem l i = Raise IndexError.
Proof.
  intros Hi. unfold Py.getitem. cbv zeta.
  destruct (decide (i < 0)); by rewrite decide_False by lia.
Qed.

Lemma getitem_raises {T} (l : list T) (i : Z) e :
  Py.getitem l i = Raise e → e = IndexError.
Proof.
  unfold Py.getitem. cbv zeta. case_decide; [|congruence].
  destruct (l !! _); [done|congruence].
Qed.

Lemma getitem_negative {T} (l : list T) (i : Z) :
  - Z.of_nat (length l) ≤ i < 0 →
  Py.getitem l i = Py.getitem l (i + Z.of_nat (length l))
  ∧ is_ok (Py.getitem l i) = true.
Proof.
  intros Hi. unfold Py.getitem. cbv zeta.
  rewrite (decide_True (P := i < 0)) by lia.
  rewrite (decide_False (P := i + _ < 0)) by lia.
  rewrite decide_True by lia. split; [done|].
  destruct (lookup_lt_is_Some_2 l (Z.to_nat (i + Z.of_nat (length l)))) as [x ->];
    [lia|done].
Qed.

(** C8, as amended.  [get(idx)] raises [IndexError] for every index at or
    above [length()] and for every index below [-length()].  An index in
    [[-length(), 0)] is not rejected: it counts from the end, so that
    [get(idx)] returns what [get(idx + length())] returns. *)
Theorem dataset_getitem_bounds (ds : SAMRamanDataset.t A) (idx : Z) :
  (idx < - SAMRamanDataset.__len__ ds ∨ SAMRamanDataset.__len__ ds ≤ idx →
   SAMRamanDataset.__getitem__ ds idx = Raise IndexError)
  ∧ (length (SAMRamanDataset.spectral_data ds) = length (SAMRamanDataset.labels ds) →
     - SAMRamanDataset.__len__ ds ≤ idx < 0 →
     SAMRamanDataset.__getitem__ ds idx
     = SAMRamanDataset.__getitem__ ds (idx + SAMRamanDataset.__len__ ds)
     ∧ is_ok (SAMRamanDataset.__getitem__ ds idx) = true).
Proof.
  unfold SAMRamanDataset.__len__, SAMRamanDataset.__getitem__. split.
  - intros Hi. rewrite (getitem_outside (SAMRamanDataset.labels ds)) by done.
    destruct (Py.getitem (SAMRamanDataset.spectral_data ds) idx) as [x|e] eqn:Hx;
      cbn [mbind result_bind]; [done|].
    by apply getitem_raises in Hx as ->.
  - intros Hlen Hi.
    destruct (getitem_negative (SAMRamanDataset.labels ds) idx Hi) as [-> Hok].
    destruct (getitem_negative (SAMRamanDataset.spectral_data ds) idx) as [-> Hok'];
      [lia|].
    rewrite <- Hlen in Hok |- *. split; [done|].
    destruct (Py.getitem (SAMRamanDataset.spectral_data ds) _); [|done].
    by destruct (Py.getitem (SAMRamanDataset.labels ds) _); cbn [mbind result_bind].
Qed.

(** C9.  On a constructed object, decoding a code that the vocabulary
    assigned to a raw label returns that label, and decoding any integer
    that is the code of no label raises [KeyError]. *)
Theorem get_original_label_spec (g0 : rng_state) (fs : Np.files A) cfg o g' :
  __init__ g0 fs cfg = Ok (o, g') →
  (∀ l c, label_map o !! l = Some c → _get_original_label o c = Ok l)
  ∧ (∀ c, (∀ l, label_map o !! l ≠ Some c) → _get_original_label o c = Raise KeyError).
Proof.
  intros (g & _ & Hlm & Hinv & _)%init_inv.
  apply get_label_mapping_spec in Hlm as (labels & Hlm & _).
  assert (Hlook : ∀ c l, inverse_map o !! c = Some l ↔ label_map o !! l = Some c).
  { intros c l. rewrite Hinv. apply inverse_mapping_lookup.
    rewrite Hlm. apply label_mapping_inj. }
  unfold _get_original_label, Py.dict_getitem. split.
  - intros l c Hl. apply Hlook in Hl. by rewrite Hl.
  - intros c Hc. destruct (inverse_map o !! c) as [l|] eqn:Hl; [|done].
    apply Hlook in Hl. by destruct (Hc l).
Qed.

(** C5.  On a constructed object with [num_classes] entries in its label
    map: the labels with a code are exactly the labels seen; every code
    lies in [[0, num_classes)] and every integer of that range is a code;
    codes increase with the raw labels; and the inverse map sends the code
    of a label back to the label. *)
Theorem label_map_spec (g0 : rng_state) (fs : Np.files A) cfg o g' :
  __init__ g0 fs cfg = Ok (o, g') →
  let num_classes := Z.of_nat (size (label_map o)) in
  (∀ l, seen fs cfg l ↔ is_Some (label_map o !! l))
  ∧ (∀ l c, label_map o !! l = Some c → 0 ≤ c < num_classes)
  ∧ (∀ c, 0 ≤ c < num_classes → ∃ l, label_map o !! l = Some c)
  ∧ (∀ l1 l2 c1 c2, label_map o !! l1 = Some c1 → label_map o !! l2 = Some c2 →
       (l1 < l2 ↔ c1 < c2))
  ∧ (∀ l c, label_map o !! l = Some c → inverse_map o !! c = Some l).
Proof.
  intros (g & _ & Hlm & Hinv & _)%init_inv.
  apply get_label_mapping_spec in Hlm as (labels & Hlm & Hseen).
  rewrite Hinv, Hlm. clear Hinv Hlm. cbn zeta. rewrite label_mapping_size.
  pose proof (unique_sorted labels) as Hs.
  split_and!.
  - intros l. rewrite <- Hseen, <- elem_of_unique. split.
    + intros (i & Hi)%list_elem_of_lookup_1. exists (Z.of_nat i).
      apply label_mapping_lookup. rewrite Nat2Z.id. split; [lia|done].
    + intros [c [_ Hc]%label_mapping_lookup]. by eapply list_elem_of_lookup_2.
  - intros l c [Hc Hl%lookup_lt_Some]%label_mapping_lookup. lia.
  - intros c Hc.
    destruct (lookup_lt_is_Some_2 (Np.unique labels) (Z.to_nat c)) as [l Hl]; [lia|].
    exists l. apply label_mapping_lookup. split; [lia|done].
  - intros l1 l2 c1 c2 [Hc1 H1]%label_mapping_lookup [Hc2 H2]%label_mapping_lookup.
    split.
    + intros Hlt. destruct (decide (c1 < c2)); [done|]. exfalso.
      destruct (decide (c1 = c2)) as [->|]; [simplify_eq; lia|].
      pose proof (sorted_lookup_lt _ (Z.to_nat c2) (Z.to_nat c1) _ _ Hs
                    ltac:(lia) H2 H1). lia.
    + intros Hlt. apply (sorted_lookup_lt _ (Z.to_nat c1) (Z.to_nat c2) _ _ Hs); [lia|done..].
  - intros l c Hl. apply inverse_mapping_lookup; [apply label_mapping_inj|done].
Qed.

(** Configurations with the same inputs have the same vocabulary and the
    same partitioning. *)
Lemma same_inputs_steps (fs : Np.files A) cfg cfg' :
  same_inputs cfg cfg' →
  np_random_seed (seed cfg) = np_random_seed (seed cfg')
  ∧ _get_label_mapping fs cfg = _get_label_mapping fs cfg'
  ∧ ∀ lm (g : rng_state), _get_splits fs cfg lm g = _get_splits fs cfg' lm g.
Proof.
  intros (Hseed & Hmode & Hlists).
  unfold _get_label_mapping, _get_splits. rewrite <- Hmode, <- Hseed.
  destruct (use_pre_split cfg).
  - by destruct Hlists as (<- & <- & <- & <-).
  - by destruct Hlists as (<- & <- & <-).
Qed.

(** C7.  Two constructions with the same seed and the same inputs, started
    in any two states of the ambient generator: when both return, they
    return the same three partitions with their examples in the same
    order, the same maps, and leave the same state to the generator.
    When moreover the two batch sizes are both positive or both not, the
    two constructions have the same outcome, exceptions included. *)
Theorem construction_deterministic (g0 g0' : rng_state) (fs : Np.files A) cfg cfg' :
  same_inputs cfg cfg' →
  (∀ o g1 o' g1',
     __init__ g0 fs cfg = Ok (o, g1) → __init__ g0' fs cfg' = Ok (o', g1') →
     train_set o = train_set o' ∧ val_set o = val_set o' ∧ test_set o = test_set o'
     ∧ label_map o = label_map o' ∧ inverse_map o = inverse_map o' ∧ g1 = g1')
  ∧ ((0 < batch_size cfg ↔ 0 < batch_size cfg') →
     outcome (__init__ g0 fs cfg) = outcome (__init__ g0' fs cfg')).
Proof.
  intros (Hseed & Hlm & Hsplits)%(same_inputs_steps fs). split.
  - intros o g1 o' g1' (g & Hg & Hl & Hi & Hs)%init_inv (g' & Hg' & Hl' & Hi' & Hs')%init_inv.
    rewrite Hseed, Hg' in Hg. injection Hg as <-.
    rewrite Hlm, Hl' in Hl. injection Hl as Hl.
    rewrite Hi, Hi', <- Hl. rewrite Hsplits, <- Hl, Hs' in Hs.
    injection Hs as <- <- <- <-. by rewrite Hl.
  - intros Hbs. unfold __init__. rewrite <- Hseed, <- Hlm.
    destruct (np_random_seed (seed cfg)) as [g|]; cbn [mbind result_bind]; [|done].
    destruct (_get_label_mapping fs cfg) as [lm|]; cbn [mbind result_bind]; [|done].
    rewrite <- Hsplits.
    destruct (_get_splits fs cfg lm g) as [[[[tr va] te] g1]|];
      cbn [mbind result_bind]; [|done].
    destruct (decide (0 < batch_size cfg ∧ labels tr ≠ [])) as [[Hpos Htr]|Hnot].
    + rewrite !create_dataloaders_ok by (done || by apply Hbs). done.
    + destruct (_create_dataloaders (batch_size cfg) tr va te) as [[[l1 l2] l3]|e] eqn:E;
        [apply create_dataloaders_inv in E; tauto|].
      destruct (_create_dataloaders (batch_size cfg') tr va te) as [[[l1 l2] l3]|e'] eqn:E';
        [apply create_dataloaders_inv in E'; tauto|].
      apply create_dataloaders_raise in E as [-> _].
      by apply create_dataloaders_raise in E' as [-> _].
Qed.

End WrapperAndVocabulary.

(** ** Claims about the configuration lists and about pre-split mode *)

Section Configuration.
Context {A : Type} `{NumpyRandom} `{Sklearn A}.
Import SAMRaman Blocks.

Lemma zip_take_common {X Y} (xs : list X) (ys : list Y) (k : nat) :
  ((length xs `min` length ys) ≤ k)%nat → zip (take k xs) (take k ys) = zip xs ys.
Proof. intros Hk. by apply zip_with_take_both'. Qed.

Lemma zip3_take {X Y W} (xs : list X) (ys : list Y) (ws : list W) :
  let k := ((length xs `min` length ys) `min` length ws)%nat in
  zip3 (take k xs) (take k ys) (take k ws) = zip3 xs ys ws.
Proof.
  intros k. unfold zip3. rewrite <- (zip_with_take pair k xs ys).
  apply zip_take_common. rewrite length_zip. lia.
Qed.

Lemma zip4_take {X Y W V} (xs : list X) (ys : list Y) (ws : list W) (vs : list V) :
  let k := (((length xs `min` length ys) `min` length ws) `min` length vs)%nat in
  zip4 (take k xs) (take k ys) (take k ws) (take k vs) = zip4 xs ys ws vs.
Proof.
  intros k. unfold zip4. rewrite <- (zip_with_take pair k xs ys).
  rewrite <- (zip_with_take pair k (zip xs ys) ws).
  apply zip_take_common. rewrite !length_zip. lia.
Qed.

(** The vocabulary is read from every label file of [label_sources]. *)
Lemma get_label_mapping_sources (fs : Np.files A) cfg :
  _get_label_mapping fs cfg
  = (labels ← extend_loaded fs (label_sources cfg) []; Ok (label_mapping_of labels)).
Proof.
  unfold _get_label_mapping, label_sources. destruct (use_pre_split cfg); [|done].
  unfold extend_loaded. rewrite for_loop_app.
  by destruct (for_loop _ (train_labels_path cfg) []).
Qed.

(** C3, as amended.  Lists of unequal length are not rejected.  The groups
    are formed by [zip], which stops at the shortest list: the partitioning
    step is that of the configuration whose aligned lists are cut to that
    common length, and the partitions of a constructed object are those
    that the cut lists give under the label map of the object.  That map is
    read from every label path of the lists as they are configured, before
    they are zipped.  The construction has the outcome of the construction
    from the cut configuration whenever the two have the same vocabulary,
    as they do when the cut removes no label path. *)
Theorem unequal_lists_are_truncated (g0 : rng_state) (fs : Np.files A) cfg :
  let cut := truncate_aligned cfg in
  (∀ lm (g : rng_state), _get_splits fs cfg lm g = _get_splits fs cut lm g)
  ∧ (∀ o g', __init__ g0 fs cfg = Ok (o, g') →
       _get_label_mapping fs cfg = Ok (label_map o)
       ∧ _get_splits fs cut (label_map o) (np_random_seed_state (seed cfg))
         = Ok (train_set o, val_set o, test_set o, g'))
  ∧ (_get_label_mapping fs cfg = _get_label_mapping fs cut →
     outcome (__init__ g0 fs cfg) = outcome (__init__ g0 fs cut))
  ∧ (label_sources cut = label_sources cfg →
     _get_label_mapping fs cfg = _get_label_mapping fs cut).
Proof.
  intros cut.
  assert (Hsplits : ∀ lm (g : rng_state),
            _get_splits fs cfg lm g = _get_splits fs cut lm g).
  { intros lm g. unfold cut, _get_splits, truncate_aligned.
    cbn [use_pre_split seed spectral_dirs label_dirs
      patient_intervals train_data_path train_labels_path test_data_path test_labels_path].
    by rewrite zip3_take, zip4_take. }
  split_and!; [done| | |].
  - intros o g' (g & Hseed & Hlm & _ & Hs)%init_inv. split; [done|].
    unfold np_random_seed in Hseed. case_decide; [|done]. injection Hseed as <-.
    by rewrite <- Hsplits.
  - intros Hlm. unfold __init__.
    change (seed cut) with (seed cfg). change (batch_size cut) with (batch_size cfg).
    rewrite <- Hlm.
    destruct (np_random_seed (seed cfg)) as [g|]; cbn [mbind result_bind]; [|done].
    destruct (_get_label_mapping fs cfg) as [lm|]; cbn [mbind result_bind]; [|done].
    rewrite <- Hsplits.
    destruct (_get_splits fs cfg lm g) as [[[[tr va] te] g1]|];
      cbn [mbind result_bind]; [|done].
    by destruct (_create_dataloaders (batch_size cfg) tr va te) as [[[l1 l2] l3]|].
  - intros Hsrc. by rewrite !get_label_mapping_sources, Hsrc.
Qed.

Lemma extend_codes_spec lm ls (part part' : split_set A) :
  extend_codes lm ls part = Ok part' →
  data part' = data part
  ∧ ∃ codes, labels part' = labels part ++ codes
             ∧ Forall2 (λ l c, lm !! l = Some c) ls codes.
Proof.
  unfold extend_codes. revert part.
  induction ls as [|l ls IH]; intros part; cbn [for_loop].
  - intros [= <-]. split; [done|]. exists []. by rewrite app_nil_r.
  - destruct (Py.dict_getitem lm l) as [c|] eqn:Hl; cbn [mbind result_bind]; [|done].
    unfold Py.dict_getitem in Hl. destruct (lm !! l) as [c'|] eqn:Hl'; [|done].
    injection Hl as ->.
    intros (Hd & codes & Hlab & Hcodes)%IH. cbn [data labels] in *.
    split; [done|]. exists (c :: codes). rewrite Hlab, <- app_assoc.
    split; [done|]. by constructor.
Qed.

(** One pre-split group: the test data is replaced by the group's, the
    test labels are extended by the group's codes. *)
Lemma split_given_test (fs : Np.files A) lm sd (tr va te tr' va' te' : split_set A)
    trd trl ted tel :
  split_given fs lm sd (tr, va, te) (trd, trl, ted, tel) = Ok (tr', va', te') →
  ∃ d ls codes,
    Np.spectra_files fs !! ted = Some d ∧ Np.label_files fs !! tel = Some ls ∧
    data te' = d ∧ labels te' = labels te ++ codes ∧
    Forall2 (λ l c, lm !! l = Some c) ls codes.
Proof.
  unfold split_given, Np.load_spectra, Np.load_labels.
  destruct (Np.spectra_files fs !! ted) as [d|]; cbn [mbind result_bind]; [|done].
  destruct (Np.label_files fs !! tel) as [ls|]; cbn [mbind result_bind]; [|done].
  destruct (Np.spectra_files fs !! trd) as [X|]; cbn [mbind result_bind]; [|done].
  destruct (Np.label_files fs !! trl) as [y|]; cbn [mbind result_bind]; [|done].
  destruct (train_test_split X y sd) as [[[[Xt Xv] yt] yv]|];
    cbn [mbind result_bind]; [|done].
  destruct (extend_codes lm ls _) as [te1|] eqn:Ete; cbn [mbind result_bind]; [|done].
  destruct (extend_codes lm yt _) as [tr1|]; cbn [mbind result_bind]; [|done].
  destruct (extend_codes lm yv _) as [va1|]; cbn [mbind result_bind]; [|done].
  intros [= <- <- <-].
  apply extend_codes_spec in Ete as (Hd & codes & Hlab & Hcodes).
  cbn [data labels] in *. by exists d, ls, codes.
Qed.

(** C2, on the code.  In pre-split mode with two groups, a construction
    that succeeds leaves in the test partition the samples of the second
    group only, next to the codes of the test labels of both groups: the
    samples of the first group are not appended to, they are replaced.
    The data and label sequences then differ in length as soon as the
    first group has a test label. *)
Theorem pre_split_data_overwritten (g0 : rng_state) (fs : Np.files A) cfg o g'
    trd1 trd2 trl1 trl2 ted1 ted2 tel1 tel2 d2 ls1 ls2 :
  use_pre_split cfg = true →
  train_data_path cfg = [trd1; trd2] → train_labels_path cfg = [trl1; trl2] →
  test_data_path cfg = [ted1; ted2] → test_labels_path cfg = [tel1; tel2] →
  Np.spectra_files fs !! ted2 = Some d2 →
  Np.label_files fs !! tel1 = Some ls1 → Np.label_files fs !! tel2 = Some ls2 →
  __init__ g0 fs cfg = Ok (o, g') →
  data (test_set o) = d2
  ∧ Forall2 (λ l c, label_map o !! l = Some c) (ls1 ++ ls2) (labels (test_set o))
  ∧ (length d2 = length ls2 → ls1 ≠ [] →
     length (data (test_set o)) ≠ length (labels (test_set o))).
Proof.
  intros Hmode Htrd Htrl Hted Htel Hd2 Hl1 Hl2 (g & _ & _ & _ & Hsplits)%init_inv.
  unfold _get_splits in Hsplits. rewrite Hmode, Htrd, Htrl, Hted, Htel in Hsplits.
  cbn [zip4 zip zip_with for_loop] in Hsplits.
  destruct (split_given _ _ _ _ (trd1, _, _, _)) as [[[tr1 va1] te1]|] eqn:E1;
    cbn [mbind result_bind] in Hsplits; [|done].
  destruct (split_given _ _ _ _ (trd2, _, _, _)) as [[[tr2 va2] te2]|] eqn:E2;
    cbn [mbind result_bind] in Hsplits; [|done].
  injection Hsplits as _ _ Hte _. rewrite <- Hte. clear Hte.
  apply split_given_test in E1 as (d & ls & codes1 & _ & Hls & _ & Hlab1 & Hc1).
  apply split_given_test in E2 as (d' & ls' & codes2 & Hd & Hls' & Hdata & Hlab2 & Hc2).
  simplify_eq. cbn [labels empty_set] in *.
  assert (Hall : Forall2 (λ l c, label_map o !! l = Some c) (ls1 ++ ls2) (labels te2)).
  { rewrite Hlab2, Hlab1. simpl. by apply Forall2_app. }
  split_and!; [done..|].
  intros Hlen Hne. apply Forall2_length in Hall. rewrite length_app in Hall.
  destruct ls1; [done|]. simpl in Hall. lia.
Qed.

End Configuration.

(** ** Blocks, remainders and groups *)

Section BlockFacts.
Context {A : Type}.
Import SAMRaman Blocks.

Implicit Types (bs : list (list A * Z)) (rows spectra : list A) (labels : list Z).

Lemma join_cons {X} (x : list X) (xs : list (list X)) : mjoin (x :: xs) = x ++ mjoin xs.
Proof. reflexivity. Qed.

Lemma assemble_length bs :
  length (data (assemble bs)) = length (labels (assemble bs)).
Proof.
  unfold assemble. cbn [data labels].
  induction bs as [|[b c] bs IH]; [done|].
  rewrite fmap_cons, bind_cons, join_cons. cbn [fst snd].
  by rewrite !length_app, length_replicate, IH.
Qed.

(** Position by position, a row of an assembled partition sits next to the
    code of its block. *)
Lemma assemble_lookup bs (j : nat) r c :
  data (assemble bs) !! j = Some r → labels (assemble bs) !! j = Some c →
  ∃ b, (b, c) ∈ bs ∧ r ∈ b.
Proof.
  unfold assemble. cbn [data labels]. revert j.
  induction bs as [|[b c0] bs IH]; intros j; [done|].
  rewrite fmap_cons, bind_cons, join_cons. cbn [fst snd].
  destruct (decide (j < length b)%nat) as [Hj|Hj].
  - rewrite !lookup_app_l by (by rewrite ?length_replicate).
    intros Hr [-> _]%lookup_replicate. exists b. split; [left|].
    by eapply list_elem_of_lookup_2.
  - rewrite !lookup_app_r by (rewrite ?length_replicate; lia).
    rewrite length_replicate. intros Hr Hc.
    destruct (IH _ Hr Hc) as (b' & Hin & Hrb). exists b'. split; [by right|done].
Qed.

Lemma patient_blocks_join p rows :
  0 < p →
  mjoin (patient_blocks p rows)
  = take (Z.to_nat (Z.of_nat (length rows) `div` p * p)) rows.
Proof.
  intros Hp. unfold patient_blocks, Np.arange.
  assert (Hn : 0 ≤ Z.of_nat (length rows) `div` p) by (apply Z.div_pos; lia).
  replace (Z.to_nat (Z.of_nat (length rows) `div` p * p))
    with (Z.to_nat (Z.of_nat (length rows) `div` p) * Z.to_nat p)%nat by lia.
  induction (Z.to_nat (Z.of_nat (length rows) `div` p)) as [|k IH]; [done|].
  rewrite seq_S, !fmap_app, join_app, IH. cbn [fmap list_fmap].
  rewrite join_cons, app_nil_r. unfold patient_block.
  replace (Z.to_nat (Z.of_nat (0 + k) * p)) with (k * Z.to_nat p)%nat by lia.
  rewrite take_take_drop. f_equal. lia.
Qed.

(** For a positive interval the rows are the whole blocks followed by the
    remainder, which has [len(rows) % p] rows. *)
Lemma remainder_spec p rows :
  0 < p →
  rows = mjoin (patient_blocks p rows) ++ remainder p rows
  ∧ Z.of_nat (length (remainder p rows)) = Z.of_nat (length rows) `mod` p.
Proof.
  intros Hp. rewrite patient_blocks_join by done. unfold remainder.
  split; [by rewrite take_drop|].
  rewrite length_drop.
  pose proof (Z.div_mod (Z.of_nat (length rows)) p ltac:(lia)) as Hdm.
  pose proof (Z.mod_pos_bound (Z.of_nat (length rows)) p Hp) as Hr.
  assert (0 ≤ Z.of_nat (length rows) `div` p) by (apply Z.div_pos; lia).
  lia.
Qed.

Lemma elem_of_patient_block p rows i r :
  r ∈ patient_block p rows i → r ∈ rows.
Proof.
  unfold patient_block. intros (j & Hj & _)%elem_of_take.
  rewrite lookup_drop in Hj. by eapply list_elem_of_lookup_2.
Qed.

(** A patient block has exactly [p] rows, and [p] is then positive. *)
Lemma elem_of_patient_blocks p rows b :
  b ∈ patient_blocks p rows →
  0 < p ∧ length b = Z.to_nat p ∧ ∀ r, r ∈ b → r ∈ rows.
Proof.
  unfold patient_blocks. intros (i & -> & Hi)%list_elem_of_fmap.
  pose proof (arange_bounds (Z.of_nat (length rows) `div` p)) as Hb.
  eapply Forall_forall in Hb; [|exact Hi]. simpl in Hb.
  assert (Hp : 0 < p) by (apply (floordiv_pos (Z.of_nat (length rows))); lia).
  split_and!; [done|apply patient_block_length; lia|].
  intros r. apply elem_of_patient_block.
Qed.

Lemma coded_blocks_fst (lm : gmap Z Z) (gs : list (label_group A)) :
  (gs ≫= coded_blocks lm).*1 = gs ≫= group_blocks.
Proof.
  induction gs as [|g gs IH]; [done|].
  rewrite !bind_cons, fmap_app, IH. f_equal.
  unfold coded_blocks. rewrite <- list_fmap_compose. apply list_fmap_id.
Qed.

Lemma bind_join {X} (f : X → list (list A)) (xs : list X) :
  mjoin (xs ≫= f) = xs ≫= λ x, mjoin (f x).
Proof.
  induction xs as [|x xs IH]; [done|]. by rewrite !bind_cons, join_app, IH.
Qed.

Lemma bind_app_Permutation {X} (f h : X → list A) (xs : list X) :
  xs ≫= (λ x, f x ++ h x) ≡ₚ (xs ≫= f) ++ (xs ≫= h).
Proof.
  induction xs as [|x xs IH]; [done|]. rewrite !bind_cons, IH. solve_Permutation.
Qed.

Lemma bind_ext_Permutation {X} (f h : X → list A) (xs : list X) :
  (∀ x, x ∈ xs → f x ≡ₚ h x) → xs ≫= f ≡ₚ xs ≫= h.
Proof.
  induction xs as [|x xs IH]; intros Hfh; [done|].
  rewrite !bind_cons, (Hfh x) by left. rewrite IH; [done|].
  intros y Hy. apply Hfh. by right.
Qed.

Lemma bind_bind {X Y} (f : X → list Y) (h : Y → list A) (xs : list X) :
  (xs ≫= f) ≫= h = xs ≫= λ x, f x ≫= h.
Proof.
  induction xs as [|x xs IH]; [done|]. by rewrite !bind_cons, bind_app, IH.
Qed.

End BlockFacts.

Section Grouping.
Context {A : Type}.
Import SAMRaman Blocks.

Implicit Types (spectra : list A) (labels : list Z).

Lemma insert_unique_Permutation x (u : list Z) :
  StronglySorted Z.lt u →
  Np.insert_unique x u ≡ₚ if decide (x ∈ u) then u else x :: u.
Proof.
  induction 1 as [|y u Hs IH Hy]; cbn [Np.insert_unique].
  - by rewrite decide_False by apply not_elem_of_nil.
  - destruct (decide (x < y)) as [Hlt|Hge].
    + rewrite decide_False; [done|].
      intros [->|Hin]%elem_of_cons; [lia|].
      eapply Forall_forall in Hy; [|done]. lia.
    + destruct (decide (x = y)) as [->|Hne].
      * rewrite decide_True by left. done.
      * rewrite IH. destruct (decide (x ∈ u)) as [Hin|Hin].
        -- by rewrite decide_True by (by right).
        -- rewrite decide_False by (intros [?|?]%elem_of_cons; done).
           apply Permutation_swap.
Qed.

Lemma select_rows_none spectra labels l :
  l ∉ labels → Np.select_rows spectra (Np.eq_scalar labels l) = [].
Proof.
  revert spectra. induction labels as [|l0 labels IH]; intros [|r spectra] Hl; try done.
  simpl. rewrite bool_decide_eq_false_2 by (intros ->; apply Hl; left).
  apply IH. intros ?. apply Hl. by right.
Qed.

Lemma bind_select_cons (u : list Z) (l0 : Z) (r : A) (G : Z → list A) :
  NoDup u → l0 ∈ u →
  u ≫= (λ l, if bool_decide (l0 = l) then r :: G l else G l) ≡ₚ r :: (u ≫= G).
Proof.
  induction 1 as [|l u Hl Hnd IH]; [by intros ?%elem_of_nil|].
  rewrite !bind_cons. intros [->|Hin]%elem_of_cons.
  - rewrite bool_decide_eq_true_2 by done. simpl. f_equiv. f_equiv.
    apply bind_ext_Permutation. intros l' Hl'.
    rewrite bool_decide_eq_false_2; [done|]. by intros ->.
  - rewrite bool_decide_eq_false_2 by (by intros ->).
    rewrite IH by done. by rewrite Permutation_middle.
Qed.

(** The groups of a source share out its rows. *)
Lemma groups_partition spectra labels (p : Z) :
  length labels = length spectra →
  groups_of spectra labels p ≫= grp_spectra ≡ₚ spectra.
Proof.
  unfold groups_of. rewrite list_fmap_bind. unfold compose. cbn [grp_spectra].
  revert spectra. induction labels as [|l0 labels IH]; intros [|r spectra] Hlen; try done.
  injection Hlen as Hlen. specialize (IH spectra Hlen).
  cbn [Np.unique foldr].
  rewrite (bind_Permutation _ _ _ (insert_unique_Permutation l0 _ (unique_sorted labels))).
  assert (Hsel : ∀ l, Np.select_rows (r :: spectra) (Np.eq_scalar (l0 :: labels) l)
                      = if bool_decide (l0 = l)
                        then r :: Np.select_rows spectra (Np.eq_scalar labels l)
                        else Np.select_rows spectra (Np.eq_scalar labels l)).
  { intros l. simpl. by destruct (bool_decide (l0 = l)). }
  destruct (decide (l0 ∈ Np.unique labels)) as [Hin|Hin].
  - rewrite (bind_ext_Permutation _ _ _ (λ l _, reflexive_eq _ _ (Hsel l))).
    rewrite bind_select_cons; [by rewrite IH| |done].
    apply sorted_NoDup, unique_sorted.
  - rewrite bind_cons, (Hsel l0), bool_decide_eq_true_2 by done.
    rewrite select_rows_none by (by rewrite <- elem_of_unique).
    cbn [app]. f_equiv. rewrite <- IH.
    apply bind_ext_Permutation. intros l Hl.
    rewrite Hsel, bool_decide_eq_false_2; [done|]. by intros ->.
Qed.

Lemma elem_of_sources cfg sp lp p :
  (sp, lp, p) ∈ sources cfg →
  sp ∈ spectral_dirs cfg ∧ lp ∈ label_dirs cfg ∧ p ∈ patient_intervals cfg.
Proof.
  unfold sources, zip3. intros Hin.
  pose proof (elem_of_zip_l _ _ _ _ Hin) as Hl.
  split_and!; [by eapply elem_of_zip_l|by eapply elem_of_zip_r|by eapply elem_of_zip_r].
Qed.

(** A group of generation mode comes from a processed source, and its
    label is one that the vocabulary has seen. *)
Lemma elem_of_label_groups (fs : Np.files A) cfg g :
  use_pre_split cfg = false → g ∈ label_groups fs cfg →
  grp_interval g ∈ patient_intervals cfg ∧ seen fs cfg (grp_label g).
Proof.
  intros Hmode. unfold label_groups.
  intros ([[sp lp] p] & Hg & Hsrc)%list_elem_of_bind.
  apply elem_of_sources in Hsrc as (_ & Hlp & Hp).
  unfold source_groups, groups_of in Hg. cbn [fst snd] in Hg.
  apply list_elem_of_fmap in Hg as (l & -> & Hl). cbn [grp_interval grp_label].
  split; [exact Hp|]. rewrite elem_of_unique in Hl.
  unfold seen, label_sources. rewrite Hmode.
  destruct (Np.label_files fs !! lp) as [labels|] eqn:Hfile; [|by apply elem_of_nil in Hl].
  by exists lp, labels.
Qed.

(** With aligned sources, the groups share out the input samples. *)
(** When [zip] reaches every spectra path, the spectra paths of the
    sources are the configured ones. *)
Lemma sources_spectral_dirs cfg :
  no_spectra_left_out cfg → (sources cfg).*1.*1 = spectral_dirs cfg.
Proof.
  intros [Hl Hp]. unfold sources, zip3.
  rewrite fst_zip by (rewrite length_zip; lia). by rewrite fst_zip.
Qed.

Lemma label_groups_partition (fs : Np.files A) cfg :
  no_spectra_left_out cfg → aligned_sources fs cfg →
  label_groups fs cfg ≫= grp_spectra ≡ₚ input_samples fs cfg.
Proof.
  intros Hall Hal. unfold input_samples. rewrite <- (sources_spectral_dirs cfg Hall).
  rewrite <- list_fmap_compose, list_fmap_bind.
  unfold aligned_sources, label_groups in *. rewrite bind_bind.
  apply bind_ext_Permutation. intros src Hsrc.
  eapply Forall_forall in Hal; [|exact Hsrc]. by apply groups_partition.
Qed.

End Grouping.

(** ** Claims about generation mode *)

Section GenerationClaims.
Context {A : Type} `{NumpyRandom} `{Sklearn A}.
Import SAMRaman Blocks.

Lemma label_mapping_is_Some labels l :
  l ∈ labels ↔ is_Some (label_mapping_of labels !! l).
Proof.
  rewrite <- elem_of_unique. split.
  - intros (i & Hi)%list_elem_of_lookup_1. exists (Z.of_nat i).
    apply label_mapping_lookup. rewrite Nat2Z.id. split; [lia|done].
  - intros [c [_ Hc]%label_mapping_lookup]. by eapply list_elem_of_lookup_2.
Qed.

(** A successful construction in generation mode, in terms of blocks. *)
Lemma init_generation (g0 : rng_state) (fs : Np.files A) cfg o g' :
  use_pre_split cfg = false → __init__ g0 fs cfg = Ok (o, g') →
  ∃ b1 b2 b3,
    train_set o = assemble b1 ∧ val_set o = assemble b2 ∧ test_set o = assemble b3 ∧
    b1 ++ b2 ++ b3 ≡ₚ label_groups fs cfg ≫= coded_blocks (label_map o) ∧
    ∀ l, seen fs cfg l → is_Some (label_map o !! l).
Proof.
  intros Hmode (g & _ & Hlm & _ & Hsplits)%init_inv.
  apply generation_spec in Hsplits as (b1 & b2 & b3 & ? & ? & ? & HP); [|done].
  exists b1, b2, b3. split_and!; [done..|].
  apply get_label_mapping_spec in Hlm as (labels & -> & Hseen).
  intros l Hl%Hseen. by apply label_mapping_is_Some.
Qed.

Lemma coded_block_origin (fs : Np.files A) cfg lm bc :
  use_pre_split cfg = false →
  (∀ l, seen fs cfg l → is_Some (lm !! l)) →
  bc ∈ label_groups fs cfg ≫= coded_blocks lm → block_origin fs cfg lm bc.
Proof.
  intros Hmode Hseen (g & Hbc & Hg)%list_elem_of_bind.
  unfold coded_blocks in Hbc. apply list_elem_of_fmap in Hbc as (b & -> & Hb).
  exists g. cbn [fst snd]. split_and!; [done..| |].
  - by apply elem_of_patient_blocks in Hb as (_ & ? & _).
  - destruct (elem_of_label_groups fs cfg g Hmode Hg) as [_ Hl].
    by destruct (Hseen _ Hl) as [c ->].
Qed.

(** C10.  In generation mode each partition is assembled from patient
    blocks: a block of a group with patient interval [p] contributes its
    [p] rows to the data and [p] copies of the code of the group's label
    to the labels.  Hence the two sequences of a partition have the same
    length, and the row and the code at the same index belong to the same
    group. *)
Theorem generation_partitions_aligned (g0 : rng_state) (fs : Np.files A) cfg o g' :
  use_pre_split cfg = false → __init__ g0 fs cfg = Ok (o, g') →
  Forall (λ part,
    (∃ bs, part = assemble bs ∧ Forall (block_origin fs cfg (label_map o)) bs)
    ∧ length (data part) = length (labels part)
    ∧ ∀ (j : nat) r c, data part !! j = Some r → labels part !! j = Some c →
        ∃ g, g ∈ label_groups fs cfg ∧ r ∈ grp_spectra g
             ∧ label_map o !! grp_label g = Some c)
    [train_set o; val_set o; test_set o].
Proof.
  intros Hmode Hinit.
  destruct (init_generation _ _ _ _ _ Hmode Hinit)
    as (b1 & b2 & b3 & -> & -> & -> & HP & Hseen).
  assert (Hall : Forall (block_origin fs cfg (label_map o)) (b1 ++ b2 ++ b3)).
  { apply Forall_forall. intros bc Hbc. rewrite HP in Hbc.
    by apply coded_block_origin. }
  apply Forall_app in Hall as [H1 Hall]. apply Forall_app in Hall as [H2 H3].
  assert (Hpart : ∀ bs, Forall (block_origin fs cfg (label_map o)) bs →
    (∃ bs', assemble bs = assemble bs' ∧ Forall (block_origin fs cfg (label_map o)) bs')
    ∧ length (data (assemble bs)) = length (labels (assemble bs))
    ∧ ∀ (j : nat) r c, data (assemble bs) !! j = Some r →
        labels (assemble bs) !! j = Some c →
        ∃ g, g ∈ label_groups fs cfg ∧ r ∈ grp_spectra g
             ∧ label_map o !! grp_label g = Some c).
  { intros bs Hbs. split_and!; [by exists bs|apply assemble_length|].
    intros j r c Hr Hc. destruct (assemble_lookup bs j r c Hr Hc) as (b & Hin & Hrb).
    eapply Forall_forall in Hbs; [|exact Hin].
    destruct Hbs as (g & Hg & Hb & _ & Hcode). cbn [fst snd] in *.
    exists g. split_and!; [done| |done].
    apply elem_of_patient_blocks in Hb as (_ & _ & Hrows). by apply Hrows. }
  repeat constructor; by apply Hpart.
Qed.

(** C4, as amended.  In generation mode the three partitions are made of
    whole patient blocks, and the blocks of the three partitions together
    are the patient blocks of all the (source, label) groups that [zip]
    forms, each taken once.  When the samples kept are distinct, no sample
    is in two partitions.  When [zip] reaches every spectra path, the
    intervals are positive and every source has as many labels as spectra,
    the input samples are the samples of the three partitions together
    with the remainders of the groups.  Pre-split mode has no patient
    blocks; with a single group of paths its partitions are the test array
    and the two parts that [train_test_split] makes of the training array,
    and they cover the input when these two parts cover the training
    array. *)
Theorem partitions_disjoint_and_cover (g0 : rng_state) (fs : Np.files A) cfg o g' :
  __init__ g0 fs cfg = Ok (o, g') →
  (use_pre_split cfg = false →
   ∃ btr bva bte : list (list A),
     data (train_set o) = mjoin btr ∧ data (val_set o) = mjoin bva
     ∧ data (test_set o) = mjoin bte
     ∧ btr ++ bva ++ bte ≡ₚ all_patient_blocks fs cfg
     ∧ (NoDup (mjoin (all_patient_blocks fs cfg)) →
        (∀ x, x ∈ data (train_set o) →
           (x ∉ data (val_set o)) ∧ (x ∉ data (test_set o)))
        ∧ (∀ x, x ∈ data (val_set o) → x ∉ data (test_set o)))
     ∧ (no_spectra_left_out cfg → Forall (λ p, 0 < p) (patient_intervals cfg) →
        aligned_sources fs cfg →
        input_samples fs cfg
        ≡ₚ (data (train_set o) ++ data (val_set o) ++ data (test_set o))
           ++ (label_groups fs cfg ≫= group_remainder)))
  ∧ (use_pre_split cfg = true →
     ∀ trd trl ted tel,
       train_data_path cfg = [trd] → train_labels_path cfg = [trl] →
       test_data_path cfg = [ted] → test_labels_path cfg = [tel] →
       ∃ X y d Xt Xv yt yv,
         Np.spectra_files fs !! trd = Some X ∧ Np.label_files fs !! trl = Some y
         ∧ Np.spectra_files fs !! ted = Some d
         ∧ train_test_split X y (seed cfg) = Ok (Xt, Xv, yt, yv)
         ∧ data (train_set o) = Xt ∧ data (val_set o) = Xv ∧ data (test_set o) = d
         ∧ (Xt ++ Xv ≡ₚ X →
            data (train_set o) ++ data (val_set o) ++ data (test_set o)
            ≡ₚ pre_split_input_samples fs cfg)).
Proof.
  intros Hinit. split.
  - intros Hmode.
    destruct (init_generation _ _ _ _ _ Hmode Hinit)
      as (b1 & b2 & b3 & -> & -> & -> & HP & _).
    exists b1.*1, b2.*1, b3.*1. cbn [assemble data].
    assert (Hblocks : b1.*1 ++ b2.*1 ++ b3.*1 ≡ₚ all_patient_blocks fs cfg).
    { rewrite <- !fmap_app, HP. by rewrite coded_blocks_fst. }
    assert (Hdata : mjoin b1.*1 ++ mjoin b2.*1 ++ mjoin b3.*1
                    ≡ₚ mjoin (all_patient_blocks fs cfg)).
    { by rewrite <- !join_app, Hblocks. }
    split_and!; [done..| |].
    + intros Hnd. rewrite <- Hdata in Hnd.
      apply NoDup_app in Hnd as (_ & Htr & Hnd). apply NoDup_app in Hnd as (_ & Hva & _).
      split; [|done]. intros x Hx. specialize (Htr x Hx).
      rewrite elem_of_app in Htr. tauto.
    + intros Hall Hpos Hal. rewrite <- (label_groups_partition fs cfg Hall Hal).
      rewrite !app_assoc, <- (app_assoc (mjoin b1.*1)), Hdata.
      unfold all_patient_blocks. rewrite bind_join, <- bind_app_Permutation.
      apply bind_ext_Permutation. intros g Hg.
      destruct (elem_of_label_groups fs cfg g Hmode Hg) as [Hp _].
      eapply Forall_forall in Hpos; [|exact Hp].
      unfold group_blocks, group_remainder.
      by rewrite <- (proj1 (remainder_spec _ _ Hpos)).
  - intros Hmode trd trl ted tel Htrd Htrl Hted Htel.
    apply init_inv in Hinit as (g & _ & _ & _ & Hsplits).
    unfold _get_splits in Hsplits. rewrite Hmode, Htrd, Htrl, Hted, Htel in Hsplits.
    cbn [zip4 zip zip_with for_loop] in Hsplits.
    destruct (split_given _ _ _ _ _) as [[[tr1 va1] te1]|] eqn:E1;
      cbn [mbind result_bind] in Hsplits; [|done].
    injection Hsplits as <- <- <- _.
    revert E1. unfold split_given, Np.load_spectra, Np.load_labels.
    destruct (Np.spectra_files fs !! ted) as [d|] eqn:Hd; cbn [mbind result_bind]; [|done].
    destruct (Np.label_files fs !! tel) as [ls|]; cbn [mbind result_bind]; [|done].
    destruct (Np.spectra_files fs !! trd) as [X|] eqn:HX; cbn [mbind result_bind]; [|done].
    destruct (Np.label_files fs !! trl) as [y|]; cbn [mbind result_bind]; [|done].
    destruct (train_test_split X y (seed cfg)) as [[[[Xt Xv] yt] yv]|] eqn:Hsplit;
      cbn [mbind result_bind]; [|done].
    destruct (extend_codes _ ls _) as [te2|] eqn:Ete; cbn [mbind result_bind]; [|done].
    destruct (extend_codes _ yt _) as [tr2|] eqn:Etr; cbn [mbind result_bind]; [|done].
    destruct (extend_codes _ yv _) as [va2|] eqn:Eva; cbn [mbind result_bind]; [|done].
    intros [= <- <- <-].
    apply extend_codes_spec in Ete as (Hte & _). apply extend_codes_spec in Etr as (Htr & _).
    apply extend_codes_spec in Eva as (Hva & _). cbn [data] in *.
    exists X, y, d, Xt, Xv, yt, yv. split_and!; [done..|].
    intros Hcover. rewrite Htr, Hva, Hte. unfold pre_split_input_samples.
    rewrite Htrd, Hted. cbn [app]. rewrite !bind_cons, HX, Hd.
    cbn [default from_option id]. change (mbind _ []) with (@nil A).
    by rewrite app_nil_r, app_assoc, Hcover.
Qed.

(** C6.  In generation mode with positive patient intervals, the rows of
    each (source, label) group are its whole patient blocks followed by
    [count % p] trailing rows; the three partitions hold the rows of the
    whole blocks and nothing else; and, the samples being distinct, a
    trailing row of a group is in none of the three partitions. *)
Theorem remainder_dropped (g0 : rng_state) (fs : Np.files A) cfg o g' :
  use_pre_split cfg = false →
  Forall (λ p, 0 < p) (patient_intervals cfg) →
  __init__ g0 fs cfg = Ok (o, g') →
  (∀ g, g ∈ label_groups fs cfg →
     grp_spectra g = mjoin (group_blocks g) ++ group_remainder g
     ∧ Z.of_nat (length (group_remainder g))
       = Z.of_nat (length (grp_spectra g)) `mod` grp_interval g)
  ∧ data (train_set o) ++ data (val_set o) ++ data (test_set o)
    ≡ₚ label_groups fs cfg ≫= (λ g, mjoin (group_blocks g))
  ∧ (NoDup (label_groups fs cfg ≫= grp_spectra) →
     ∀ g x, g ∈ label_groups fs cfg → x ∈ group_remainder g →
       (x ∉ data (train_set o)) ∧ (x ∉ data (val_set o)) ∧ (x ∉ data (test_set o))).
Proof.
  intros Hmode Hpos Hinit.
  destruct (init_generation _ _ _ _ _ Hmode Hinit)
    as (b1 & b2 & b3 & -> & -> & -> & HP & _).
  cbn [assemble data].
  assert (Hgrp : ∀ g, g ∈ label_groups fs cfg →
     grp_spectra g = mjoin (group_blocks g) ++ group_remainder g
     ∧ Z.of_nat (length (group_remainder g))
       = Z.of_nat (length (grp_spectra g)) `mod` grp_interval g).
  { intros g Hg. destruct (elem_of_label_groups fs cfg g Hmode Hg) as [Hp _].
    eapply Forall_forall in Hpos; [|exact Hp]. by apply remainder_spec. }
  assert (Hdata : mjoin b1.*1 ++ mjoin b2.*1 ++ mjoin b3.*1
                  ≡ₚ label_groups fs cfg ≫= (λ g, mjoin (group_blocks g))).
  { rewrite <- !join_app, <- !fmap_app, HP, coded_blocks_fst. by rewrite bind_join. }
  split_and!; [done..|].
  intros Hnd g x Hg Hx.
  assert (Hsplit : label_groups fs cfg ≫= grp_spectra
                   ≡ₚ (mjoin b1.*1 ++ mjoin b2.*1 ++ mjoin b3.*1)
                      ++ (label_groups fs cfg ≫= group_remainder)).
  { rewrite Hdata, <- bind_app_Permutation. apply bind_ext_Permutation.
    intros g1 Hg1. by rewrite <- (proj1 (Hgrp g1 Hg1)). }
  rewrite Hsplit in Hnd. apply NoDup_app in Hnd as (_ & Hkept & _).
  assert (Hrem : x ∈ label_groups fs cfg ≫= group_remainder).
  { apply list_elem_of_bind. by exists g. }
  assert (Hnot : x ∉ mjoin b1.*1 ++ mjoin b2.*1 ++ mjoin b3.*1).
  { intros Hin. by apply (Hkept x Hin). }
  rewrite !elem_of_app in Hnot. tauto.
Qed.

End GenerationClaims.

(** ** Generation mode returns *)

Section GenerationReturns.
Context {A : Type} `{NumpyRandom} `{Sklearn A}.
Import SAMRaman Blocks.

Lemma extend_loaded_ok (fs : Np.files A) paths acc :
  Forall (λ path, is_Some (Np.label_files fs !! path)) paths →
  ∃ labels, extend_loaded fs paths acc = Ok labels.
Proof.
  unfold extend_loaded. intros Hall. revert acc.
  induction Hall as [|f paths [a Hf] _ IH]; intros acc; cbn [for_loop]; [by eexists|].
  assert (Np.load_labels fs f = Ok a) as -> by (unfold Np.load_labels; by rewrite Hf).
  cbn [mbind result_bind]. apply IH.
Qed.

Lemma select_rows_length (rows : list A) (mask : list bool) :
  (length (Np.select_rows rows mask) ≤ length rows)%nat.
Proof.
  revert mask. induction rows as [|r rows IH]; intros [|[] mask]; simpl; try lia.
  - specialize (IH mask). lia.
  - specialize (IH mask). lia.
Qed.

Lemma labels_loop_ok lm (spectra : list A) labels p ls
    (b1 b2 b3 : list (list A * Z)) (g : rng_state) :
  length labels = length spectra → 0 < p → Z.of_nat (length spectra) < 2 ^ 1000 →
  Forall (λ l, is_Some (lm !! l)) ls →
  ∃ st', for_loop (split_label lm spectra labels p) ls
           (assemble b1, assemble b2, assemble b3, g) = Ok st'.
Proof.
  intros Hlen Hp Hsize Hls. revert b1 b2 b3 g.
  induction Hls as [|l ls [code Hl] _ IH]; intros b1 b2 b3 g; cbn [for_loop];
    [by eexists|].
  set (rows := Np.select_rows spectra (Np.eq_scalar labels l)).
  set (n := Z.of_nat (length rows) `div` p).
  assert (Hn : 0 ≤ n < 2 ^ 1000).
  { pose proof (select_rows_length spectra (Np.eq_scalar labels l)) as Hle.
    fold rows in Hle. subst n. split; [apply Z.div_pos; lia|].
    apply Z.div_lt_upper_bound; [lia|]. nia. }
  destruct (split_ends_defined n Hn) as (a & b & Ha & Hb).
  destruct (np_random_permutation g (Np.arange n)) as [perm g1] eqn:Hperm.
  rewrite (split_label_closed lm spectra labels p b1 b2 b3 g l code a b perm g1)
    by done.
  cbn [mbind result_bind]. apply IH.
Qed.

Lemma sources_loop_ok (fs : Np.files A) lm srcs
    (b1 b2 b3 : list (list A * Z)) (g : rng_state) :
  Forall (λ src,
    ∃ spectra labels,
      Np.spectra_files fs !! src.1.1 = Some spectra
      ∧ Np.label_files fs !! src.1.2 = Some labels
      ∧ length labels = length spectra ∧ 0 < src.2
      ∧ Z.of_nat (length spectra) < 2 ^ 1000
      ∧ Forall (λ l, is_Some (lm !! l)) labels) srcs →
  ∃ st', for_loop (split_source fs lm) srcs
           (assemble b1, assemble b2, assemble b3, g) = Ok st'.
Proof.
  intros Hall. revert b1 b2 b3 g.
  induction Hall as [|[[sp lp] p] srcs Hsrc _ IH]; intros b1 b2 b3 g; cbn [for_loop];
    [by eexists|].
  destruct Hsrc as (spectra & labels & Hsp & Hlp & Hlen & Hp & Hsize & Hcodes).
  cbn [fst snd] in *.
  assert (Hu : Forall (λ l, is_Some (lm !! l)) (Np.unique labels)).
  { apply Forall_forall. intros l Hl. rewrite elem_of_unique in Hl.
    rewrite Forall_forall in Hcodes. by apply Hcodes. }
  destruct (labels_loop_ok lm spectra labels p (Np.unique labels) b1 b2 b3 g
              Hlen Hp Hsize Hu) as [st1 Hst1].
  assert (Hsrc : split_source fs lm (assemble b1, assemble b2, assemble b3, g) (sp, lp, p)
                 = Ok st1).
  { unfold split_source, Np.load_spectra, Np.load_labels. by rewrite Hsp, Hlp. }
  rewrite Hsrc. cbn [mbind result_bind].
  apply split_source_spec in Hsrc as (n1 & n2 & n3 & g1 & -> & _). apply IH.
Qed.

(** On a well-formed input, the seed is accepted, the vocabulary is built
    and the partitioning of generation mode returns. *)
Lemma generation_returns (fs : Np.files A) cfg :
  use_pre_split cfg = false → well_formed_generation fs cfg →
  ∃ lm st g',
    np_random_seed (seed cfg) = Ok (np_random_seed_state (seed cfg))
    ∧ _get_label_mapping fs cfg = Ok lm
    ∧ _get_splits fs cfg lm (np_random_seed_state (seed cfg)) = Ok (st, g').
Proof.
  intros Hmode (Hseed & Hfiles & Hsrcs & Hal).
  destruct (extend_loaded_ok fs (label_dirs cfg) [] Hfiles) as [labels Hlabels].
  assert (Hlm : _get_label_mapping fs cfg = Ok (label_mapping_of labels)).
  { unfold _get_label_mapping. by rewrite Hmode, Hlabels. }
  exists (label_mapping_of labels).
  destruct (get_label_mapping_spec fs cfg _ Hlm) as (labels' & Heq & Hseen).
  set (lm := label_mapping_of labels) in *.
  assert (Hall : Forall (λ src,
    ∃ spectra labels,
      Np.spectra_files fs !! src.1.1 = Some spectra
      ∧ Np.label_files fs !! src.1.2 = Some labels
      ∧ length labels = length spectra ∧ 0 < src.2
      ∧ Z.of_nat (length spectra) < 2 ^ 1000
      ∧ Forall (λ l, is_Some (lm !! l)) labels) (sources cfg)).
  { apply Forall_forall. intros [[sp lp] p] Hsrc.
    pose proof Hsrc as (_ & Hlp & _)%elem_of_sources.
    eapply Forall_forall in Hsrcs as ([spectra Hsp] & Hp & Hsize); [|exact Hsrc].
    eapply Forall_forall in Hal; [|exact Hsrc].
    eapply Forall_forall in Hfiles as [labels0 Hl0]; [|exact Hlp].
    cbn [fst snd] in *. rewrite Hsp in Hsize, Hal. rewrite Hl0 in Hal.
    exists spectra, labels0. split_and!; [done..|].
    apply Forall_forall. intros l Hl. rewrite Heq.
    apply label_mapping_is_Some, Hseen.
    exists lp, labels0. unfold label_sources. by rewrite Hmode. }
  unfold _get_splits. rewrite Hmode.
  change empty_set with (assemble ([] : list (list A * Z))).
  destruct (sources_loop_ok fs lm _ [] [] [] (np_random_seed_state (seed cfg)) Hall)
    as [[[[tr va] te] g1] Hst].
  unfold sources in Hst. exists (tr, va, te), g1.
  split; [unfold np_random_seed; by rewrite decide_True|]. by split.
Qed.

End GenerationReturns.

(** ** Twenty samples of one label, two per patient *)

Section SingleLabel.
Context {A : Type} `{NumpyRandom} `{Sklearn A}.
Import SAMRaman Blocks.

Lemma unique_cons (x : Z) (xs : list Z) :
  Np.unique (x :: xs) = Np.insert_unique x (Np.unique xs).
Proof. reflexivity. Qed.

Lemma unique_replicate (n : nat) (l : Z) : Np.unique (replicate (S n) l) = [l].
Proof.
  induction n as [|n IH]; [done|].
  change (replicate (S (S n)) l) with (l :: replicate (S n) l).
  rewrite unique_cons, IH. cbn [Np.insert_unique].
  rewrite decide_False by lia. by rewrite decide_True.
Qed.

Lemma select_rows_replicate (rows : list A) (l : Z) :
  Np.select_rows rows (Np.eq_scalar (replicate (length rows) l) l) = rows.
Proof.
  induction rows as [|r rows IH]; [done|]. cbn [length replicate].
  unfold Np.eq_scalar in *. rewrite fmap_cons. cbn [Np.select_rows].
  rewrite bool_decide_eq_true_2 by done. by rewrite IH.
Qed.

Lemma train_split_end_10 : train_split_end_of 10 = Ok 7.
Proof. vm_compute. reflexivity. Qed.

Lemma validation_split_end_10 : validation_split_end_of 10 = Ok 8.
Proof. vm_compute. reflexivity. Qed.

Lemma blocks_length (p : Z) (rows : list A) (idxs : list Z) :
  0 ≤ p → Forall (λ i, 0 ≤ i < Z.of_nat (length rows) `div` p) idxs →
  length (mjoin (patient_block p rows <$> idxs)) = (length idxs * Z.to_nat p)%nat.
Proof.
  intros Hp. induction 1 as [|i idxs Hi Hidx IH]; [done|].
  rewrite fmap_cons, join_cons, length_app, IH.
  rewrite patient_block_length by lia. simpl. lia.
Qed.

(** C1.  One source, one label, patient interval 2 and twenty samples: the
    boundaries computed for ten patients are 7 and 8, construction (with a
    seed that numpy accepts and a positive batch size, as [DataLoader]
    requires) succeeds, the permuted patient indices are cut into 7, 1 and
    2 indices for train, validation and test, and the partitions hold the
    blocks of these patients: 14, 2 and 4 samples, with as many label
    codes. *)
Theorem single_label_split_counts (g0 : rng_state) (fs : Np.files A) cfg
    sp lp (rows : list A) (l : Z) :
  use_pre_split cfg = false →
  spectral_dirs cfg = [sp] → label_dirs cfg = [lp] → patient_intervals cfg = [2] →
  0 ≤ seed cfg < 2 ^ 32 → 0 < batch_size cfg →
  Np.spectra_files fs !! sp = Some rows →
  Np.label_files fs !! lp = Some (replicate 20 l) →
  length rows = 20%nat →
  train_split_end_of 10 = Ok 7 ∧ validation_split_end_of 10 = Ok 8 ∧
  ∃ o g' (ptr pva pte : list Z),
    __init__ g0 fs cfg = Ok (o, g') ∧
    ptr ++ pva ++ pte ≡ₚ Np.arange 10 ∧
    length ptr = 7%nat ∧ length pva = 1%nat ∧ length pte = 2%nat ∧
    data (train_set o) = mjoin (patient_block 2 rows <$> ptr) ∧
    data (val_set o) = mjoin (patient_block 2 rows <$> pva) ∧
    data (test_set o) = mjoin (patient_block 2 rows <$> pte) ∧
    length (data (train_set o)) = 14%nat ∧ length (labels (train_set o)) = 14%nat ∧
    length (data (val_set o)) = 2%nat ∧ length (labels (val_set o)) = 2%nat ∧
    length (data (test_set o)) = 4%nat ∧ length (labels (test_set o)) = 4%nat.
Proof.
  intros Hmode Hsp Hlp Hint Hseed Hbatch Hrows Hlabels Hlen.
  split; [apply train_split_end_10|]. split; [apply validation_split_end_10|].
  unfold __init__, np_random_seed. rewrite decide_True by done.
  cbn [mbind result_bind].
  assert (Hlm : _get_label_mapping fs cfg = Ok (label_mapping_of (replicate 20 l))).
  { unfold _get_label_mapping, extend_loaded. rewrite Hmode, Hlp. cbn [for_loop].
    unfold Np.load_labels. rewrite Hlabels. done. }
  rewrite Hlm. cbn [mbind result_bind].
  set (lm := label_mapping_of (replicate 20 l)).
  assert (Hcode : lm !! l = Some 0).
  { apply label_mapping_lookup. by rewrite (unique_replicate 19). }
  unfold _get_splits. rewrite Hmode, Hsp, Hlp, Hint.
  cbn [zip3 zip zip_with for_loop]. unfold split_source, Np.load_spectra, Np.load_labels.
  rewrite Hrows, Hlabels. cbn [mbind result_bind].
  rewrite (unique_replicate 19). cbn [for_loop].
  change empty_set with (assemble ([] : list (list A * Z))).
  assert (Hsel : Np.select_rows rows (Np.eq_scalar (replicate 20 l) l) = rows).
  { rewrite <- Hlen. apply select_rows_replicate. }
  assert (Hn : Z.of_nat (length (Np.select_rows rows (Np.eq_scalar (replicate 20 l) l)))
                 `div` 2 = 10).
  { rewrite Hsel, Hlen. reflexivity. }
  pose proof (np_random_permutation_perm (np_random_seed_state (seed cfg)) (Np.arange 10))
    as HP.
  destruct (np_random_permutation (np_random_seed_state (seed cfg)) (Np.arange 10))
    as [perm g1] eqn:Hperm. simpl in HP.
  rewrite (split_label_closed lm rows (replicate 20 l) 2 [] [] []
             (np_random_seed_state (seed cfg)) l 0 7 8 perm g1);
    [|by rewrite length_replicate|lia|by rewrite Hn|by rewrite Hn; apply train_split_end_10
     |by rewrite Hn; apply validation_split_end_10|done].
  cbn [mbind result_bind]. rewrite Hsel. rewrite !app_nil_l.
  assert (Hplen : length perm = 10%nat).
  { rewrite (Permutation_length HP). unfold Np.arange.
    by rewrite length_fmap, length_seq. }
  assert (Hin : ∀ lo hi,
    Forall (λ i, 0 ≤ i < Z.of_nat (length rows) `div` 2) (Py.slice lo hi perm)).
  { intros lo hi. apply Forall_forall. intros i Hi%elem_of_slice.
    rewrite HP in Hi. pose proof (arange_bounds 10) as Hb.
    eapply Forall_forall in Hb; [|exact Hi]. rewrite Hlen.
    change (Z.of_nat 20 `div` 2) with 10. exact Hb. }
  assert (Hdata : ∀ idxs,
    data (assemble ((λ i, (patient_block 2 rows i, 0)) <$> idxs))
    = mjoin (patient_block 2 rows <$> idxs)).
  { intros idxs. unfold assemble. cbn [data]. by rewrite <- list_fmap_compose. }
  assert (Htrain : length (labels (assemble ((λ i, (patient_block 2 rows i, 0))
                                     <$> Py.slice None (Some 7) perm))) = 14%nat).
  { rewrite <- assemble_length, Hdata, blocks_length by (lia || apply Hin).
    rewrite slice_prefix by lia. by rewrite length_take, Hplen. }
  rewrite create_dataloaders_ok by (done || by intros Hnil; rewrite Hnil in Htrain).
  cbn [mbind result_bind].
  eexists _, g1, (Py.slice None (Some 7) perm), (Py.slice (Some 7) (Some 8) perm),
    (Py.slice (Some 8) None perm).
  split; [reflexivity|]. cbn [train_set val_set test_set].
  rewrite <- !assemble_length, !Hdata, !blocks_length by (lia || apply Hin).
  rewrite slice_three by lia.
  rewrite slice_prefix, slice_middle, slice_suffix by lia.
  rewrite !length_take, !length_drop, Hplen.
  split_and!; try done.
Qed.

End SingleLabel.

(** ** The claims on the concrete inputs *)

Section OnExamples.
Import SAMRaman Blocks Examples.

(** C8, as stated, fails: on a wrapper of length two the index [-1] is
    outside [[0, length())], yet [get(-1)] returns the last pair. *)
Lemma getitem_negative_index_accepted :
  ¬ (0 ≤ -1 < SAMRamanDataset.__len__ wrapper)
  ∧ SAMRamanDataset.__getitem__ wrapper (-1) = Ok ([20], 1).
Proof. split; [lia|reflexivity]. Qed.

(** The bounds of [__getitem__] on the wrapper of two pairs. *)
Lemma dataset_getitem_bounds_witness :
  SAMRamanDataset.__getitem__ wrapper 2 = Raise IndexError
  ∧ SAMRamanDataset.__getitem__ wrapper (-3) = Raise IndexError
  ∧ SAMRamanDataset.__getitem__ wrapper (-1) = SAMRamanDataset.__getitem__ wrapper 1.
Proof.
  split_and!.
  - apply (proj1 (dataset_getitem_bounds wrapper 2)).
    right. vm_compute. discriminate.
  - apply (proj1 (dataset_getitem_bounds wrapper (-3))).
    left. vm_compute. reflexivity.
  - apply (proj2 (dataset_getitem_bounds wrapper (-1)) eq_refl).
    vm_compute. split; [discriminate|reflexivity].
Defined.

(** C3, as stated, fails: with one spectra path and one interval against
    two label paths, construction succeeds, on the first source alone. *)
Lemma unequal_lists_accepted :
  length (spectral_dirs cfg_unequal) ≠ length (label_dirs cfg_unequal)
  ∧ ∃ o g', init_with files_unequal cfg_unequal = Ok (o, g')
      ∧ train_set o = {| data := [2; 3]; labels := [0; 0] |}
      ∧ val_set o = {| data := []; labels := [] |}
      ∧ test_set o = {| data := [0; 1]; labels := [0; 0] |}.
Proof.
  split; [vm_compute; discriminate|].
  destruct (init_with files_unequal cfg_unequal) as [[o g']|e] eqn:E;
    vm_compute in E; [|discriminate].
  injection E as <- <-. eexists _, _. split; [reflexivity|].
  split_and!; reflexivity.
Qed.

(** The second spectra path of [cfg_unequal_spectra] is cut, its label
    path is not: the construction has the outcome of the construction from
    the cut lists. *)
Lemma unequal_lists_are_truncated_witness :
  @outcome Z reversing_random (init_with files_two_labels cfg_unequal_spectra)
  = @outcome Z reversing_random
      (init_with files_two_labels (truncate_aligned cfg_unequal_spectra)).
Proof.
  pose proof (unequal_lists_are_truncated (H := reversing_random)
                (H0 := quarter_splitter) 0 files_two_labels cfg_unequal_spectra)
    as (_ & _ & Hout & Hsrc).
  apply Hout, Hsrc. reflexivity.
Defined.

(** A label file that [zip] leaves out is read all the same.  When it is
    missing the construction raises, whereas the cut lists construct; when
    it holds a smaller label, the codes of the partitions are shifted. *)
Lemma left_out_label_file_is_read :
  init_with files_two_labels cfg_absent_labels = Raise FileNotFoundError
  ∧ is_ok (init_with files_two_labels (truncate_aligned cfg_absent_labels)) = true
  ∧ (∃ o g', init_with files_low_label cfg_unequal = Ok (o, g')
       ∧ labels (train_set o) = [1; 1])
  ∧ (∃ o g', init_with files_low_label (truncate_aligned cfg_unequal) = Ok (o, g')
       ∧ labels (train_set o) = [0; 0]).
Proof.
  split; [vm_compute; reflexivity|]. split; [vm_compute; reflexivity|]. split.
  - destruct (init_with files_low_label cfg_unequal) as [[o g']|e] eqn:E;
      vm_compute in E; [|discriminate].
    injection E as <- <-. eexists _, _. by split.
  - destruct (init_with files_low_label (truncate_aligned cfg_unequal))
      as [[o g']|e] eqn:E; vm_compute in E; [|discriminate].
    injection E as <- <-. eexists _, _. by split.
Qed.

(** The counts of C1 on twenty rows named 0 to 19, all of label 5. *)
Lemma single_label_split_counts_witness :
  ∃ o g', init_with files_one_label cfg_one_label = Ok (o, g')
    ∧ length (data (train_set o)) = 14%nat
    ∧ length (data (val_set o)) = 2%nat
    ∧ length (data (test_set o)) = 4%nat.
Proof.
  destruct (single_label_split_counts (H := reversing_random) (H0 := quarter_splitter)
              0 files_one_label cfg_one_label "s.npy" "l.npy" (Np.arange 20) 5
              eq_refl eq_refl eq_refl eq_refl)
    as (_ & _ & o & g' & ptr & pva & pte & Hinit & _ & _ & _ & _ & _ & _ & _
        & H1 & _ & H2 & _ & H3 & _).
  - (vm_compute; split; [discriminate|reflexivity]).
  - (vm_compute; reflexivity).
  - (vm_compute; reflexivity).
  - (vm_compute; reflexivity).
  - (vm_compute; reflexivity).
  - exists o, g'. split_and!; assumption.
Defined.

(** The two pre-split groups: one test sample is left next to two codes. *)
Lemma pre_split_data_overwritten_witness :
  ∃ o g', init_with files_pre_split cfg_pre_split = Ok (o, g')
    ∧ data (test_set o) = [28]
    ∧ length (data (test_set o)) ≠ length (labels (test_set o)).
Proof.
  destruct (init_with files_pre_split cfg_pre_split) as [[o g']|e] eqn:E;
    [|vm_compute in E; discriminate].
  destruct (pre_split_data_overwritten (H := reversing_random) (H0 := quarter_splitter)
              0 files_pre_split cfg_pre_split o g'
              "tr1.npy" "tr2.npy" "trl1.npy" "trl2.npy"
              "te1.npy" "te2.npy" "tel1.npy" "tel2.npy" [28] [0] [1]
              eq_refl eq_refl eq_refl eq_refl eq_refl eq_refl eq_refl eq_refl E)
    as (Hd & _ & Hne).
  exists o, g'. split_and!; [done|exact Hd|apply Hne; [reflexivity|discriminate]].
Defined.

(** Two runs on the seven rows, started in the generator states 0 and 7,
    with the batch sizes 16 and 4. *)
Lemma construction_deterministic_witness :
  outcome (@__init__ Z reversing_random quarter_splitter 0 files_two_labels
             cfg_two_labels)
  = outcome (@__init__ Z reversing_random quarter_splitter 7 files_two_labels
               cfg_two_labels_other).
Proof.
  apply (proj2 (construction_deterministic (H := reversing_random)
                  (H0 := quarter_splitter) 0 7 files_two_labels cfg_two_labels
                  cfg_two_labels_other ltac:(by repeat split))).
  by vm_compute.
Defined.

(** The defect of C2 in numbers: with two pre-split groups the partitions
    hold nine of the eighteen samples given, those of the second group. *)
Lemma pre_split_samples_lost :
  ∃ o g', init_with files_pre_split cfg_pre_split = Ok (o, g')
    ∧ length (pre_split_input_samples files_pre_split cfg_pre_split) = 18%nat
    ∧ data (train_set o) ++ data (val_set o) ++ data (test_set o)
      = [20; 21; 22; 23; 24; 25; 26; 27; 28]
    ∧ ¬ (data (train_set o) ++ data (val_set o) ++ data (test_set o)
         ≡ₚ pre_split_input_samples files_pre_split cfg_pre_split).
Proof.
  destruct (init_with files_pre_split cfg_pre_split) as [[o g']|e] eqn:E;
    vm_compute in E; [|discriminate].
  injection E as <- <-. eexists _, _. split; [reflexivity|].
  split; [reflexivity|]. split; [reflexivity|].
  intros HP%Permutation_length. vm_compute in HP. discriminate.
Qed.

(** C4, as stated for every configuration, fails in generation mode, where
    nothing checks the lists, the intervals or the label arrays.  The
    sample 7 of the second source is configured, is in the remainder of no
    group, and is in no partition: when its spectra path has no label
    path to be zipped with, when its interval is [-2], and when its label
    array is empty. *)
Lemma configured_samples_left_out :
  Forall (λ cfg,
    ∃ o g', init_with files_two_sources cfg = Ok (o, g')
      ∧ 7 ∈ input_samples files_two_sources cfg
      ∧ (7 ∉ label_groups files_two_sources cfg ≫= group_remainder)
      ∧ (7 ∉ data (train_set o) ++ data (val_set o) ++ data (test_set o)))
    [cfg_left_out; cfg_mixed_intervals; cfg_unlabelled].
Proof.
  repeat constructor.
  - destruct (init_with files_two_sources cfg_left_out) as [[o g']|e] eqn:E;
      vm_compute in E; [|discriminate].
    injection E as <- <-. eexists _, _. split; [reflexivity|].
    split_and!; apply (bool_decide_unpack _); vm_compute; exact I.
  - destruct (init_with files_two_sources cfg_mixed_intervals) as [[o g']|e] eqn:E;
      vm_compute in E; [|discriminate].
    injection E as <- <-. eexists _, _. split; [reflexivity|].
    split_and!; apply (bool_decide_unpack _); vm_compute; exact I.
  - destruct (init_with files_two_sources cfg_unlabelled) as [[o g']|e] eqn:E;
      vm_compute in E; [|discriminate].
    injection E as <- <-. eexists _, _. split; [reflexivity|].
    split_and!; apply (bool_decide_unpack _); vm_compute; exact I.
Qed.

(** Decoding on the object built from the seven rows of two labels. *)
Lemma get_original_label_spec_witness :
  ∃ o g', init_with files_two_labels cfg_two_labels = Ok (o, g')
    ∧ (∀ l c, label_map o !! l = Some c → _get_original_label o c = Ok l)
    ∧ (∀ c, (∀ l, label_map o !! l ≠ Some c) → _get_original_label o c = Raise KeyError).
Proof.
  destruct (init_with files_two_labels cfg_two_labels) as [[o g']|e] eqn:E;
    [|vm_compute in E; discriminate].
  exists o, g'. split; [done|].
  exact (get_original_label_spec (H := reversing_random) (H0 := quarter_splitter)
           0 files_two_labels cfg_two_labels o g' E).
Defined.

(** The label map of the object built from the seven rows of two labels. *)
Lemma label_map_spec_witness :
  ∃ o g', init_with files_two_labels cfg_two_labels = Ok (o, g')
    ∧ (∀ l c, label_map o !! l = Some c → 0 ≤ c < Z.of_nat (size (label_map o)))
    ∧ (∀ l c, label_map o !! l = Some c → inverse_map o !! c = Some l).
Proof.
  destruct (init_with files_two_labels cfg_two_labels) as [[o g']|e] eqn:E;
    [|vm_compute in E; discriminate].
  exists o, g'. split; [done|].
  destruct (label_map_spec (H := reversing_random) (H0 := quarter_splitter)
              0 files_two_labels cfg_two_labels o g' E) as (_ & Hr & _ & _ & Hi).
  by split.
Defined.

(** Data and labels of the three partitions of the seven rows. *)
Lemma generation_partitions_aligned_witness :
  ∃ o g', init_with files_two_labels cfg_two_labels = Ok (o, g')
    ∧ length (data (train_set o)) = length (labels (train_set o))
    ∧ length (data (val_set o)) = length (labels (val_set o))
    ∧ length (data (test_set o)) = length (labels (test_set o)).
Proof.
  destruct (init_with files_two_labels cfg_two_labels) as [[o g']|e] eqn:E;
    [|vm_compute in E; discriminate].
  exists o, g'. split; [done|].
  pose proof (generation_partitions_aligned (H := reversing_random)
                (H0 := quarter_splitter) 0 files_two_labels cfg_two_labels o g'
                eq_refl E) as Hall.
  apply Forall_cons in Hall as [(_ & Htr & _) Hall].
  apply Forall_cons in Hall as [(_ & Hva & _) Hall].
  apply Forall_cons in Hall as [(_ & Hte & _) _].
  by split_and!.
Defined.

(** The three patient blocks of the seven rows, shared out, and the seven
    rows recovered with the remainder of label 0; the nine rows of the
    first pre-split group, shared out. *)
Lemma partitions_disjoint_and_cover_witness :
  (∃ o g', init_with files_two_labels cfg_two_labels = Ok (o, g')
     ∧ (∃ btr bva bte : list (list Z),
          data (train_set o) = mjoin btr ∧ data (val_set o) = mjoin bva
          ∧ data (test_set o) = mjoin bte
          ∧ btr ++ bva ++ bte ≡ₚ [[3; 4]; [0; 1]; [2; 5]])
     ∧ [0; 1; 2; 3; 4; 5; 6]
       ≡ₚ (data (train_set o) ++ data (val_set o) ++ data (test_set o)) ++ [6])
  ∧ (∃ o g', init_with files_pre_split cfg_pre_split_one = Ok (o, g')
       ∧ data (train_set o) ++ data (val_set o) ++ data (test_set o)
         ≡ₚ [10; 11; 12; 13; 14; 15; 16; 17; 18]).
Proof.
  split.
  - destruct (init_with files_two_labels cfg_two_labels) as [[o g']|e] eqn:E;
      [|vm_compute in E; discriminate].
    exists o, g'. split; [reflexivity|].
    destruct (proj1 (partitions_disjoint_and_cover (H := reversing_random)
                (H0 := quarter_splitter) 0 files_two_labels cfg_two_labels o g' E)
                eq_refl) as (btr & bva & bte & Htr & Hva & Hte & HP & _ & Hcover).
    split.
    + exists btr, bva, bte. split_and!; [exact Htr|exact Hva|exact Hte|].
      vm_compute in HP. exact HP.
    + apply Hcover.
      * split; reflexivity.
      * repeat constructor.
      * repeat constructor.
  - destruct (init_with files_pre_split cfg_pre_split_one) as [[o g']|e] eqn:E;
      [|vm_compute in E; discriminate].
    exists o, g'. split; [reflexivity|].
    destruct (proj2 (partitions_disjoint_and_cover (H := reversing_random)
                (H0 := quarter_splitter) 0 files_pre_split cfg_pre_split_one o g' E)
                eq_refl "tr1.npy" "trl1.npy" "te1.npy" "tel1.npy"
                eq_refl eq_refl eq_refl eq_refl)
      as (X & y & d & Xt & Xv & yt & yv & HX & Hy & _ & Hsplit & _ & _ & _ & Hcover).
    vm_compute in HX, Hy. injection HX as <-. injection Hy as <-.
    vm_compute in Hsplit. injection Hsplit as <- <- _ _.
    apply Hcover. reflexivity.
Defined.

(** Row 6, the third row of label 0, is the remainder of its group. *)
Lemma remainder_dropped_witness :
  ∃ o g', init_with files_two_labels cfg_two_labels = Ok (o, g')
    ∧ (6 ∉ data (train_set o)) ∧ (6 ∉ data (val_set o)) ∧ (6 ∉ data (test_set o)).
Proof.
  destruct (init_with files_two_labels cfg_two_labels) as [[o g']|e] eqn:E;
    [|vm_compute in E; discriminate].
  exists o, g'. split; [reflexivity|].
  destruct (remainder_dropped (H := reversing_random) (H0 := quarter_splitter)
              0 files_two_labels cfg_two_labels o g' eq_refl) as (_ & _ & Hdrop);
    [repeat constructor; lia|exact E|].
  apply (Hdrop ltac:(vm_compute; apply (bool_decide_unpack _); vm_compute; exact I)
           {| grp_interval := 2; grp_label := 0; grp_spectra := [3; 4; 6] |} 6).
  - vm_compute. left.
  - vm_compute. left.
Defined.

End OnExamples.

(** * Further properties *)

(** ** Rounded products are finite or infinite, and carry their sign *)

Section FiniteResults.

(** Shifting a non-negative mantissa leaves it non-negative. *)
Lemma shr_fexp_m_nonneg m e l : 0 ≤ m → 0 ≤ shr_m (shr_fexp 53 1024 m e l).1.
Proof.
  intros Hm. unfold shr_fexp, shr.
  assert (H0 : 0 ≤ shr_m (shr_record_of_loc m l)) by (by destruct l as [|[]]).
  destruct (fexp 53 1024 (Zdigits2 m + e) - e) as [|k|k]; cbn [fst]; try done.
  rewrite iter_pos_shr_m by done. apply Z.div_pos; [done|].
  apply Z.pow_pos_nonneg; lia.
Qed.

(** Rounding a non-negative mantissa gives a zero, a finite double or an
    infinity. *)
Lemma binary_round_aux_not_nan sx m e :
  0 ≤ m → binary_round_aux 53 1024 sx m e loc_Exact ≠ S754_nan.
Proof.
  intros Hm. unfold binary_round_aux.
  pose proof (shr_fexp_m_nonneg m e loc_Exact Hm) as H1.
  destruct (shr_fexp 53 1024 m e loc_Exact) as [mrs1 e1]. cbn [fst] in H1.
  pose proof (round_nearest_even_bounds (shr_m mrs1) (loc_of_shr_record mrs1)) as Hr.
  pose proof (shr_fexp_m_nonneg (round_nearest_even (shr_m mrs1) (loc_of_shr_record mrs1))
                e1 loc_Exact ltac:(lia)) as H2.
  destruct (shr_fexp 53 1024 _ e1 loc_Exact) as [mrs2 e2]. cbn [fst] in H2.
  destruct (shr_m mrs2); [done| |lia]. by destruct (_ <=? _).
Qed.

(** A converted [int] is a zero or a finite double. *)
Lemma float_of_int_not_nan n y : Py.float_of_int n = Ok y →
  (∃ s, y = S754_zero s) ∨ ∃ s m e, y = S754_finite s m e.
Proof.
  unfold Py.float_of_int.
  destruct (Py.double_of_Z n) as [s| s | |s m e] eqn:E; try done.
  - intros [= <-]. left. by eexists.
  - exfalso. unfold Py.double_of_Z, binary_normalize, binary_round in E.
    destruct n as [|p|p]; [done|..];
      destruct (shl_align _ _ _) as [mz ez];
      by apply binary_round_aux_not_nan in E.
  - intros [= <-]. right. by eexists _, _, _.
Qed.

(** [int(c * n)], for a finite double [c], raises nothing but
    [OverflowError]. *)
Lemma int_mul_raises sc mc ec n e :
  (x ← Py.float_mul_int (S754_finite sc mc ec) n; Py.int_of_float x) = Raise e →
  e = OverflowError.
Proof.
  unfold Py.float_mul_int.
  destruct (Py.float_of_int n) as [y|e'] eqn:Hy; cbn [mbind result_bind].
  - apply float_of_int_not_nan in Hy as [[s ->]|(s & m & e0 & ->)].
    + done.
    + unfold Py.float_mul, SFmul.
      destruct (binary_round_aux _ _ _ _ _ _) eqn:E; try done.
      * by intros [= <-].
      * by apply binary_round_aux_not_nan in E.
  - unfold Py.float_of_int in Hy. destruct (Py.double_of_Z n); try done.
    by injection Hy as <-; intros [= <-].
Qed.

End FiniteResults.

Section Signs.

(** The sign is carried through rounding, conversion, product and
    truncation. *)
Lemma binary_round_aux_negb s m e l :
  binary_round_aux 53 1024 (negb s) m e l = SFopp (binary_round_aux 53 1024 s m e l).
Proof.
  unfold binary_round_aux.
  destruct (shr_fexp 53 1024 m e l) as [mrs1 e1].
  destruct (shr_fexp 53 1024 _ e1 loc_Exact) as [mrs2 e2].
  destruct (shr_m mrs2); [done| |done]. by destruct (_ <=? _).
Qed.

Lemma double_of_Z_opp n : Py.double_of_Z (- n) = SFopp (Py.double_of_Z n) ∨ n = 0.
Proof.
  destruct n as [|p|p]; [by right|left..].
  - change (- Z.pos p) with (Z.neg p).
    unfold Py.double_of_Z, binary_normalize, binary_round, Py.prec, Py.emax.
    destruct (shl_align _ _ _) as [mz ez]. apply (binary_round_aux_negb false).
  - change (- Z.neg p) with (Z.pos p).
    unfold Py.double_of_Z, binary_normalize, binary_round, Py.prec, Py.emax.
    destruct (shl_align _ _ _) as [mz ez].
    pose proof (binary_round_aux_negb false (Zpos mz) ez loc_Exact) as Hn.
    cbn [negb] in Hn. rewrite Hn.
    clear Hn. generalize (binary_round_aux 53 1024 false (Z.pos mz) ez loc_Exact).
    by intros [[]|[]| |[] ??].
Qed.

Lemma int_of_float_opp f :
  Py.int_of_float (SFopp f) = (a ← Py.int_of_float f; Ok (- a)).
Proof.
  destruct f as [s|s| |s m e]; cbn [SFopp Py.int_of_float mbind result_bind]; try done.
  f_equal. destruct s; cbn [negb]; lia.
Qed.

Lemma float_mul_opp mc ec y :
  y ≠ S754_nan →
  Py.float_mul (S754_finite false mc ec) (SFopp y)
  = SFopp (Py.float_mul (S754_finite false mc ec) y).
Proof.
  intros Hy. destruct y as [s|s| |s m e]; cbn [SFopp Py.float_mul SFmul xorb]; try done.
  apply binary_round_aux_negb.
Qed.

Lemma double_of_Z_not_nan n : Py.double_of_Z n ≠ S754_nan.
Proof.
  unfold Py.double_of_Z, binary_normalize, binary_round.
  destruct n as [|p|p]; [done|..]; destruct (shl_align _ _ _) as [mz ez];
    by apply binary_round_aux_not_nan.
Qed.

Lemma float_of_int_opp n :
  n ≠ 0 → Py.float_of_int (- n) = (y ← Py.float_of_int n; Ok (SFopp y)).
Proof.
  intros Hn. destruct (double_of_Z_opp n) as [Hopp| ->]; [|done].
  unfold Py.float_of_int. rewrite Hopp.
  pose proof (double_of_Z_not_nan n) as Hnan.
  by destruct (Py.double_of_Z n) as [s|s| |s m e].
Qed.

(** [int(c * -n) = -int(c * n)] for a positive double [c]. *)
Lemma int_mul_opp mc ec n :
  (x ← Py.float_mul_int (S754_finite false mc ec) (- n); Py.int_of_float x)
  = (a ← (x ← Py.float_mul_int (S754_finite false mc ec) n; Py.int_of_float x); Ok (- a)).
Proof.
  destruct (decide (n = 0)) as [->|Hn]; [done|].
  unfold Py.float_mul_int. rewrite float_of_int_opp by done.
  destruct (Py.float_of_int n) as [y|e] eqn:Hy; cbn [mbind result_bind]; [|done].
  rewrite float_mul_opp; [apply int_of_float_opp|].
  intros ->. by apply float_of_int_not_nan in Hy as [[s ?]|(s & m & e & ?)].
Qed.

(** Both boundaries are defined whenever the number of patients is below
    [2^1000] in absolute value. *)
Lemma split_ends_defined_abs (n : Z) :
  - 2 ^ 1000 < n < 2 ^ 1000 →
  ∃ a b, SAMRaman.train_split_end_of n = Ok a
         ∧ SAMRaman.validation_split_end_of n = Ok b.
Proof.
  intros Hn. destruct (decide (0 ≤ n)) as [Hpos|Hneg].
  { apply split_ends_defined. lia. }
  destruct (split_ends_defined (- n)) as (a & b & Ha & Hb); [lia|].
  exists (- a), (- b).
  unfold SAMRaman.train_split_end_of, SAMRaman.validation_split_end_of in *.
  rewrite validation_boundary_value in *. rewrite train_split_value in *.
  pose proof (int_mul_opp 6305039478318694 (-53) (- n)) as Ha'.
  pose proof (int_mul_opp 7656119366529843 (-53) (- n)) as Hb'.
  rewrite Z.opp_involutive in Ha', Hb'. rewrite Ha in Ha'. rewrite Hb in Hb'.
  done.
Qed.

End Signs.

(** ** The values of the split boundaries *)

Section BoundaryBounds.

(** A positive [int] converts to a double [my * 2^ey] within a factor
    [1 ± 2^-52] of it, or overflows. *)
Lemma float_of_int_value (n : Z) (y : spec_float) :
  0 < n → Py.float_of_int n = Ok y →
  ∃ my ey, y = S754_finite false my ey ∧ -52 ≤ ey ∧
    n * (2 ^ 52 - 1) ≤ Zpos my * 2 ^ (ey + 52) ≤ n * (2 ^ 52 + 1).
Proof.
  intros Hn. unfold Py.float_of_int, Py.double_of_Z, binary_normalize.
  destruct n as [|p|p]; [lia| |lia].
  unfold binary_round, shl_align, fexp, SpecFloat.emin, Py.prec, Py.emax.
  pose proof (Zdigits2_bounds p) as Hp.
  assert (Hd : 1 ≤ Zdigits2 (Zpos p)) by (simpl; lia).
  change (Zpos (digits2_pos p)) with (Zdigits2 (Zpos p)).
  set (d := Zdigits2 (Zpos p)) in *.
  replace (Z.max (d + 0 - 53) (3 - 1024 - 53) - 0) with (d - 53) by lia.
  replace (Z.max (d + 0 - 53) (3 - 1024 - 53)) with (d - 53) by lia.
  assert (Hexact : ∀ m' k, 0 ≤ k →
    Zpos p * (2 ^ 52 - 1) ≤ Zpos m' * 2 ^ k * 2 ^ 52 ≤ Zpos p * (2 ^ 52 + 1) →
    Zpos p * (2 ^ 52 - 1) ≤ Zpos m' * 2 ^ (0 + k + 52) ≤ Zpos p * (2 ^ 52 + 1)).
  { intros m' k Hk Hb. rewrite Z.add_0_l, Z.pow_add_r by lia. lia. }
  destruct (d - 53) as [|j|j] eqn:Hj.
  - destruct (binary_round_aux_spec p 0) as [Hinf|(m' & k & Hk & Hfin & Hb)];
      [fold d; lia | rewrite Hinf; done | rewrite Hfin].
    intros [= <-]. exists m', (0 + k). split_and!; [done|lia|by apply Hexact..].
  - destruct (binary_round_aux_spec p 0) as [Hinf|(m' & k & Hk & Hfin & Hb)];
      [fold d; lia | rewrite Hinf; done | rewrite Hfin].
    intros [= <-]. exists m', (0 + k). split_and!; [done|lia|by apply Hexact..].
  - set (mz := Pos.iter xO p j).
    assert (Hz : 1 ≤ Zdigits2 (Zpos mz)) by (simpl; lia).
    destruct (binary_round_aux_spec mz (Zneg j)) as [Hinf|(m' & k & Hk & Hfin & Hb)];
      [lia | rewrite Hinf; done | rewrite Hfin].
    intros [= <-]. exists m', (Zneg j + k).
    subst mz. rewrite iter_xO_pow2 in Hb.
    assert (HJ : 0 < 2 ^ Zpos j) by (apply Z.pow_pos_nonneg; lia).
    assert (Hpow : 2 ^ k * 2 ^ 52 = 2 ^ (Zneg j + k + 52) * 2 ^ Zpos j).
    { rewrite <- !Z.pow_add_r by lia. f_equal. lia. }
    rewrite <- !Z.mul_assoc, Hpow in Hb.
    split_and!; [done|lia|nia|nia].
Qed.

(** [int(c * n)] for a double [c = mc * 2^-53] and a positive int [n]: the
    result [a] satisfies [a ≤ c n (1 + 2^-52)^2] and
    [c n (1 - 2^-52)^2 < a + 1]. *)
Lemma int_mul_bounds (mc : positive) (n a : Z) :
  0 < n →
  (x ← Py.float_mul_int (S754_finite false mc (-53)) n; Py.int_of_float x) = Ok a →
  a * 2 ^ 157 ≤ Zpos mc * (2 ^ 52 + 1) * (2 ^ 52 + 1) * n
  ∧ Zpos mc * (2 ^ 52 - 1) * (2 ^ 52 - 1) * n < (a + 1) * 2 ^ 157.
Proof.
  intros Hn Ha.
  destruct (Py.float_of_int n) as [y|ex] eqn:Hy; last first.
  { unfold Py.float_mul_int in Ha. by rewrite Hy in Ha. }
  destruct (float_of_int_value n y Hn Hy) as (my & ey & -> & Hey & Hval).
  destruct (int_mul_spec mc n a _ Hn Hy Ha) as (my' & ey' & w & [= <- <-] & Hw & -> & Hb).
  set (C := 2 ^ 52) in *. assert (HC : 0 < C) by (subst C; lia).
  set (Y := Zpos my * 2 ^ (ey + 52)) in *.
  assert (HY : 0 < Y).
  { subst Y. assert (0 < 2 ^ (ey + 52)) by (apply Z.pow_pos_nonneg; lia). lia. }
  assert (Hmc : 0 < Zpos mc) by lia. set (M := Zpos mc) in *. clearbody M.
  assert (Hup : M * (C + 1) * Y ≤ M * (C + 1) * (C + 1) * n).
  { rewrite <- (Z.mul_assoc (M * (C + 1)) (C + 1) n).
    apply Z.mul_le_mono_nonneg_l; lia. }
  assert (Hlo : M * (C - 1) * (C - 1) * n ≤ M * (C - 1) * Y).
  { rewrite <- (Z.mul_assoc (M * (C - 1)) (C - 1) n).
    apply Z.mul_le_mono_nonneg_l; [nia|lia]. }
  unfold Blocks.scale. case_decide as He.
  - set (T := 2 ^ (- (-53 + ey))).
    set (U := 2 ^ (ey + 52)) in *.
    assert (HT : 0 < T) by (apply Z.pow_pos_nonneg; lia).
    assert (HU : 0 < U) by (apply Z.pow_pos_nonneg; lia).
    assert (HTU : T * U * C = 2 ^ 157).
    { subst T U C. rewrite <- !Z.pow_add_r by lia. f_equal. lia. }
    rewrite <- HTU.
    pose proof (Z.mul_div_le w T HT) as Hd1.
    pose proof (Z.mul_succ_div_gt w T HT) as Hd2.
    set (a := w `div` T) in *. clearbody a.
    assert (H1 : w * C * U ≤ M * Zpos my * (C + 1) * U)
      by (apply Z.mul_le_mono_nonneg_r; lia).
    assert (H2 : M * Zpos my * (C - 1) * U ≤ w * C * U)
      by (apply Z.mul_le_mono_nonneg_r; lia).
    assert (H3 : a * T * (U * C) ≤ w * (U * C))
      by (apply Z.mul_le_mono_nonneg_r; [nia|lia]).
    assert (H4 : w * (U * C) < (a + 1) * T * (U * C))
      by (apply Z.mul_lt_mono_pos_r; [nia|lia]).
    subst Y. split; nia.
  - set (V := 2 ^ (-53 + ey)).
    assert (HV : 0 < V) by (apply Z.pow_pos_nonneg; lia).
    assert (HYV : Y = Zpos my * V * 2 ^ 105).
    { subst Y V. rewrite <- Z.mul_assoc, <- Z.pow_add_r by lia. do 2 f_equal. lia. }
    assert (H157 : 2 ^ 157 = 2 ^ 105 * C).
    { subst C. by rewrite <- Z.pow_add_r by lia. }
    rewrite H157. set (D := 2 ^ 105) in *. assert (HD : 0 < D) by (subst D; lia).
    clearbody D.
    assert (H1 : w * C * (V * D) ≤ M * Zpos my * (C + 1) * (V * D))
      by (apply Z.mul_le_mono_nonneg_r; [nia|lia]).
    assert (H2 : M * Zpos my * (C - 1) * (V * D) ≤ w * C * (V * D))
      by (apply Z.mul_le_mono_nonneg_r; [nia|lia]).
    rewrite HYV in Hup, Hlo. split; nia.
Qed.

(** Without patients both boundaries are zero. *)
Lemma split_ends_zero : SAMRaman.train_split_end_of 0 = Ok 0
  ∧ SAMRaman.validation_split_end_of 0 = Ok 0.
Proof. split; vm_compute; reflexivity. Qed.

(** The bounds of [int_mul_bounds] for the two fractions, in numbers: the
    boundaries [a] and [b] lie within a factor [(1 ± 2^-52)^2] of the
    doubles [0.7] and [0.7 + 0.15] times [n], all scaled by [2^157]. *)
Lemma split_ends_numeric (n a b : Z) :
  0 < n →
  SAMRaman.train_split_end_of n = Ok a →
  SAMRaman.validation_split_end_of n = Ok b →
  a * 182687704666362864775460604089535377456991567872
  ≤ 127881393266454054020605471626686483853073606246 * n
  ∧ 127881393266453940439111691177339315507870197350 * n
    < (a + 1) * 182687704666362864775460604089535377456991567872
  ∧ b * 182687704666362864775460604089535377456991567872
    ≤ 155284548966408499962852245161456282149162529587 * n
  ∧ 155284548966408362042466940330101002187555681075 * n
    < (b + 1) * 182687704666362864775460604089535377456991567872.
Proof.
  intros Hn Ha Hb.
  unfold SAMRaman.train_split_end_of, SAMRaman.validation_split_end_of in Ha, Hb.
  rewrite validation_boundary_value in Hb. rewrite train_split_value in Ha.
  apply int_mul_bounds in Ha as [Ha1 Ha2]; [|done].
  apply int_mul_bounds in Hb as [Hb1 Hb2]; [|done].
  assert (H157 : 2 ^ 157 = 182687704666362864775460604089535377456991567872)
    by reflexivity.
  assert (U1 : Zpos 6305039478318694 * (2 ^ 52 + 1) * (2 ^ 52 + 1)
               = 127881393266454054020605471626686483853073606246) by reflexivity.
  assert (L1 : Zpos 6305039478318694 * (2 ^ 52 - 1) * (2 ^ 52 - 1)
               = 127881393266453940439111691177339315507870197350) by reflexivity.
  assert (U2 : Zpos 7656119366529843 * (2 ^ 52 + 1) * (2 ^ 52 + 1)
               = 155284548966408499962852245161456282149162529587) by reflexivity.
  assert (L2 : Zpos 7656119366529843 * (2 ^ 52 - 1) * (2 ^ 52 - 1)
               = 155284548966408362042466940330101002187555681075) by reflexivity.
  rewrite H157, U1 in Ha1. rewrite H157, L1 in Ha2.
  rewrite H157, U2 in Hb1. rewrite H157, L2 in Hb2. done.
Qed.

(** The validation boundary does not exceed the number of patients, and is
    below it when there is a patient. *)
Lemma validation_end_below (n b : Z) :
  0 ≤ n → SAMRaman.validation_split_end_of n = Ok b → b ≤ n ∧ (0 < n → b < n).
Proof.
  intros Hn Hb. destruct (decide (n = 0)) as [->|Hn0].
  { destruct split_ends_zero as [_ Hb0]. rewrite Hb0 in Hb. injection Hb as <-. lia. }
  unfold SAMRaman.validation_split_end_of in Hb.
  rewrite validation_boundary_value in Hb.
  apply int_mul_bounds in Hb as [Hb _]; [|lia].
  assert (H157 : 2 ^ 157 = 182687704666362864775460604089535377456991567872)
    by reflexivity.
  assert (U2 : Zpos 7656119366529843 * (2 ^ 52 + 1) * (2 ^ 52 + 1)
               = 155284548966408499962852245161456282149162529587) by reflexivity.
  rewrite H157, U2 in Hb. lia.
Qed.

(** With two patients or more the training boundary is positive. *)
Lemma train_end_positive (n a : Z) :
  2 ≤ n → SAMRaman.train_split_end_of n = Ok a → 0 < a.
Proof.
  intros Hn Ha. unfold SAMRaman.train_split_end_of in Ha.
  rewrite train_split_value in Ha.
  apply int_mul_bounds in Ha as [_ Ha]; [|lia].
  assert (H157 : 2 ^ 157 = 182687704666362864775460604089535377456991567872)
    by reflexivity.
  assert (L1 : Zpos 6305039478318694 * (2 ^ 52 - 1) * (2 ^ 52 - 1)
               = 127881393266453940439111691177339315507870197350) by reflexivity.
  rewrite H157, L1 in Ha. lia.
Qed.

(** X1.  For a non-negative number of patients the two boundaries, when
    they are computed, satisfy
    [0 ≤ train_split_end ≤ validation_split_end ≤ num_patients].  The
    validation boundary is below [num_patients] as soon as there is a
    patient, so that the slice left to the test partition is not empty;
    the training boundary is positive as soon as there are two patients. *)
Theorem split_ends_within (n a b : Z) :
  0 ≤ n →
  SAMRaman.train_split_end_of n = Ok a →
  SAMRaman.validation_split_end_of n = Ok b →
  0 ≤ a ≤ b ∧ b ≤ n ∧ (0 < n → b < n) ∧ (2 ≤ n → 0 < a).
Proof.
  intros Hn Ha Hb.
  split; [exact (split_ends_ordered n a b Hn Ha Hb)|].
  destruct (validation_end_below n b Hn Hb) as [Hle Hlt].
  split; [exact Hle|]. split; [exact Hlt|].
  intros Hn2. exact (train_end_positive n a Hn2 Ha).
Qed.

(** X2.  For up to [2^40] patients both boundaries are computed, and
    [a ≤ 7 n / 10 ≤ a + 1] and [b ≤ 17 n / 20 ≤ b + 1] hold for
    [a = int(0.7 * n)] and [b = int((0.7 + 0.15) * n)]: each boundary is the
    exact fraction rounded down, or one less than the exact fraction when
    that is an integer.  The binary64 product may indeed fall short of an
    integer fraction: [int(0.7 * 90)] is 62, not 63. *)
Theorem split_ends_near_floor (n : Z) :
  0 ≤ n ≤ 2 ^ 40 →
  ∃ a b,
    SAMRaman.train_split_end_of n = Ok a
    ∧ SAMRaman.validation_split_end_of n = Ok b
    ∧ 10 * a ≤ 7 * n ≤ 10 * (a + 1)
    ∧ 20 * b ≤ 17 * n ≤ 20 * (b + 1).
Proof.
  intros Hn.
  destruct (split_ends_defined n) as (a & b & Ha & Hb); [lia|].
  exists a, b. split; [done|]. split; [done|].
  destruct (decide (n = 0)) as [->|Hn0].
  { destruct split_ends_zero as [Ha0 Hb0]. rewrite Ha0 in Ha. rewrite Hb0 in Hb.
    injection Ha as <-. injection Hb as <-. lia. }
  destruct (split_ends_numeric n a b ltac:(lia) Ha Hb) as (Ha1 & Ha2 & Hb1 & Hb2).
  assert (H40 : 2 ^ 40 = 1099511627776) by reflexivity. rewrite H40 in Hn.
  split_and!; lia.
Qed.

End BoundaryBounds.

(** ** The validation boundary, exactly *)

Section ExactValidationEnd.

(** Nothing is shifted out at the start. *)
Lemma shifted_0 (x : Z) : shifted x 0 (Build_shr_record x false false).
Proof.
  unfold shifted. cbn [shr_m loc_of_shr_record]. change (2 ^ 0) with 1.
  rewrite Z.div_1_r, Z.mod_1_r. by rewrite decide_True.
Qed.

(** One step of [shr_1] shifts one bit more. *)
Lemma shifted_1 (x j : Z) mrs :
  0 ≤ x → 0 ≤ j → shifted x j mrs → shifted x (j + 1) (shr_1 mrs).
Proof.
  intros Hx Hj [Hm Hloc].
  assert (HP : 0 < 2 ^ j) by (apply Z.pow_pos_nonneg; lia).
  unfold shifted. rewrite Z.pow_add_r by lia. change (2 ^ 1) with 2.
  pose proof (Z.div_mod x (2 ^ j) ltac:(lia)) as Hdm.
  pose proof (Z.mod_pos_bound x (2 ^ j) HP) as Hr.
  set (q := x `div` 2 ^ j) in *. set (ρ := x `mod` 2 ^ j) in *.
  assert (Hq : 0 ≤ q) by (subst q; apply Z.div_pos; lia).
  pose proof (Z.div_mod q 2 ltac:(lia)) as Hq2.
  pose proof (Z.mod_pos_bound q 2 ltac:(lia)) as Hbit.
  set (q' := q `div` 2) in *. set (bit := q `mod` 2) in *.
  assert (Hdiv : x `div` (2 ^ j * 2) = q').
  { symmetry. apply (Z.div_unique _ _ _ (bit * 2 ^ j + ρ)); [nia|nia]. }
  assert (Hmod : x `mod` (2 ^ j * 2) = bit * 2 ^ j + ρ).
  { symmetry. apply (Z.mod_unique _ _ q'); [nia|nia]. }
  rewrite Hdiv, Hmod.
  destruct mrs as [m r s]. cbn [shr_m] in Hm. subst m.
  assert (Hs : orb r s = bool_decide (ρ ≠ 0)).
  { cbn [loc_of_shr_record] in Hloc. destruct (decide (ρ = 0)) as [Hρ|Hρ].
    - rewrite bool_decide_eq_false_2 by tauto. by destruct r, s.
    - rewrite bool_decide_eq_true_2 by done. by destruct r, s. }
  clearbody q' bit ρ. unfold shr_1. rewrite Hs.
  assert (Hloc' : ∀ b : bool, bit = (if b then 1 else 0) →
    loc_of_shr_record (Build_shr_record q' b (bool_decide (ρ ≠ 0)))
    = if decide (bit * 2 ^ j + ρ = 0) then loc_Exact
      else loc_Inexact (2 * (bit * 2 ^ j + ρ) ?= 2 ^ j * 2)).
  { intros b ->. cbn [loc_of_shr_record].
    destruct b, (decide (ρ = 0)) as [Hρ|Hρ].
    - rewrite bool_decide_eq_false_2 by tauto. rewrite decide_False by lia.
      f_equal. symmetry. apply Z.compare_eq_iff. lia.
    - rewrite bool_decide_eq_true_2 by done. rewrite decide_False by lia.
      f_equal. symmetry. apply Z.compare_gt_iff. lia.
    - rewrite bool_decide_eq_false_2 by tauto. by rewrite decide_True by lia.
    - rewrite bool_decide_eq_true_2 by done. rewrite decide_False by lia.
      f_equal. symmetry. apply Z.compare_lt_iff. lia. }
  destruct q as [|[p|p|]|p]; try lia; cbn [shr_m].
  - split; [lia|]. apply (Hloc' false). lia.
  - split; [lia|]. apply (Hloc' true). lia.
  - split; [lia|]. apply (Hloc' false). lia.
  - split; [lia|]. apply (Hloc' true). lia.
Qed.

(** So [k] steps shift [k] bits. *)
Lemma shifted_iter (x j : Z) (k : positive) mrs :
  0 ≤ x → 0 ≤ j → shifted x j mrs →
  shifted x (j + Zpos k) (SpecFloat.iter_pos shr_1 k mrs).
Proof.
  intros Hx. revert j mrs.
  induction k as [k IH|k IH|]; intros j mrs Hj Hs; cbn [SpecFloat.iter_pos].
  - replace (j + Zpos k~1) with (j + 1 + Zpos k + Zpos k) by lia.
    apply IH; [lia|]. apply IH; [lia|]. by apply shifted_1.
  - replace (j + Zpos k~0) with (j + Zpos k + Zpos k) by lia.
    apply IH; [lia|]. by apply IH.
  - by apply shifted_1.
Qed.

(** Just below a multiple [T * 2^k], by less than half of [2^k], rounding
    to nearest gives [T]. *)
Lemma round_up_to (x T Δ : Z) (k : positive) mrs :
  shifted x (Zpos k) mrs → x = T * 2 ^ Zpos k - Δ → 0 < 2 * Δ < 2 ^ Zpos k →
  round_nearest_even (shr_m mrs) (loc_of_shr_record mrs) = T.
Proof.
  intros [Hm Hloc] Hx HΔ.
  assert (HP : 0 < 2 ^ Zpos k) by (apply Z.pow_pos_nonneg; lia).
  assert (Hdiv : x `div` 2 ^ Zpos k = T - 1).
  { symmetry. apply (Z.div_unique _ _ _ (2 ^ Zpos k - Δ)); lia. }
  assert (Hmod : x `mod` 2 ^ Zpos k = 2 ^ Zpos k - Δ).
  { symmetry. apply (Z.mod_unique _ _ (T - 1)); lia. }
  rewrite Hloc, Hm, Hdiv, Hmod. rewrite decide_False by lia.
  assert (Hgt : (2 * (2 ^ Zpos k - Δ) ?= 2 ^ Zpos k) = Gt)
    by (apply Z.compare_gt_iff; lia).
  rewrite Hgt. cbn [round_nearest_even]. lia.
Qed.

(** A mantissa of 53 digits is its own rounding. *)
Lemma binary_round_aux_exact (m : positive) (e : Z) :
  Zdigits2 (Zpos m) = 53 → -1074 ≤ e ≤ 971 →
  binary_round_aux 53 1024 false (Zpos m) e loc_Exact = S754_finite false m e.
Proof.
  intros Hd He. unfold binary_round_aux.
  rewrite shr_fexp_exact_spec by lia. rewrite Hd. change (53 - 53) with 0.
  cbn [shr_m loc_of_shr_record round_nearest_even].
  rewrite shr_fexp_exact_spec by lia. rewrite Hd. change (53 - 53) with 0.
  cbn [shr_m]. destruct (Z.leb_spec e (1024 - 53)); [done|lia].
Qed.

(** A longer mantissa just below [T * 2^k] rounds to [T]. *)
Lemma binary_round_aux_up (P T : positive) (k : positive) (Δ e : Z) :
  Zdigits2 (Zpos P) = 53 + Zpos k → Zdigits2 (Zpos T) = 53 →
  Zpos P = Zpos T * 2 ^ Zpos k - Δ → 0 < 2 * Δ < 2 ^ Zpos k →
  -1074 ≤ e → e + Zpos k ≤ 971 →
  binary_round_aux 53 1024 false (Zpos P) e loc_Exact
  = S754_finite false T (e + Zpos k).
Proof.
  intros HdP HdT HP HΔ He1 He2. unfold binary_round_aux.
  rewrite shr_fexp_exact_spec by lia. rewrite HdP.
  replace (53 + Zpos k - 53) with (Zpos k) by lia.
  pose proof (shifted_iter (Zpos P) 0 k _ ltac:(lia) ltac:(lia) (shifted_0 (Zpos P)))
    as Hs.
  rewrite Z.add_0_l in Hs.
  rewrite (round_up_to (Zpos P) (Zpos T) Δ k _ Hs HP HΔ).
  rewrite shr_fexp_exact_spec by lia. rewrite HdT. change (53 - 53) with 0.
  cbn [shr_m]. destruct (Z.leb_spec (e + Zpos k) (1024 - 53)); [done|lia].
Qed.

(** An [int] below [2^53] converts exactly. *)
Lemma float_of_int_exact (n : Z) :
  0 < n < 2 ^ 53 →
  ∃ (my : positive) (s : Z), 0 ≤ s ≤ 52
    ∧ Py.float_of_int n = Ok (S754_finite false my (- s))
    ∧ Zpos my = n * 2 ^ s ∧ Zdigits2 (Zpos my) = 53.
Proof.
  intros [Hn Hhi]. unfold Py.float_of_int, Py.double_of_Z, binary_normalize.
  destruct n as [|p|p]; [lia| |lia].
  unfold binary_round, shl_align, fexp, SpecFloat.emin, Py.prec, Py.emax.
  pose proof (Zdigits2_bounds p) as Hp.
  assert (Hd : 1 ≤ Zdigits2 (Zpos p)) by (simpl; lia).
  assert (Hd' : Zdigits2 (Zpos p) ≤ 53) by (apply Zdigits2_le; lia).
  change (Zpos (digits2_pos p)) with (Zdigits2 (Zpos p)).
  set (d := Zdigits2 (Zpos p)) in *.
  replace (Z.max (d + 0 - 53) (3 - 1024 - 53) - 0) with (d - 53) by lia.
  replace (Z.max (d + 0 - 53) (3 - 1024 - 53)) with (d - 53) by lia.
  destruct (d - 53) as [|j|j] eqn:Hj; [|lia|].
  - rewrite binary_round_aux_exact by (fold d; lia).
    exists p, 0. change (- 0) with 0. split_and!; [lia|lia|done|lia|fold d; lia].
  - set (mz := Pos.iter xO p j).
    assert (Hmz : Zpos mz = Zpos p * 2 ^ Zpos j) by apply iter_xO_pow2.
    assert (Hz : Zdigits2 (Zpos mz) = 53).
    { apply Zdigits2_unique; [|lia]. rewrite Hmz.
      assert (HP : 0 < 2 ^ Zpos j) by (apply Z.pow_pos_nonneg; lia).
      replace (2 ^ (53 - 1)) with (2 ^ (d - 1) * 2 ^ Zpos j)
        by (rewrite <- Z.pow_add_r by lia; f_equal; lia).
      replace (2 ^ 53) with (2 ^ d * 2 ^ Zpos j)
        by (rewrite <- Z.pow_add_r by lia; f_equal; lia).
      split; [apply Z.mul_le_mono_nonneg_r; lia|apply Z.mul_lt_mono_pos_r; lia]. }
    rewrite binary_round_aux_exact by (done || lia).
    exists mz, (Zpos j). split_and!; [lia|lia|done|done|done].
Qed.

(** [int] of a finite double whose mantissa is [m] shifted left by the
    opposite of its exponent. *)
Lemma int_of_float_scaled (T : positive) (m t : Z) :
  0 ≤ t → Zpos T = m * 2 ^ t → Py.int_of_float (S754_finite false T (- t)) = Ok m.
Proof.
  intros Ht HT. unfold Py.int_of_float. destruct t as [|p|p]; [| |lia].
  - change (- 0) with 0. cbv iota. rewrite Z.shiftl_0_r, HT. f_equal.
    change (2 ^ 0) with 1. lia.
  - change (- Z.pos p) with (Z.neg p). cbv iota.
    rewrite Z.shiftr_div_pow2 by lia. rewrite HT.
    rewrite Z.div_mul; [done|]. apply Z.pow_nonzero; lia.
Qed.

(** The digits of a product of two 53-digit mantissas. *)
Lemma Zdigits2_product (a b : positive) :
  Zdigits2 (Zpos a) = 53 → Zdigits2 (Zpos b) = 53 →
  Zdigits2 (Zpos (a * b)) = 105 ∨ Zdigits2 (Zpos (a * b)) = 106.
Proof.
  intros Ha Hb. pose proof (Zdigits2_bounds a) as Ba. pose proof (Zdigits2_bounds b) as Bb.
  rewrite Ha in Ba. rewrite Hb in Bb.
  pose proof (Zdigits2_bounds (a * b)) as Bp.
  set (d := Zdigits2 (Zpos (a * b))) in *. rewrite Pos2Z.inj_mul in Bp.
  assert (H52 : 2 ^ (53 - 1) = 4503599627370496) by reflexivity.
  assert (H53 : 2 ^ 53 = 9007199254740992) by reflexivity.
  rewrite H52, H53 in *.
  assert (Hlo : 2 ^ 104 ≤ Zpos a * Zpos b).
  { change (2 ^ 104) with (4503599627370496 * 4503599627370496).
    apply Z.mul_le_mono_nonneg; lia. }
  assert (Hhi : Zpos a * Zpos b < 2 ^ 106).
  { change (2 ^ 106) with (9007199254740992 * 9007199254740992).
    apply Z.mul_lt_mono_nonneg; lia. }
  destruct (Z.le_gt_cases d 104) as [Hd1|Hd1].
  { pose proof (Z.pow_le_mono_r 2 d 104 ltac:(lia) Hd1). lia. }
  destruct (Z.le_gt_cases 106 (d - 1)) as [Hd2|Hd2].
  { pose proof (Z.pow_le_mono_r 2 106 (d - 1) ltac:(lia) Hd2). lia. }
  lia.
Qed.

(** On a multiple of twenty the validation boundary is seventeen
    twentieths. *)
Lemma validation_end_of_twenties (j : Z) :
  0 < j → 20 * j ≤ 2 ^ 40 → SAMRaman.validation_split_end_of (20 * j) = Ok (17 * j).
Proof.
  intros Hj Hhi. unfold SAMRaman.validation_split_end_of.
  rewrite validation_boundary_value.
  assert (H40 : 2 ^ 40 = 1099511627776) by reflexivity. rewrite H40 in Hhi.
  assert (H53 : 2 ^ 53 = 9007199254740992) by reflexivity.
  destruct (float_of_int_exact (20 * j)) as (my & s & Hs & Hy & Hmy & Hdig);
    [rewrite H53; lia|].
  unfold Py.float_mul_int. rewrite Hy. cbn [mbind result_bind].
  unfold Py.float_mul, SFmul, Py.prec, Py.emax. cbn [xorb].
  pose proof (Zdigits2_bounds my) as Bmy. rewrite Hdig in Bmy.
  assert (H52 : 2 ^ (53 - 1) = 4503599627370496) by reflexivity.
  rewrite H52, H53 in Bmy.
  pose proof (Zdigits2_bounds (7656119366529843 * my)) as BP.
  assert (HP : Zpos (7656119366529843 * my) = 153122387330596860 * (j * 2 ^ s)).
  { rewrite Pos2Z.inj_mul, Hmy. lia. }
  assert (Hu : Zpos my = 20 * (j * 2 ^ s)) by lia.
  assert (H2s : 0 < 2 ^ s) by (apply Z.pow_pos_nonneg; lia).
  set (u := j * 2 ^ s) in *.
  destruct (Zdigits2_product 7656119366529843 my eq_refl Hdig) as [Hd|Hd];
    rewrite Hd in BP.
  - (* one bit more is shifted out than the exponent gives back *)
    assert (H104 : 2 ^ (105 - 1) = 20282409603651670423947251286016) by reflexivity.
    assert (H105 : 2 ^ 105 = 40564819207303340847894502572032) by reflexivity.
    rewrite H104, H105 in BP.
    assert (HT : ∃ T : positive, Zpos T = 34 * u)
      by (destruct u as [|p|p]; [lia| |lia]; by exists (34 * p)%positive).
    destruct HT as (T & HT).
    assert (HdT : Zdigits2 (Zpos T) = 53).
    { apply Zdigits2_unique; [|lia]. rewrite H52, H53. lia. }
    rewrite (binary_round_aux_up _ T 52 (4 * u));
      [|by rewrite Hd|done| |change (2 ^ Zpos 52) with 4503599627370496; lia|lia|lia].
    2: { change (2 ^ Zpos 52) with 4503599627370496. lia. }
    replace (-53 + - s + 52) with (- (s + 1)) by lia.
    apply int_of_float_scaled; [lia|].
    rewrite HT. subst u. rewrite Z.pow_add_r by lia. change (2 ^ 1) with 2. lia.
  - assert (H105 : 2 ^ (106 - 1) = 40564819207303340847894502572032) by reflexivity.
    assert (H106 : 2 ^ 106 = 81129638414606681695789005144064) by reflexivity.
    rewrite H105, H106 in BP.
    assert (HT : ∃ T : positive, Zpos T = 17 * u)
      by (destruct u as [|p|p]; [lia| |lia]; by exists (17 * p)%positive).
    destruct HT as (T & HT).
    assert (HdT : Zdigits2 (Zpos T) = 53).
    { apply Zdigits2_unique; [|lia]. rewrite H52, H53. lia. }
    rewrite (binary_round_aux_up _ T 53 (4 * u));
      [|by rewrite Hd|done| |change (2 ^ Zpos 53) with 9007199254740992; lia|lia|lia].
    2: { change (2 ^ Zpos 53) with 9007199254740992. lia. }
    replace (-53 + - s + 53) with (- s) by lia.
    apply int_of_float_scaled; [lia|].
    rewrite HT. subst u. lia.
Qed.

(** X14.  For up to [2^40] patients the validation boundary
    [int((0.7 + 0.15) * num_patients)] is exactly [17 * num_patients // 20]:
    unlike the product with [0.7], the binary64 product with the sum
    [0.7 + 0.15] never falls short of an integer fraction. *)
Theorem validation_end_exact (n : Z) :
  0 ≤ n ≤ 2 ^ 40 → SAMRaman.validation_split_end_of n = Ok ((17 * n) `div` 20).
Proof.
  intros Hn.
  destruct (decide (n = 0)) as [->|Hn0]; [vm_compute; reflexivity|].
  destruct (decide (n `mod` 20 = 0)) as [Hm|Hm].
  - pose proof (Z.div_mod n 20 ltac:(lia)) as Hdm. rewrite Hm, Z.add_0_r in Hdm.
    rewrite Hdm at 1. rewrite validation_end_of_twenties by lia.
    f_equal. rewrite Hdm at 2.
    replace (17 * (20 * (n `div` 20))) with (17 * (n `div` 20) * 20) by lia.
    by rewrite Z.div_mul.
  - destruct (split_ends_defined n) as (a & b & Ha & Hb'); [lia|].
    destruct (split_ends_numeric n a b ltac:(lia) Ha Hb') as (_ & _ & Hb1 & Hb2).
    assert (H40 : 2 ^ 40 = 1099511627776) by reflexivity. rewrite H40 in Hn.
    assert (Hb : 20 * b ≤ 17 * n ≤ 20 * (b + 1)) by lia.
    rewrite Hb'. f_equal. pose proof (Z.div_mod n 20 ltac:(lia)) as Hdm.
    pose proof (Z.mod_pos_bound n 20 ltac:(lia)) as Hr.
    apply (Z.div_unique _ _ _ (17 * n - 20 * b)); [|lia].
    left. split; [lia|].
    assert (17 * n ≠ 20 * (b + 1)); [|lia].
    intros Heq. apply Hm. 
    assert (Hdiv : (20 | 17 * n)) by (exists (b + 1); lia).
    apply Z.mod_divide; [lia|]. apply (Z.gauss 20 17 n Hdiv). reflexivity.
Qed.

End ExactValidationEnd.

(** ** Loops that return, loops that raise *)

Section LoopInversion.
Context {S X : Type}.

(** A loop that raises does so in its body, at one of its elements. *)
Lemma for_loop_raise (body : S → X → result S) xs s e :
  for_loop body xs s = Raise e → ∃ x s1, x ∈ xs ∧ body s1 x = Raise e.
Proof.
  revert s. induction xs as [|x xs IH]; intros s; [done|]. cbn [for_loop].
  destruct (body s x) as [s1|e1] eqn:Hb; cbn [mbind result_bind].
  - intros (x' & s' & Hin & Hx)%IH. exists x', s'. split; [by right|done].
  - intros [= ->]. exists x, s. split; [left|done].
Qed.

(** A loop that returns has run its body on every element. *)
Lemma for_loop_ok (body : S → X → result S) xs s s' x :
  for_loop body xs s = Ok s' → x ∈ xs → ∃ s1 s2, body s1 x = Ok s2.
Proof.
  revert s. induction xs as [|x0 xs IH]; intros s; [by intros _ ?%elem_of_nil|].
  cbn [for_loop]. destruct (body s x0) as [s1|e1] eqn:Hb; cbn [mbind result_bind]; [|done].
  intros Hrest [->|Hin]%elem_of_cons; [by exists s, s1|by eapply IH].
Qed.

(** A measure that each round increases by an amount that depends on the
    element only. *)
Lemma for_loop_sum (μ : S → Z) (f : X → Z) (body : S → X → result S) xs s s' :
  (∀ s x s', x ∈ xs → body s x = Ok s' → μ s' = μ s + f x) →
  for_loop body xs s = Ok s' → μ s' = μ s + Shares.sum_over f xs.
Proof.
  revert s. induction xs as [|x xs IH]; intros s Hbody; cbn [for_loop].
  - intros [= <-]. simpl. lia.
  - destruct (body s x) as [s1|e1] eqn:Hb; cbn [mbind result_bind]; [|done].
    intros Hrest. rewrite (IH s1); [|by intros ??? Hin; apply Hbody; right|done].
    rewrite (Hbody s x s1); [simpl; lia|left|done].
Qed.

(** A property that the round of [x] establishes and every round keeps
    holds at the end of a loop that goes through [x]. *)
Lemma for_loop_establish (I : S → Prop) (body : S → X → result S) xs s s' x :
  x ∈ xs →
  (∀ s x' s', body s x' = Ok s' → I s → I s') →
  (∀ s s', body s x = Ok s' → I s') →
  for_loop body xs s = Ok s' → I s'.
Proof.
  intros Hin Hkeep Hest. revert s.
  induction xs as [|x0 xs IH]; intros s; [by apply elem_of_nil in Hin|].
  cbn [for_loop]. destruct (body s x0) as [s1|] eqn:Hb; cbn [mbind result_bind]; [|done].
  apply elem_of_cons in Hin as [->|Hin].
  - apply for_loop_invariant; [|by eapply Hest].
    intros ??? _ ??. by eapply Hkeep.
  - by apply IH.
Qed.

(** A component of the state that each round updates by a function of the
    element. *)
Lemma for_loop_fold {G} (ν : S → G) (step : G → X → G) (body : S → X → result S) xs s s' :
  (∀ s x s', x ∈ xs → body s x = Ok s' → ν s' = step (ν s) x) →
  for_loop body xs s = Ok s' → ν s' = foldl step (ν s) xs.
Proof.
  revert s. induction xs as [|x xs IH]; intros s Hbody; cbn [for_loop].
  - by intros [= <-].
  - destruct (body s x) as [s1|] eqn:Hb; cbn [mbind result_bind]; [|done].
    intros Hrest. rewrite (IH s1); [|by intros ??? Hin; apply Hbody; right|done].
    cbn [foldl]. rewrite (Hbody s x s1); [done|left|done].
Qed.

(** A loop whose body returns on every element returns. *)
Lemma for_loop_all_ok (body : S → X → result S) xs s :
  (∀ s x, x ∈ xs → ∃ s', body s x = Ok s') → ∃ s', for_loop body xs s = Ok s'.
Proof.
  intros Hbody. destruct (for_loop body xs s) as [s'|e] eqn:E; [by eexists|].
  apply for_loop_raise in E as (x & s1 & Hin & Hb).
  destruct (Hbody s1 x Hin) as [s' Hs']. congruence.
Qed.

End LoopInversion.

Section Sums.

Lemma sum_over_app {X} (f : X → Z) xs ys :
  Shares.sum_over f (xs ++ ys) = Shares.sum_over f xs + Shares.sum_over f ys.
Proof. induction xs as [|x xs IH]; simpl; lia. Qed.

Lemma sum_over_bind {X Y} (f : Y → Z) (h : X → list Y) xs :
  Shares.sum_over f (xs ≫= h) = Shares.sum_over (λ x, Shares.sum_over f (h x)) xs.
Proof.
  induction xs as [|x xs IH]; [done|]. rewrite bind_cons, sum_over_app, IH. done.
Qed.

Lemma sum_over_fmap {X Y} (f : Y → Z) (h : X → Y) xs :
  Shares.sum_over f (h <$> xs) = Shares.sum_over (f ∘ h) xs.
Proof.
  induction xs as [|x xs IH]; [done|].
  rewrite fmap_cons. unfold Shares.sum_over in *. cbn [foldr]. by rewrite IH.
Qed.

End Sums.

Section VocabularyErrors.
Context {A : Type}.
Import SAMRaman Blocks.

(** Loading the label files raises [FileNotFoundError] at a missing file,
    and nothing else. *)
Lemma extend_loaded_raise (fs : Np.files A) paths acc e :
  extend_loaded fs paths acc = Raise e →
  e = FileNotFoundError ∧ ∃ path, path ∈ paths ∧ Np.label_files fs !! path = None.
Proof.
  unfold extend_loaded. intros (path & labels & Hin & Hb)%for_loop_raise.
  unfold Np.load_labels in Hb.
  destruct (Np.label_files fs !! path) eqn:Hf; [done|].
  injection Hb as <-. split; [done|]. by exists path.
Qed.

Lemma extend_loaded_all (fs : Np.files A) paths acc labels :
  extend_loaded fs paths acc = Ok labels →
  Forall (λ path, is_Some (Np.label_files fs !! path)) paths.
Proof.
  unfold extend_loaded. intros Hok. apply Forall_forall. intros path Hin.
  destruct (for_loop_ok _ _ _ _ path Hok Hin) as (s1 & s2 & Hb).
  unfold Np.load_labels in Hb. by destruct (Np.label_files fs !! path).
Qed.

(** The vocabulary construction fails exactly when one of the label files
    it reads is missing, and then with [FileNotFoundError]. *)
Lemma get_label_mapping_raise (fs : Np.files A) cfg :
  (∀ e, _get_label_mapping fs cfg = Raise e → e = FileNotFoundError)
  ∧ (is_ok (_get_label_mapping fs cfg) = true
     ↔ Forall (λ path, is_Some (Np.label_files fs !! path)) (label_sources cfg)).
Proof.
  unfold _get_label_mapping, label_sources.
  destruct (use_pre_split cfg).
  - destruct (extend_loaded fs (train_labels_path cfg) []) as [l1|e1] eqn:E1;
      cbn [mbind result_bind].
    + destruct (extend_loaded fs (test_labels_path cfg) l1) as [l2|e2] eqn:E2;
        cbn [mbind result_bind].
      * split; [done|]. split; [|done]. intros _. apply Forall_app.
        split; by eapply extend_loaded_all.
      * apply extend_loaded_raise in E2 as (-> & path & Hin & Hnone).
        split; [by intros ? [= <-]|]. split; [done|].
        intros [_ Hall]%Forall_app. eapply Forall_forall in Hall; [|done].
        rewrite Hnone in Hall. by destruct Hall.
    + apply extend_loaded_raise in E1 as (-> & path & Hin & Hnone).
      split; [by intros ? [= <-]|]. split; [done|].
      intros [Hall _]%Forall_app. eapply Forall_forall in Hall; [|done].
      rewrite Hnone in Hall. by destruct Hall.
  - destruct (extend_loaded fs (label_dirs cfg) []) as [l1|e1] eqn:E1;
      cbn [mbind result_bind].
    + split; [done|]. split; [|done]. intros _. by eapply extend_loaded_all.
    + apply extend_loaded_raise in E1 as (-> & path & Hin & Hnone).
      split; [by intros ? [= <-]|]. split; [done|].
      intros Hall. eapply Forall_forall in Hall; [|done].
      rewrite Hnone in Hall. by destruct Hall.
Qed.

End VocabularyErrors.

(** ** The rounds of generation mode *)

Section GenerationSteps.
Context {A : Type} `{NumpyRandom} `{Sklearn A}.
Import SAMRaman Blocks.

Implicit Types (rows spectra : list A) (lm : gmap Z Z) (labels : list Z).

(** With a code for the label, the loop over patient indices returns, and
    what it appends is the following. *)
Lemma for_loop_extend_block_code lm l p rows code idxs (part : split_set A) :
  lm !! l = Some code →
  for_loop (extend_block lm l p rows) idxs part
  = Ok {| data := data part
                  ++ (idxs ≫= λ i, Py.slice (Some (i * p)) (Some (i * p + p)) rows);
          labels := labels part ++ (idxs ≫= λ _, Py.list_repeat code p) |}.
Proof.
  intros Hl. revert part. induction idxs as [|i idxs IH]; intros part.
  - simpl. rewrite !app_nil_r. by destruct part.
  - cbn [for_loop]. rewrite (extend_block_some _ _ _ _ code) by done.
    cbn [mbind result_bind]. rewrite IH. cbn [data labels].
    by rewrite !bind_cons, !app_assoc.
Qed.

(** Without one it raises [KeyError], if it raises. *)
Lemma for_loop_extend_block_raise lm l p rows idxs (part : split_set A) e :
  for_loop (extend_block lm l p rows) idxs part = Raise e →
  e = KeyError ∧ lm !! l = None.
Proof.
  destruct (lm !! l) as [code|] eqn:Hl.
  - by rewrite (for_loop_extend_block_code _ _ _ _ code).
  - intros (i & part1 & _ & Hb)%for_loop_raise.
    rewrite extend_block_none in Hb by done. by injection Hb as <-.
Qed.

(** What a round of the loop over the labels of a source went through
    when it returns. *)
Lemma split_label_inv lm spectra labels p (tr va te : split_set A) g l st' :
  split_label lm spectra labels p (tr, va, te, g) l = Ok st' →
  let rows := Np.select_rows spectra (Np.eq_scalar labels l) in
  let n := Z.of_nat (length rows) `div` p in
  length labels = length spectra ∧ p ≠ 0 ∧
  ∃ a b tr' va' te',
    train_split_end_of n = Ok a ∧ validation_split_end_of n = Ok b ∧
    st' = (tr', va', te', (np_random_permutation g (Np.arange n)).2) ∧
    let perm := (np_random_permutation g (Np.arange n)).1 in
    for_loop (extend_block lm l p rows) (Py.slice None (Some a) perm) tr = Ok tr' ∧
    for_loop (extend_block lm l p rows) (Py.slice (Some a) (Some b) perm) va = Ok va' ∧
    for_loop (extend_block lm l p rows) (Py.slice (Some b) None perm) te = Ok te'.
Proof.
  unfold split_label, Np.boolean_index, Py.floordiv.
  destruct (decide (length _ = length spectra)) as [Hmask|];
    cbn [mbind result_bind]; [|done].
  destruct (decide (p = 0)) as [|Hp0]; cbn [mbind result_bind]; [done|].
  intros Hst. cbv zeta.
  set (rows := Np.select_rows spectra (Np.eq_scalar labels l)) in *.
  set (n := Z.of_nat (length rows) `div` p) in *.
  destruct (np_random_permutation g (Np.arange n)) as [perm g1].
  destruct (train_split_end_of n) as [a|] eqn:Ha; cbn [mbind result_bind] in Hst; [|done].
  destruct (validation_split_end_of n) as [b|] eqn:Hb; cbn [mbind result_bind] in Hst;
    [|done].
  destruct (for_loop _ (Py.slice None _ _) _) as [tr'|] eqn:E1;
    cbn [mbind result_bind] in Hst; [|done].
  destruct (for_loop _ (Py.slice (Some a) _ _) _) as [va'|] eqn:E2;
    cbn [mbind result_bind] in Hst; [|done].
  destruct (for_loop _ (Py.slice (Some b) _ _) _) as [te'|] eqn:E3;
    cbn [mbind result_bind] in Hst; [|done].
  injection Hst as <-.
  split; [by unfold Np.eq_scalar in Hmask; rewrite length_fmap in Hmask|].
  split; [done|]. by exists a, b, tr', va', te'.
Qed.

(** A boundary raises nothing but [OverflowError]. *)
Lemma split_end_raise (c : spec_float) (n : Z) e sc mc ec :
  c = S754_finite sc mc ec →
  (x ← Py.float_mul_int c n; Py.int_of_float x) = Raise e → e = OverflowError.
Proof. intros ->. apply int_mul_raises. Qed.

(** [len // p] is no larger than [len] in absolute value. *)
Lemma floordiv_abs (len p : Z) : 0 ≤ len → p ≠ 0 → - len ≤ len `div` p ≤ len.
Proof.
  intros Hlen Hp. destruct (decide (0 < p)) as [Hpos|Hneg].
  - split; [pose proof (Z.div_pos len p); lia|].
    apply Z.div_le_upper_bound; [done|]. nia.
  - rewrite <- Z.div_opp_opp by done.
    assert (Hq : 0 < - p) by lia. set (q := - p) in *. clearbody q.
    split.
    + apply Z.div_le_lower_bound; [done|]. nia.
    + assert ((- len) `div` q ≤ 0); [|lia].
      apply Z.div_le_upper_bound; lia.
Qed.

(** So is [num_patients], against the length of the array. *)
Lemma num_patients_abs spectra labels l (p : Z) :
  p ≠ 0 → Z.of_nat (length spectra) < 2 ^ 1000 →
  - 2 ^ 1000
  < Z.of_nat (length (Np.select_rows spectra (Np.eq_scalar labels l))) `div` p
  < 2 ^ 1000.
Proof.
  intros Hp Hsize.
  pose proof (select_rows_length spectra (Np.eq_scalar labels l)) as Hle.
  pose proof (floordiv_abs
    (Z.of_nat (length (Np.select_rows spectra (Np.eq_scalar labels l)))) p
    ltac:(lia) Hp).
  lia.
Qed.

(** The exceptions of a round of the loop over labels, each with its
    cause. *)
Lemma split_label_raise lm spectra labels p (st : splits A * rng_state) l e :
  split_label lm spectra labels p st l = Raise e →
  match e with
  | IndexError => length labels ≠ length spectra
  | ZeroDivisionError => p = 0
  | OverflowError => 2 ^ 1000 ≤ Z.of_nat (length spectra)
  | KeyError => lm !! l = None
  | _ => False
  end.
Proof.
  destruct st as [[[tr va] te] g].
  unfold split_label, Np.boolean_index, Py.floordiv.
  destruct (decide (length _ = length spectra)) as [Hmask|Hmask];
    cbn [mbind result_bind]; unfold Np.eq_scalar in Hmask; rewrite length_fmap in Hmask;
    [|by intros [= <-]].
  destruct (decide (p = 0)) as [|Hp0]; cbn [mbind result_bind]; [by intros [= <-]|].
  destruct (np_random_permutation g _) as [perm g1].
  assert (Hover : ∀ e1,
    train_split_end_of (Z.of_nat (length (Np.select_rows spectra
       ((λ x : Z, bool_decide (x = l)) <$> labels))) `div` p) = Raise e1
    ∨ validation_split_end_of (Z.of_nat (length (Np.select_rows spectra
       ((λ x : Z, bool_decide (x = l)) <$> labels))) `div` p) = Raise e1 →
    e1 = OverflowError ∧ 2 ^ 1000 ≤ Z.of_nat (length spectra)).
  { intros e1 Hr. split.
    - destruct Hr as [Hr|Hr].
      + unfold train_split_end_of in Hr.
        by eapply split_end_raise; [apply train_split_value|].
      + unfold validation_split_end_of in Hr.
        by eapply split_end_raise; [apply validation_boundary_value|].
    - destruct (decide (Z.of_nat (length spectra) < 2 ^ 1000)) as [Hsize|]; [|lia].
      destruct (split_ends_defined_abs _ (num_patients_abs spectra labels l p Hp0 Hsize))
        as (a & b & Ha & Hb).
      unfold Np.eq_scalar in Ha, Hb. destruct Hr; congruence. }
  destruct (train_split_end_of _) as [a|e1] eqn:Ha; cbn [mbind result_bind]; last first.
  { intros [= <-]. by destruct (Hover e1 (or_introl eq_refl)) as [-> ?]. }
  destruct (validation_split_end_of _) as [b|e1] eqn:Hb; cbn [mbind result_bind];
    last first.
  { intros [= <-]. by destruct (Hover e1 (or_intror eq_refl)) as [-> ?]. }
  destruct (for_loop _ (Py.slice None _ _) _) as [tr'|e1] eqn:E1;
    cbn [mbind result_bind]; last first.
  { intros [= <-]. by apply for_loop_extend_block_raise in E1 as [-> ?]. }
  destruct (for_loop _ (Py.slice (Some a) _ _) _) as [va'|e1] eqn:E2;
    cbn [mbind result_bind]; last first.
  { intros [= <-]. by apply for_loop_extend_block_raise in E2 as [-> ?]. }
  destruct (for_loop _ (Py.slice (Some b) _ _) _) as [te'|e1] eqn:E3;
    cbn [mbind result_bind]; [done|].
  intros [= <-]. by apply for_loop_extend_block_raise in E3 as [-> ?].
Qed.

(** A round of the loop over labels returns when the arrays are aligned,
    the interval is not zero, the array is not huge and the label has a
    code. *)
Lemma split_label_ok lm spectra labels p (st : splits A * rng_state) l :
  length labels = length spectra → p ≠ 0 → Z.of_nat (length spectra) < 2 ^ 1000 →
  is_Some (lm !! l) →
  ∃ st', split_label lm spectra labels p st l = Ok st'.
Proof.
  intros Hlen Hp Hsize [code Hl].
  destruct (split_label lm spectra labels p st l) as [st'|e] eqn:E; [by eexists|].
  apply split_label_raise in E. destruct e; try done; try lia. congruence.
Qed.

(** The exceptions of a round of the loop over sources, each with its
    cause. *)
Lemma split_source_raise (fs : Np.files A) lm (st : splits A * rng_state) src e :
  split_source fs lm st src = Raise e →
  match e with
  | FileNotFoundError =>
      Np.spectra_files fs !! src.1.1 = None ∨ Np.label_files fs !! src.1.2 = None
  | IndexError =>
      ∃ spectra labels, Np.spectra_files fs !! src.1.1 = Some spectra
        ∧ Np.label_files fs !! src.1.2 = Some labels
        ∧ length labels ≠ length spectra
  | ZeroDivisionError => src.2 = 0
  | OverflowError =>
      ∃ spectra, Np.spectra_files fs !! src.1.1 = Some spectra
        ∧ 2 ^ 1000 ≤ Z.of_nat (length spectra)
  | KeyError =>
      ∃ labels l, Np.label_files fs !! src.1.2 = Some labels ∧ l ∈ labels ∧ lm !! l = None
  | ValueError => False
  end.
Proof.
  destruct src as [[sp lp] p].
  unfold split_source, Np.load_spectra, Np.load_labels. cbn [fst snd].
  destruct (Np.spectra_files fs !! sp) as [spectra|]; cbn [mbind result_bind];
    [|intros [= <-]; by left].
  destruct (Np.label_files fs !! lp) as [labels|]; cbn [mbind result_bind];
    [|intros [= <-]; by right].
  intros (l & st1 & Hl & Hb)%for_loop_raise.
  apply split_label_raise in Hb. destruct e; try done.
  - exists labels, l. by rewrite elem_of_unique in Hl.
  - by exists spectra, labels.
  - by exists spectra.
Qed.

End GenerationSteps.

(** ** Failing early, and getting through a source *)

Section GenerationOutcome.
Context {A : Type} `{NumpyRandom} `{Sklearn A}.
Import SAMRaman Blocks Shares.

Implicit Types (rows spectra : list A) (lm : gmap Z Z) (labels : list Z).

(** X3.  The seed is checked before anything is read: a seed outside
    [[0, 2^32)] fails the construction with [ValueError], in either mode
    and whatever the files.  With a seed that is accepted, a missing file
    among the label files that the vocabulary reads (every path of
    [label_dirs] in generation mode, also those that [zip] leaves out
    afterwards; the training and test label paths in pre-split mode) fails
    it with [FileNotFoundError]. *)
Theorem init_fails_early (g0 : rng_state) (fs : Np.files A) cfg :
  (¬ (0 ≤ seed cfg < 2 ^ 32) → __init__ g0 fs cfg = Raise ValueError)
  ∧ (0 ≤ seed cfg < 2 ^ 32 →
     (∃ path, path ∈ label_sources cfg ∧ Np.label_files fs !! path = None) →
     __init__ g0 fs cfg = Raise FileNotFoundError).
Proof.
  unfold __init__, np_random_seed. split.
  - intros Hseed. by rewrite decide_False.
  - intros Hseed (path & Hin & Hnone). rewrite decide_True by done.
    cbn [mbind result_bind].
    destruct (get_label_mapping_raise fs cfg) as [Hexn Hok].
    destruct (_get_label_mapping fs cfg) as [lm|e] eqn:E.
    + exfalso. destruct Hok as [Hok _]. specialize (Hok eq_refl).
      eapply Forall_forall in Hok; [|done]. rewrite Hnone in Hok. by destruct Hok.
    + by rewrite (Hexn e eq_refl).
Qed.

(** In generation mode every label met while splitting has a code. *)
Lemma generation_codes (fs : Np.files A) cfg lm src labels l :
  use_pre_split cfg = false → _get_label_mapping fs cfg = Ok lm →
  src ∈ sources cfg → Np.label_files fs !! src.1.2 = Some labels → l ∈ labels →
  is_Some (lm !! l).
Proof.
  intros Hmode Hlm Hsrc Hfile Hl.
  apply get_label_mapping_spec in Hlm as (labels' & -> & Hseen).
  apply label_mapping_is_Some, Hseen. destruct src as [[sp lp] p].
  apply elem_of_sources in Hsrc as (_ & Hlp & _).
  exists lp, labels. unfold label_sources. by rewrite Hmode.
Qed.

(** A source that passes is got through, whatever the state. *)
Lemma split_source_ok (fs : Np.files A) lm (st : splits A * rng_state) src :
  source_passes fs src →
  Z.of_nat (length (default [] (Np.spectra_files fs !! src.1.1))) < 2 ^ 1000 →
  (∀ labels l, Np.label_files fs !! src.1.2 = Some labels → l ∈ labels →
     is_Some (lm !! l)) →
  ∃ st', split_source fs lm st src = Ok st'.
Proof.
  intros (spectra & labels & Hsp & Hlp & Hpass) Hsize Hcodes.
  destruct (split_source fs lm st src) as [st'|e] eqn:E; [by eexists|]. exfalso.
  destruct src as [[sp lp] p]. cbn [fst snd] in *.
  unfold split_source, Np.load_spectra, Np.load_labels in E.
  rewrite Hsp, Hlp in E. cbn [mbind result_bind] in E.
  destruct Hpass as [->|[Hlen Hp]]; [done|].
  apply for_loop_raise in E as (l & st1 & Hl & Hb).
  rewrite elem_of_unique in Hl. rewrite Hsp in Hsize. cbn [default] in Hsize.
  destruct (split_label_ok lm spectra labels p st1 l Hlen Hp Hsize) as [st' Hst'];
    [by eapply Hcodes|congruence].
Qed.

End GenerationOutcome.

(** ** The sizes of the partitions *)

Section ShareSizes.
Context {A : Type} `{NumpyRandom} `{Sklearn A}.
Import SAMRaman Blocks Shares.

Implicit Types (rows spectra : list A) (lm : gmap Z Z) (labels : list Z).

(** What the loop over patient indices appends when it returns. *)
Lemma for_loop_extend_block_inv lm l p rows idxs (part part' : split_set A) :
  for_loop (extend_block lm l p rows) idxs part = Ok part' →
  (idxs ≠ [] → is_Some (lm !! l))
  ∧ data part' = data part
                 ++ (idxs ≫= λ i, Py.slice (Some (i * p)) (Some (i * p + p)) rows)
  ∧ labels part' = labels part
                   ++ (idxs ≫= λ _, Py.list_repeat (default 0 (lm !! l)) p).
Proof.
  destruct (lm !! l) as [code|] eqn:Hl.
  - rewrite (for_loop_extend_block_code _ _ _ _ code) by done. intros [= <-].
    split; [by eexists|done].
  - intros Hok. pose proof (for_loop_extend_block_none _ _ _ _ _ _ _ Hl Hok) as ->.
    simpl in Hok. injection Hok as <-. by rewrite !app_nil_r.
Qed.

(** The slices taken for patient indices of the group have [p] rows each. *)
Lemma blocks_bind_length (p : Z) rows (idxs : list Z) :
  0 ≤ p → Forall (λ i, 0 ≤ i < Z.of_nat (length rows) `div` p) idxs →
  Z.of_nat (length (idxs ≫= λ i, Py.slice (Some (i * p)) (Some (i * p + p)) rows))
  = Z.of_nat (length idxs) * p.
Proof.
  intros Hp. induction 1 as [|i idxs Hi Hidx IH]; [done|].
  rewrite bind_cons, length_app, Nat2Z.inj_add, IH.
  rewrite slice_block, patient_block_length by lia. simpl length. lia.
Qed.

(** So many codes are appended next to them. *)
Lemma repeat_bind_length {X} (c p : Z) (idxs : list X) :
  0 ≤ p →
  Z.of_nat (length (idxs ≫= λ _, Py.list_repeat c p)) = Z.of_nat (length idxs) * p.
Proof.
  intros Hp. induction idxs as [|i idxs IH]; [done|].
  rewrite bind_cons, length_app, Nat2Z.inj_add, IH.
  unfold Py.list_repeat. rewrite length_replicate. simpl length. lia.
Qed.

(** The lengths of the three slices of a sequence of length [n] at ordered
    boundaries inside it. *)
Lemma slice_lengths {T} (l : list T) (a b : Z) :
  0 ≤ a ≤ b → b ≤ Z.of_nat (length l) →
  Z.of_nat (length (Py.slice None (Some a) l)) = a
  ∧ Z.of_nat (length (Py.slice (Some a) (Some b) l)) = b - a
  ∧ Z.of_nat (length (Py.slice (Some b) None l)) = Z.of_nat (length l) - b.
Proof.
  intros Hab Hb.
  rewrite slice_prefix, slice_middle, slice_suffix by lia.
  rewrite !length_take, !length_drop. lia.
Qed.

(** The permuted patient indices are [n] indices of [[0, n)]. *)
Lemma permutation_length (g : rng_state) (n : Z) :
  0 ≤ n → Z.of_nat (length (np_random_permutation g (Np.arange n)).1) = n.
Proof.
  intros Hn. rewrite (Permutation_length (np_random_permutation_perm g (Np.arange n))).
  unfold Np.arange. rewrite length_fmap, length_seq. lia.
Qed.

Lemma permutation_bounds (g : rng_state) (n : Z) lo hi :
  Forall (λ i, 0 ≤ i < n) (Py.slice lo hi (np_random_permutation g (Np.arange n)).1).
Proof.
  apply Forall_forall. intros i Hi%elem_of_slice.
  rewrite (np_random_permutation_perm g (Np.arange n)) in Hi.
  pose proof (arange_bounds n) as Hb. by eapply Forall_forall in Hb.
Qed.

(** One round of the loop over labels, with a positive interval, adds to
    each partition the share of the group in samples, and as many codes. *)
Lemma split_label_sizes lm spectra labels p (tr va te tr' va' te' : split_set A)
    (g g' : rng_state) l :
  0 < p →
  split_label lm spectra labels p (tr, va, te, g) l = Ok (tr', va', te', g') →
  let grp := {| grp_interval := p; grp_label := l;
                grp_spectra := Np.select_rows spectra (Np.eq_scalar labels l) |} in
  Forall2 (λ part' part,
    Z.of_nat (length (data part'.1)) = Z.of_nat (length (data part)) + part'.2 * p
    ∧ Z.of_nat (length (SAMRaman.labels part'.1))
      = Z.of_nat (length (SAMRaman.labels part)) + part'.2 * p)
    [(tr', train_end grp); (va', validation_end grp - train_end grp);
     (te', num_patients grp - validation_end grp)]
    [tr; va; te].
Proof.
  intros Hp Hst grp.
  apply split_label_inv in Hst as (Hlen & _ & a & b & tr1 & va1 & te1 & Ha & Hb & Heq & Hloops).
  injection Heq as -> -> -> _. cbv zeta in Hloops.
  set (rows := Np.select_rows spectra (Np.eq_scalar labels l)) in *.
  set (n := Z.of_nat (length rows) `div` p) in *.
  assert (Hn : 0 ≤ n) by (apply Z.div_pos; lia).
  unfold train_end, validation_end, num_patients. cbn [grp_spectra grp_interval grp].
  fold rows. fold n. rewrite Ha, Hb. cbn [value_or].
  pose proof (split_ends_ordered n a b Hn Ha Hb) as Hab.
  destruct (validation_end_below n b Hn Hb) as [Hbn _].
  pose proof (permutation_length g n Hn) as Hplen.
  destruct (slice_lengths (np_random_permutation g (Np.arange n)).1 a b Hab ltac:(lia))
    as (H1 & H2 & H3).
  destruct Hloops as (E1 & E2 & E3).
  apply for_loop_extend_block_inv in E1 as (_ & D1 & L1).
  apply for_loop_extend_block_inv in E2 as (_ & D2 & L2).
  apply for_loop_extend_block_inv in E3 as (_ & D3 & L3).
  repeat constructor; cbn [fst snd];
    rewrite ?D1, ?D2, ?D3, ?L1, ?L2, ?L3, length_app, Nat2Z.inj_add,
      ?blocks_bind_length, ?repeat_bind_length
      by (lia || apply permutation_bounds); lia.
Qed.

End ShareSizes.

Section Accounting.
Context {A : Type} `{NumpyRandom} `{Sklearn A}.
Import SAMRaman Blocks Shares.

Implicit Types (rows spectra : list A) (lm : gmap Z Z).

(** A measure of the state that every round of the loop over labels
    increases by an amount [sh] depending on the group only is, at the
    end of generation mode, the sum of [sh] over the groups. *)
Lemma generation_sum (μ : splits A → Z) (sh : label_group A → Z)
    (fs : Np.files A) cfg lm (g g' : rng_state) st' :
  (∀ spectra lbls p st l st' g1 g2,
     0 < p → split_label lm spectra lbls p (st, g1) l = Ok (st', g2) →
     μ st' = μ st + sh {| grp_interval := p; grp_label := l;
                          grp_spectra := Np.select_rows spectra (Np.eq_scalar lbls l) |}) →
  use_pre_split cfg = false → Forall (λ p, 0 < p) (patient_intervals cfg) →
  _get_splits fs cfg lm g = Ok (st', g') →
  μ st' = μ (empty_set, empty_set, empty_set) + sum_over sh (label_groups fs cfg).
Proof.
  intros Hround Hmode Hpos. unfold _get_splits. rewrite Hmode. intros Hloop.
  unfold label_groups. rewrite sum_over_bind. fold (sources cfg) in Hloop.
  apply (for_loop_sum (λ s, μ s.1) (λ src, sum_over sh (source_groups fs src)))
    in Hloop; [done|].
  intros [st1 g1] [[sp lp] p] [st2 g2] Hsrc Hb. cbn [fst].
  apply elem_of_sources in Hsrc as (_ & _ & Hp).
  eapply Forall_forall in Hpos; [|exact Hp]. cbn beta in Hpos.
  unfold split_source, Np.load_spectra, Np.load_labels in Hb.
  unfold source_groups, groups_of. cbn [fst snd].
  destruct (Np.spectra_files fs !! sp) as [spectra|]; cbn [mbind result_bind] in Hb;
    [|done].
  destruct (Np.label_files fs !! lp) as [lbls|]; cbn [mbind result_bind] in Hb; [|done].
  cbn [default from_option id]. rewrite sum_over_fmap.
  apply (for_loop_sum (λ s, μ s.1)
           (sh ∘ λ l, {| grp_interval := p; grp_label := l;
                         grp_spectra := Np.select_rows spectra (Np.eq_scalar lbls l) |}))
    in Hb; [done|].
  intros [st3 g3] l [st4 g4] _ Hl. cbn [fst compose]. by eapply Hround.
Qed.

(** X6.  In generation mode with positive intervals the number of samples
    of each partition is the sum, over the (source, label) groups, of the
    share of the group: [train_split_end] patients of [p_int] samples each
    for the training partition,
    [validation_split_end - train_split_end] for the validation partition
    and [num_patients - validation_split_end] for the test partition. *)
Theorem generation_partition_sizes (g0 : rng_state) (fs : Np.files A) cfg o g' :
  use_pre_split cfg = false → Forall (λ p, 0 < p) (patient_intervals cfg) →
  __init__ g0 fs cfg = Ok (o, g') →
  let gs := label_groups fs cfg in
  Z.of_nat (length (data (train_set o)))
  = sum_over (λ g, train_end g * grp_interval g) gs
  ∧ Z.of_nat (length (data (val_set o)))
    = sum_over (λ g, (validation_end g - train_end g) * grp_interval g) gs
  ∧ Z.of_nat (length (data (test_set o)))
    = sum_over (λ g, (num_patients g - validation_end g) * grp_interval g) gs.
Proof.
  intros Hmode Hpos (g & _ & _ & _ & Hsplits)%init_inv gs.
  split_and!.
  - apply (generation_sum (λ st, Z.of_nat (length (data st.1.1)))
             (λ g, train_end g * grp_interval g)) in Hsplits; [done| |done..].
    intros spectra lbls p [[tr va] te] l [[tr' va'] te'] g1 g2 Hp Hl.
    apply split_label_sizes in Hl; [|done]. cbv zeta in Hl.
    apply Forall2_cons in Hl as [[Hl _] _]. exact Hl.
  - apply (generation_sum (λ st, Z.of_nat (length (data st.1.2)))
             (λ g, (validation_end g - train_end g) * grp_interval g)) in Hsplits;
      [done| |done..].
    intros spectra lbls p [[tr va] te] l [[tr' va'] te'] g1 g2 Hp Hl.
    apply split_label_sizes in Hl; [|done]. cbv zeta in Hl.
    apply Forall2_cons in Hl as [_ Hl]. apply Forall2_cons in Hl as [[Hl _] _]. exact Hl.
  - apply (generation_sum (λ st, Z.of_nat (length (data st.2)))
             (λ g, (num_patients g - validation_end g) * grp_interval g)) in Hsplits;
      [done| |done..].
    intros spectra lbls p [[tr va] te] l [[tr' va'] te'] g1 g2 Hp Hl.
    apply split_label_sizes in Hl; [|done]. cbv zeta in Hl.
    apply Forall2_cons in Hl as [_ Hl]. apply Forall2_cons in Hl as [_ Hl].
    apply Forall2_cons in Hl as [[Hl _] _]. exact Hl.
Qed.

End Accounting.

(** ** Which groups the partitions represent *)

Section Coverage.
Context {A : Type} `{NumpyRandom} `{Sklearn A}.
Import SAMRaman Blocks Shares.

Implicit Types (rows spectra : list A) (lm : gmap Z Z).

(** Appending to a partition keeps what it holds. *)
Lemma holds_block_grows lm (grp : label_group A) (part part' : split_set A) d c :
  data part' = data part ++ d → SAMRaman.labels part' = SAMRaman.labels part ++ c →
  holds_block lm grp part → holds_block lm grp part'.
Proof.
  intros Hd Hc (b & code & Hb & Hcode & Hrows & Hin).
  exists b, code. split_and!; [done..| |].
  - intros r Hr. rewrite Hd, elem_of_app. left. by apply Hrows.
  - rewrite Hc, elem_of_app. by left.
Qed.

(** A round of the loop over labels only appends to the partitions. *)
Lemma split_label_keeps lm (grp : label_group A) spectra lbls p
    (tr va te tr' va' te' : split_set A) (g g' : rng_state) l :
  split_label lm spectra lbls p (tr, va, te, g) l = Ok (tr', va', te', g') →
  (holds_block lm grp tr → holds_block lm grp tr')
  ∧ (holds_block lm grp va → holds_block lm grp va')
  ∧ (holds_block lm grp te → holds_block lm grp te').
Proof.
  intros Hst.
  apply split_label_inv in Hst
    as (_ & _ & a & b & tr1 & va1 & te1 & _ & _ & Heq & E1 & E2 & E3).
  injection Heq as -> -> -> _.
  apply for_loop_extend_block_inv in E1 as (_ & D1 & L1).
  apply for_loop_extend_block_inv in E2 as (_ & D2 & L2).
  apply for_loop_extend_block_inv in E3 as (_ & D3 & L3).
  split_and!; by eapply holds_block_grows.
Qed.

(** The loop over a non-empty list of patient indices of a group puts a
    whole block of the group, with its code, into the partition. *)
Lemma for_loop_extend_block_holds lm l p rows idxs (part part' : split_set A) :
  0 < p → idxs ≠ [] →
  Forall (λ i, 0 ≤ i < Z.of_nat (length rows) `div` p) idxs →
  for_loop (extend_block lm l p rows) idxs part = Ok part' →
  holds_block lm {| grp_interval := p; grp_label := l; grp_spectra := rows |} part'.
Proof.
  intros Hp Hne Hidx Hloop.
  apply for_loop_extend_block_inv in Hloop as (Hcode & Hd & Hl).
  destruct (Hcode Hne) as [code Hc]. rewrite Hc in Hl. cbn [default] in Hl.
  destruct idxs as [|i idxs]; [done|]. apply Forall_cons in Hidx as [Hi _].
  exists (patient_block p rows i), code. cbn [grp_label].
  unfold group_blocks, patient_blocks. cbn [grp_interval grp_spectra].
  split_and!; [|done| |].
  - apply list_elem_of_fmap. exists i. split; [done|].
    unfold Np.arange. apply list_elem_of_fmap. exists (Z.to_nat i).
    split; [lia|]. apply elem_of_seq. lia.
  - intros r Hr. rewrite Hd, bind_cons, slice_block by lia.
    rewrite !elem_of_app. right; by left.
  - rewrite Hl, bind_cons. unfold Py.list_repeat.
    rewrite !elem_of_app. right; left.
    apply elem_of_replicate. split; [done|lia].
Qed.

(** The round of a group gives the test partition a block of the group as
    soon as the group has one, and the training partition a block as soon
    as the group has two. *)
Lemma split_label_establishes lm spectra lbls p
    (tr va te tr' va' te' : split_set A) (g g' : rng_state) l :
  split_label lm spectra lbls p (tr, va, te, g) l = Ok (tr', va', te', g') →
  let grp := {| grp_interval := p; grp_label := l;
                grp_spectra := Np.select_rows spectra (Np.eq_scalar lbls l) |} in
  (0 < num_patients grp → holds_block lm grp te')
  ∧ (2 ≤ num_patients grp → holds_block lm grp tr').
Proof.
  intros Hst grp.
  apply split_label_inv in Hst
    as (_ & _ & a & b & tr1 & va1 & te1 & Ha & Hb & Heq & E1 & _ & E3).
  injection Heq as -> -> -> _.
  unfold num_patients. cbn [grp grp_spectra grp_interval].
  set (rows := Np.select_rows spectra (Np.eq_scalar lbls l)) in *.
  set (n := Z.of_nat (length rows) `div` p) in *.
  assert (Hpos : 0 < n → 0 < p ∧ 0 ≤ a ≤ b ∧ b < n ∧ (2 ≤ n → 0 < a)).
  { intros Hn. split; [apply (floordiv_pos (Z.of_nat (length rows))); lia|].
    pose proof (split_ends_ordered n a b ltac:(lia) Ha Hb).
    destruct (validation_end_below n b ltac:(lia) Hb) as [_ Hlt].
    split_and!; [lia..|by apply Hlt|].
    intros Hn2. by eapply train_end_positive. }
  split.
  - intros Hn. destruct (Hpos Hn) as (Hp & Hab & Hbn & _).
    eapply for_loop_extend_block_holds; [done| |apply permutation_bounds|exact E3].
    intros Hnil. apply (f_equal length) in Hnil.
    pose proof (slice_lengths (np_random_permutation g (Np.arange n)).1 a b Hab) as Hs.
    rewrite permutation_length in Hs by lia. destruct Hs as (_ & _ & Hs); [lia|].
    subst n. rewrite Hnil in Hs. simpl in Hs. lia.
  - intros Hn. destruct (Hpos ltac:(lia)) as (Hp & Hab & Hbn & Ha0).
    specialize (Ha0 Hn).
    eapply for_loop_extend_block_holds; [done| |apply permutation_bounds|exact E1].
    intros Hnil. apply (f_equal length) in Hnil.
    pose proof (slice_lengths (np_random_permutation g (Np.arange n)).1 a b Hab) as Hs.
    rewrite permutation_length in Hs by lia. destruct Hs as (Hs & _); [lia|].
    subst n. rewrite Hnil in Hs. simpl in Hs. lia.
Qed.

(** X7.  In generation mode every (source, label) group that has a whole
    patient block has one of its blocks in the test partition, next to the
    code of its label; a group that has two whole blocks also has one in
    the training partition. *)
Theorem generation_class_coverage (g0 : rng_state) (fs : Np.files A) cfg o g' grp :
  use_pre_split cfg = false → __init__ g0 fs cfg = Ok (o, g') →
  grp ∈ label_groups fs cfg →
  (0 < num_patients grp → holds_block (label_map o) grp (test_set o))
  ∧ (2 ≤ num_patients grp → holds_block (label_map o) grp (train_set o)).
Proof.
  intros Hmode (g & _ & _ & _ & Hsplits)%init_inv Hgrp.
  unfold _get_splits in Hsplits. rewrite Hmode in Hsplits.
  unfold label_groups in Hgrp. apply list_elem_of_bind in Hgrp as (src & Hgrp & Hsrc).
  set (I := λ st : splits A * rng_state,
    (0 < num_patients grp → holds_block (label_map o) grp st.1.2)
    ∧ (2 ≤ num_patients grp → holds_block (label_map o) grp st.1.1.1)).
  change (I (train_set o, val_set o, test_set o, g')).
  assert (Hkeep : ∀ spectra lbls p st l st',
    split_label (label_map o) spectra lbls p st l = Ok st' → I st → I st').
  { intros spectra lbls p [[[tr va] te] g1] l [[[tr' va'] te'] g2] Hl [I1 I2].
    destruct (split_label_keeps _ grp _ _ _ _ _ _ _ _ _ _ _ _ Hl) as (K1 & _ & K3).
    split; intros Hn; cbn [fst snd] in *; auto. }
  eapply (for_loop_establish I); [exact Hsrc| | |exact Hsplits].
  - intros st [[sp lp] p] st' Hb. unfold split_source in Hb.
    destruct (Np.load_spectra fs sp) as [spectra|]; cbn [mbind result_bind] in Hb; [|done].
    destruct (Np.load_labels fs lp) as [lbls|]; cbn [mbind result_bind] in Hb; [|done].
    intros Ist. eapply (for_loop_invariant I); [|exact Ist|exact Hb].
    intros ??? _ ??. by eapply Hkeep.
  - intros st st' Hb. destruct src as [[sp lp] p].
    unfold split_source, Np.load_spectra, Np.load_labels in Hb.
    unfold source_groups, groups_of in Hgrp. cbn [fst snd] in Hgrp.
    destruct (Np.spectra_files fs !! sp) as [spectra|]; cbn [mbind result_bind] in Hb;
      [|done].
    destruct (Np.label_files fs !! lp) as [lbls|]; cbn [mbind result_bind] in Hb; [|done].
    cbn [default from_option id] in Hgrp.
    apply list_elem_of_fmap in Hgrp as (l & -> & Hl).
    eapply (for_loop_establish I); [exact Hl| | |exact Hb].
    + intros ?????. by eapply Hkeep.
    + intros [[[tr va] te] g1] [[[tr' va'] te'] g2] Hround.
      by apply split_label_establishes in Hround.
Qed.

End Coverage.

(** ** The outcome of a construction in generation mode *)

Section ConstructionOutcome.
Context {A : Type} `{NumpyRandom} `{Sklearn A}.
Import SAMRaman Blocks Shares.

Implicit Types (rows spectra : list A) (lm : gmap Z Z).

(** The round of a group with fewer than two patients leaves the training
    partition as it is. *)
Lemma split_label_train_kept lm spectra lbls p
    (tr va te tr' va' te' : split_set A) (g g' : rng_state) l :
  split_label lm spectra lbls p (tr, va, te, g) l = Ok (tr', va', te', g') →
  num_patients {| grp_interval := p; grp_label := l;
                  grp_spectra := Np.select_rows spectra (Np.eq_scalar lbls l) |} < 2 →
  tr' = tr.
Proof.
  intros Hst. unfold num_patients. cbn [grp_spectra grp_interval].
  apply split_label_inv in Hst
    as (_ & _ & a & b & tr1 & va1 & te1 & Ha & _ & Heq & E1 & _).
  injection Heq as -> _ _ _.
  set (n := Z.of_nat (length (Np.select_rows spectra (Np.eq_scalar lbls l))) `div` p) in *.
  intros Hn.
  assert (Hnil : Py.slice None (Some a) (np_random_permutation g (Np.arange n)).1 = []).
  { destruct (decide (n = 1)) as [Hn1|Hn1].
    - rewrite Hn1 in Ha. vm_compute in Ha. injection Ha as <-.
      by rewrite slice_prefix by lia.
    - pose proof (np_random_permutation_perm g (Np.arange n)) as HP.
      assert (Hempty : Np.arange n = []).
      { unfold Np.arange. replace (Z.to_nat n) with 0%nat by lia. done. }
      rewrite Hempty in HP |- *. apply Permutation_nil_r in HP. rewrite HP.
      apply slice_nil. }
  rewrite Hnil in E1. simpl in E1. by injection E1 as <-.
Qed.

(** Without a group of two patients the training partition stays empty. *)
Lemma generation_train_empty (fs : Np.files A) cfg lm (g g' : rng_state)
    (tr va te : split_set A) :
  use_pre_split cfg = false →
  Forall (λ grp, num_patients grp < 2) (label_groups fs cfg) →
  _get_splits fs cfg lm g = Ok (tr, va, te, g') → tr = empty_set.
Proof.
  intros Hmode Hall. unfold _get_splits. rewrite Hmode. fold (sources cfg).
  intros Hloop.
  apply (for_loop_invariant (λ st : splits A * rng_state, st.1.1.1 = empty_set))
    in Hloop; [done| |done].
  intros [st1 g1] [[sp lp] p] [st2 g2] Hsrc Ist Hb. cbn [fst] in *.
  assert (Hgroups : Forall (λ grp, num_patients grp < 2) (source_groups fs (sp, lp, p))).
  { apply Forall_forall. intros grp Hgrp. rewrite Forall_forall in Hall. apply Hall.
    unfold label_groups. apply list_elem_of_bind. by exists (sp, lp, p). }
  unfold split_source, Np.load_spectra, Np.load_labels in Hb.
  unfold source_groups, groups_of in Hgroups. cbn [fst snd] in Hgroups.
  destruct (Np.spectra_files fs !! sp) as [spectra|]; cbn [mbind result_bind] in Hb;
    [|done].
  destruct (Np.label_files fs !! lp) as [lbls|]; cbn [mbind result_bind] in Hb; [|done].
  cbn [default from_option id] in Hgroups. rewrite Forall_fmap in Hgroups.
  apply (for_loop_invariant (λ st : splits A * rng_state, st.1.1.1 = empty_set))
    in Hb; [done| |done].
  intros [[[tr1 va1] te1] g3] l [[[tr2 va2] te2] g4] Hl Itr Hround. cbn [fst] in *.
  rewrite Forall_forall in Hgroups.
  rewrite (split_label_train_kept _ _ _ _ _ _ _ _ _ _ _ _ _ Hround); [done|].
  by apply (Hgroups l).
Qed.

(** A group of two patients leaves a label in the training partition. *)
Lemma generation_train_nonempty (fs : Np.files A) cfg lm (g g' : rng_state)
    (tr va te : split_set A) grp :
  use_pre_split cfg = false → grp ∈ label_groups fs cfg → 2 ≤ num_patients grp →
  _get_splits fs cfg lm g = Ok (tr, va, te, g') → SAMRaman.labels tr ≠ [].
Proof.
  intros Hmode Hgrp Hn. unfold _get_splits. rewrite Hmode. fold (sources cfg).
  intros Hloop.
  unfold label_groups in Hgrp. apply list_elem_of_bind in Hgrp as (src & Hgrp & Hsrc).
  set (I := λ st : splits A * rng_state, SAMRaman.labels st.1.1.1 ≠ []).
  change (I (tr, va, te, g')).
  assert (Hkeep : ∀ spectra lbls p st l st',
    split_label lm spectra lbls p st l = Ok st' → I st → I st').
  { intros spectra lbls p [[[tr1 va1] te1] g1] l [[[tr2 va2] te2] g2] Hl.
    unfold I. cbn [fst].
    apply split_label_inv in Hl
      as (_ & _ & a & b & tr3 & va3 & te3 & _ & _ & Heq & E1 & _).
    injection Heq as -> _ _ _.
    apply for_loop_extend_block_inv in E1 as (_ & _ & ->).
    intros Hne Hnil. by apply app_eq_nil in Hnil as [? _]. }
  eapply (for_loop_establish I); [exact Hsrc| | |exact Hloop].
  - intros st [[sp lp] p] st' Hb. unfold split_source in Hb.
    destruct (Np.load_spectra fs sp) as [spectra|]; cbn [mbind result_bind] in Hb; [|done].
    destruct (Np.load_labels fs lp) as [lbls|]; cbn [mbind result_bind] in Hb; [|done].
    intros Ist. eapply (for_loop_invariant I); [|exact Ist|exact Hb].
    intros ??? _ ??. by eapply Hkeep.
  - intros st st' Hb. destruct src as [[sp lp] p].
    unfold split_source, Np.load_spectra, Np.load_labels in Hb.
    unfold source_groups, groups_of in Hgrp. cbn [fst snd] in Hgrp.
    destruct (Np.spectra_files fs !! sp) as [spectra|]; cbn [mbind result_bind] in Hb;
      [|done].
    destruct (Np.label_files fs !! lp) as [lbls|]; cbn [mbind result_bind] in Hb; [|done].
    cbn [default from_option id] in Hgrp.
    apply list_elem_of_fmap in Hgrp as (l & -> & Hl).
    eapply (for_loop_establish I); [exact Hl| | |exact Hb].
    + intros ?????. by eapply Hkeep.
    + intros [[[tr1 va1] te1] g1] [[[tr2 va2] te2] g2] Hround.
      apply split_label_establishes in Hround as [_ Hholds].
      destruct (Hholds Hn) as (blk & c & _ & _ & _ & Hc).
      unfold I. cbn [fst]. intros Hnil. rewrite Hnil in Hc. by apply elem_of_nil in Hc.
Qed.

(** The training partition of generation mode is empty exactly when no
    group has two patients. *)
Lemma generation_train_empty_iff (fs : Np.files A) cfg lm (g g' : rng_state)
    (tr va te : split_set A) :
  use_pre_split cfg = false → _get_splits fs cfg lm g = Ok (tr, va, te, g') →
  SAMRaman.labels tr = [] ↔ Forall (λ grp, num_patients grp < 2) (label_groups fs cfg).
Proof.
  intros Hmode Hsplits. split.
  - intros Hnil. apply Forall_forall. intros grp Hgrp.
    destruct (decide (num_patients grp < 2)) as [|Hn]; [done|]. exfalso.
    by apply (generation_train_nonempty fs cfg lm g g' tr va te grp Hmode Hgrp
                ltac:(lia) Hsplits).
  - intros Hall.
    by rewrite (generation_train_empty fs cfg lm g g' tr va te Hmode Hall Hsplits).
Qed.

(** X4.  The exceptions of a construction in generation mode, each with
    its cause.  [ValueError]: the seed is outside [[0, 2^32)], or the batch
    size is not positive, or no (source, label) group has two whole patient
    blocks, so that the training partition is empty; the last two are
    raised by [DataLoader], once the partitions are made.
    [FileNotFoundError]: a label file of [label_dirs] or the spectra file of
    a processed source is missing.  [IndexError]: a processed source has
    label and spectra arrays of different lengths.  [ZeroDivisionError]: a
    processed source has the interval 0.  [OverflowError]: a processed
    source has [2^1000] rows or more.  [KeyError] is never raised: every
    label met while splitting has a code. *)
Theorem generation_exceptions (g0 : rng_state) (fs : Np.files A) cfg e :
  use_pre_split cfg = false → __init__ g0 fs cfg = Raise e →
  match e with
  | ValueError =>
      ¬ (0 ≤ seed cfg < 2 ^ 32) ∨ batch_size cfg ≤ 0
      ∨ Forall (λ grp, num_patients grp < 2) (label_groups fs cfg)
  | FileNotFoundError =>
      (∃ path, path ∈ label_dirs cfg ∧ Np.label_files fs !! path = None)
      ∨ (∃ src, src ∈ sources cfg ∧ Np.spectra_files fs !! src.1.1 = None)
  | IndexError =>
      ∃ src spectra labels, src ∈ sources cfg
        ∧ Np.spectra_files fs !! src.1.1 = Some spectra
        ∧ Np.label_files fs !! src.1.2 = Some labels
        ∧ length labels ≠ length spectra
  | ZeroDivisionError => ∃ src, src ∈ sources cfg ∧ src.2 = 0
  | OverflowError =>
      ∃ src spectra, src ∈ sources cfg
        ∧ Np.spectra_files fs !! src.1.1 = Some spectra
        ∧ 2 ^ 1000 ≤ Z.of_nat (length spectra)
  | KeyError => False
  end.
Proof.
  intros Hmode. unfold __init__, np_random_seed.
  destruct (decide (0 ≤ seed cfg < 2 ^ 32)) as [Hseed|Hseed]; cbn [mbind result_bind];
    [|intros [= <-]; by left].
  destruct (_get_label_mapping fs cfg) as [lm|e1] eqn:Hlm; cbn [mbind result_bind];
    last first.
  { intros [= <-]. unfold _get_label_mapping in Hlm. rewrite Hmode in Hlm.
    destruct (extend_loaded fs (label_dirs cfg) []) as [?|e2] eqn:E; [done|].
    apply extend_loaded_raise in E as [-> ?]. injection Hlm as <-. by left. }
  destruct (_get_splits fs cfg lm _) as [[[[tr va] te] g1]|e1] eqn:Hsplits;
    cbn [mbind result_bind].
  { destruct (_create_dataloaders _ tr va te) as [[[l1 l2] l3]|e1] eqn:Hld;
      cbn [mbind result_bind]; [done|].
    intros [= <-]. apply create_dataloaders_raise in Hld as (-> & [Hbs|Htr]);
      right; [by left|right].
    by apply (generation_train_empty_iff fs cfg lm _ g1 tr va te Hmode Hsplits). }
  intros [= ->]. unfold _get_splits in Hsplits. rewrite Hmode in Hsplits.
  apply for_loop_raise in Hsplits as (src & st1 & Hsrc & Hb).
  fold (sources cfg) in Hsrc.
  apply split_source_raise in Hb. destruct e.
  - destruct Hb as [Hnone|Hnone]; [right; by exists src|left].
    exists src.1.2. split; [|done]. destruct src as [[sp lp] p].
    by apply elem_of_sources in Hsrc as (_ & ? & _).
  - destruct Hb as (labels & l & Hfile & Hl & Hnone).
    destruct (generation_codes fs cfg lm src labels l) as [c Hc]; congruence.
  - destruct Hb as (spectra & labels & ?). by exists src, spectra, labels.
  - by exists src.
  - destruct Hb as (spectra & ?). by exists src, spectra.
  - done.
Qed.

(** X5.  When no processed spectra array has [2^1000] rows or more, a
    construction in generation mode returns an object exactly when the seed
    is in [[0, 2^32)], the batch size is positive, every file of
    [label_dirs] exists, for every processed source both files exist and,
    unless its label array is empty, the two arrays have the same length
    and the interval is not zero, and some (source, label) group has two
    whole patient blocks, so that the training partition is not empty. *)
Theorem generation_returns_iff (g0 : rng_state) (fs : Np.files A) cfg :
  use_pre_split cfg = false →
  Forall (λ src, Z.of_nat (length (default [] (Np.spectra_files fs !! src.1.1)))
                 < 2 ^ 1000) (sources cfg) →
  is_ok (__init__ g0 fs cfg) = true
  ↔ 0 ≤ seed cfg < 2 ^ 32 ∧ 0 < batch_size cfg
    ∧ Forall (λ path, is_Some (Np.label_files fs !! path)) (label_dirs cfg)
    ∧ Forall (source_passes fs) (sources cfg)
    ∧ Exists (λ grp, 2 ≤ num_patients grp) (label_groups fs cfg).
Proof.
  intros Hmode Hsize. split.
  - destruct (__init__ g0 fs cfg) as [[o g']|] eqn:Hinit; [intros _|done].
    destruct (init_checks _ _ _ _ _ Hinit) as (Hbs & Htr & _).
    apply init_inv in Hinit as (g & Hseed & Hlm & _ & Hsplits).
    split; [|split; [done|split; [|split]]].
    + unfold np_random_seed in Hseed.
      by destruct (decide (0 ≤ seed cfg < 2 ^ 32)).
    + destruct (get_label_mapping_raise fs cfg) as [_ Hok].
      unfold label_sources in Hok. rewrite Hmode in Hok. apply Hok. by rewrite Hlm.
    + apply Forall_forall. intros src Hsrc.
      unfold _get_splits in Hsplits. rewrite Hmode in Hsplits.
      destruct (for_loop_ok _ _ _ _ src Hsplits Hsrc) as ([[[tr va] te] g1] & st2 & Hb).
      destruct src as [[sp lp] p].
      unfold split_source, Np.load_spectra, Np.load_labels in Hb.
      unfold source_passes. cbn [fst snd].
      destruct (Np.spectra_files fs !! sp) as [spectra|]; cbn [mbind result_bind] in Hb;
        [|done].
      destruct (Np.label_files fs !! lp) as [labels|]; cbn [mbind result_bind] in Hb;
        [|done].
      exists spectra, labels. split_and!; [done..|].
      destruct labels as [|l0 labels]; [by left|right].
      assert (Hl0 : l0 ∈ Np.unique (l0 :: labels)) by (rewrite elem_of_unique; left).
      destruct (for_loop_ok _ _ _ _ l0 Hb Hl0) as ([[[tr1 va1] te1] g2] & st3 & Hl).
      by apply split_label_inv in Hl as (? & ? & _).
    + destruct (decide (Forall (λ grp, num_patients grp < 2) (label_groups fs cfg)))
        as [Hall|Hnot].
      * by apply (generation_train_empty_iff fs cfg _ _ _ _ _ _ Hmode Hsplits) in Hall.
      * apply not_Forall_Exists in Hnot; [|apply _].
        eapply Exists_impl; [exact Hnot|]. intros grp Hn. simpl in Hn. lia.
  - intros (Hseed & Hbs & Hfiles & Hpass & Htwo).
    destruct (_get_label_mapping fs cfg) as [lm|e] eqn:Hlm; last first.
    { destruct (get_label_mapping_raise fs cfg) as [_ Hok].
      unfold label_sources in Hok. rewrite Hmode, Hlm in Hok. by apply Hok in Hfiles. }
    destruct (for_loop_all_ok (split_source fs lm) (sources cfg)
                (empty_set, empty_set, empty_set, np_random_seed_state (seed cfg)))
      as [[[[tr va] te] g1] Hst].
    { intros st src Hsrc. apply split_source_ok.
      - by eapply Forall_forall in Hpass.
      - by eapply Forall_forall in Hsize.
      - intros labels l Hfile Hl. by eapply generation_codes. }
    assert (Hsplits : _get_splits fs cfg lm (np_random_seed_state (seed cfg))
                      = Ok (tr, va, te, g1)).
    { unfold _get_splits. by rewrite Hmode. }
    apply Exists_exists in Htwo as (grp & Hgrp & Hn).
    destruct (init_ok g0 fs cfg (np_random_seed_state (seed cfg)) lm tr va te g1)
      as (o & -> & _); try done.
    + unfold np_random_seed. by rewrite decide_True.
    + by eapply generation_train_nonempty.
Qed.

(** X8.  An interval that is not positive is not refused by the
    partitioning, but it contributes nothing.  When no interval is
    positive, the partitioning of generation mode, if it returns, returns
    three empty partitions; no construction returns; and a construction
    that gets as far as the partitions raises [ValueError], which
    [DataLoader] raises on the empty training partition. *)
Theorem nonpositive_intervals_keep_nothing (g0 : rng_state) (fs : Np.files A) cfg :
  use_pre_split cfg = false → Forall (λ p, p ≤ 0) (patient_intervals cfg) →
  (∀ lm (g g' : rng_state) st,
     _get_splits fs cfg lm g = Ok (st, g') → st = (empty_set, empty_set, empty_set))
  ∧ is_ok (__init__ g0 fs cfg) = false
  ∧ (∀ lm (g g' : rng_state) st,
       np_random_seed (seed cfg) = Ok g → _get_label_mapping fs cfg = Ok lm →
       _get_splits fs cfg lm g = Ok (st, g') → __init__ g0 fs cfg = Raise ValueError).
Proof.
  intros Hmode Hint.
  assert (Hempty : ∀ lm (g g' : rng_state) st,
    _get_splits fs cfg lm g = Ok (st, g') → st = (empty_set, empty_set, empty_set)).
  { intros lm g g' [[tr va] te] Hsplits.
    apply generation_spec in Hsplits as (b1 & b2 & b3 & -> & -> & -> & HP); [|done].
    assert (Hnil : label_groups fs cfg ≫= coded_blocks lm = []).
    { apply elem_of_nil_inv. intros bc (grp & Hbc & Hgrp)%list_elem_of_bind.
      unfold coded_blocks in Hbc. apply list_elem_of_fmap in Hbc as (b & _ & Hb).
      apply elem_of_patient_blocks in Hb as (Hp & _).
      destruct (elem_of_label_groups fs cfg grp Hmode Hgrp) as [Hin _].
      eapply Forall_forall in Hint; [|exact Hin]. simpl in Hint. lia. }
    rewrite Hnil in HP. apply Permutation_nil_r in HP.
    by apply app_eq_nil in HP as [-> [-> ->]%app_eq_nil]. }
  assert (Hnot : is_ok (__init__ g0 fs cfg) = false).
  { destruct (__init__ g0 fs cfg) as [[o g']|] eqn:Hinit; [|done]. exfalso.
    destruct (init_checks _ _ _ _ _ Hinit) as (_ & Htr & _).
    apply init_inv in Hinit as (g & _ & _ & _ & Hsplits).
    apply Hempty in Hsplits. injection Hsplits as Heq _ _. by rewrite Heq in Htr. }
  split; [done|]. split; [done|].
  intros lm g g' [[tr va] te] Hseed Hlm Hsplits.
  destruct (__init__ g0 fs cfg) as [[o g1]|e] eqn:Hinit; [done|].
  by destruct (init_raise_late _ _ _ _ _ _ _ _ _ _ Hseed Hlm Hsplits Hinit) as [-> _].
Qed.

End ConstructionOutcome.

(** ** Items and codes *)

Section Items.
Context {A : Type} `{NumpyRandom} `{Sklearn A}.
Import SAMRaman Blocks Shares.

Implicit Types (rows spectra : list A) (lm : gmap Z Z).

(** Inside [[-len, len)] an index reads the element it designates. *)
Lemma getitem_inside {T} (l : list T) (i : Z) :
  - Z.of_nat (length l) ≤ i < Z.of_nat (length l) →
  ∃ x (j : nat), Py.getitem l i = Ok x ∧ l !! j = Some x
    ∧ Z.of_nat j = (if decide (i < 0) then i + Z.of_nat (length l) else i).
Proof.
  intros Hi. unfold Py.getitem. cbv zeta.
  set (j := if decide (i < 0) then i + Z.of_nat (length l) else i).
  assert (Hj : 0 ≤ j < Z.of_nat (length l)) by (subst j; case_decide; lia).
  rewrite decide_True by done.
  destruct (lookup_lt_is_Some_2 l (Z.to_nat j)) as [x Hx]; [lia|].
  rewrite Hx. exists x, (Z.to_nat j). split_and!; [done..|lia].
Qed.

(** The loaders of a constructed object. *)
Lemma init_loaders (g0 : rng_state) (fs : Np.files A) cfg o g' :
  __init__ g0 fs cfg = Ok (o, g') →
  train_loader o = {| dataset := dataset_of (train_set o);
                      loader_batch_size := batch_size cfg; shuffle := true |}
  ∧ val_loader o = {| dataset := dataset_of (val_set o);
                      loader_batch_size := batch_size cfg; shuffle := false |}
  ∧ test_loader o = {| dataset := dataset_of (test_set o);
                       loader_batch_size := batch_size cfg; shuffle := false |}.
Proof. by intros (_ & _ & ? & ? & ?)%init_checks. Qed.

(** Decoding the code of a label on a constructed object. *)
Lemma init_decode (g0 : rng_state) (fs : Np.files A) cfg o g' l c :
  __init__ g0 fs cfg = Ok (o, g') → label_map o !! l = Some c →
  _get_original_label o c = Ok l ∧ 0 ≤ c < Z.of_nat (size (label_map o)).
Proof.
  intros (g & _ & Hlm & Hinv & _)%init_inv Hl.
  apply get_label_mapping_spec in Hlm as (labels & Hlm & _).
  split.
  - unfold _get_original_label, Py.dict_getitem. rewrite Hinv.
    assert (inverse_mapping_of (label_map o) !! c = Some l) as ->; [|done].
    apply inverse_mapping_lookup; [|done]. rewrite Hlm. apply label_mapping_inj.
  - rewrite Hlm in Hl |- *. rewrite label_mapping_size.
    apply label_mapping_lookup in Hl as [Hc Hl%lookup_lt_Some]. lia.
Qed.

(** The partitions of generation mode, block by block. *)
Lemma init_generation_blocks (g0 : rng_state) (fs : Np.files A) cfg o g' part :
  use_pre_split cfg = false → __init__ g0 fs cfg = Ok (o, g') →
  part ∈ [train_set o; val_set o; test_set o] →
  ∃ bs, part = assemble bs ∧ Forall (block_origin fs cfg (label_map o)) bs.
Proof.
  intros Hmode Hinit Hpart.
  destruct (init_generation _ _ _ _ _ Hmode Hinit)
    as (b1 & b2 & b3 & E1 & E2 & E3 & HP & Hseen).
  assert (Hall : Forall (block_origin fs cfg (label_map o)) (b1 ++ b2 ++ b3)).
  { apply Forall_forall. intros bc Hbc. rewrite HP in Hbc.
    by apply coded_block_origin. }
  apply Forall_app in Hall as [H1 Hall]. apply Forall_app in Hall as [H2 H3].
  rewrite !elem_of_cons in Hpart.
  destruct Hpart as [->|[->|[->|[]%elem_of_nil]]]; eauto.
Qed.

(** X9.  After a construction in generation mode, every index of
    [[-len, len)] of the dataset of each of the three loaders returns an
    item: one row under a leading axis of length one and a code, where the
    row is a row of a (source, label) group, the code is the code of the
    label of that group, and [_get_original_label] decodes it to that
    label. *)
Theorem generation_items (g0 : rng_state) (fs : Np.files A) cfg o g' ld idx :
  use_pre_split cfg = false → __init__ g0 fs cfg = Ok (o, g') →
  ld ∈ [train_loader o; val_loader o; test_loader o] →
  - SAMRamanDataset.__len__ (dataset ld) ≤ idx < SAMRamanDataset.__len__ (dataset ld) →
  ∃ r c grp,
    SAMRamanDataset.__getitem__ (dataset ld) idx = Ok ([r], c)
    ∧ grp ∈ label_groups fs cfg ∧ r ∈ grp_spectra grp
    ∧ label_map o !! grp_label grp = Some c
    ∧ _get_original_label o c = Ok (grp_label grp).
Proof.
  intros Hmode Hinit Hld Hidx.
  destruct (init_loaders _ _ _ _ _ Hinit) as (Etr & Eva & Ete).
  assert (Hpart : ∃ part, part ∈ [train_set o; val_set o; test_set o]
                          ∧ dataset ld = dataset_of part).
  { rewrite !elem_of_cons in Hld.
    destruct Hld as [->|[->|[->|[]%elem_of_nil]]];
      [exists (train_set o)|exists (val_set o)|exists (test_set o)];
      rewrite ?Etr, ?Eva, ?Ete; (split; [|done]); rewrite !elem_of_cons; tauto. }
  destruct Hpart as (part & Hpart & Hds). rewrite Hds in Hidx |- *. clear Hds.
  destruct (init_generation_blocks _ _ _ _ _ _ Hmode Hinit Hpart) as (bs & -> & Hbs).
  unfold SAMRamanDataset.__len__, SAMRamanDataset.__getitem__, dataset_of in *.
  cbn [SAMRamanDataset.labels SAMRamanDataset.spectral_data] in *.
  pose proof (assemble_length bs) as Hlen.
  destruct (getitem_inside (SAMRaman.labels (assemble bs)) idx Hidx)
    as (c & j & -> & Hc & Hj).
  destruct (getitem_inside (data (assemble bs)) idx ltac:(lia))
    as (r & j' & -> & Hr & Hj').
  assert (j' = j) as -> by (rewrite Hlen in Hj'; lia).
  cbn [mbind result_bind].
  destruct (assemble_lookup bs j r c Hr Hc) as (b & Hin & Hrb).
  eapply Forall_forall in Hbs; [|exact Hin].
  destruct Hbs as (grp & Hgrp & Hb & _ & Hcode). cbn [fst snd] in *.
  exists r, c, grp. split_and!; [done..| |done|].
  - apply elem_of_patient_blocks in Hb as (_ & _ & Hrows). by apply Hrows.
  - by destruct (init_decode _ _ _ _ _ _ _ Hinit Hcode).
Qed.

(** A round of pre-split mode appends codes of the label map only. *)
Lemma extend_codes_coded lm ls (part part' : split_set A) :
  extend_codes lm ls part = Ok part' → coded_by lm part → coded_by lm part'.
Proof.
  unfold coded_by. intros (_ & codes & -> & Hcodes)%extend_codes_spec Hpart.
  apply Forall_app. split; [done|].
  clear Hpart. induction Hcodes as [|l c ls codes Hl _ IH]; constructor; eauto.
Qed.

(** So does a round of the loop over the groups. *)
Lemma split_given_coded (fs : Np.files A) lm sd (tr va te tr' va' te' : split_set A) grp :
  split_given fs lm sd (tr, va, te) grp = Ok (tr', va', te') →
  coded_by lm tr ∧ coded_by lm va ∧ coded_by lm te →
  coded_by lm tr' ∧ coded_by lm va' ∧ coded_by lm te'.
Proof.
  destruct grp as [[[trd trl] ted] tel]. unfold split_given.
  destruct (Np.load_spectra fs ted) as [d|]; cbn [mbind result_bind]; [|done].
  destruct (Np.load_labels fs tel) as [ls|]; cbn [mbind result_bind]; [|done].
  destruct (Np.load_spectra fs trd) as [X|]; cbn [mbind result_bind]; [|done].
  destruct (Np.load_labels fs trl) as [y|]; cbn [mbind result_bind]; [|done].
  destruct (train_test_split X y sd) as [[[[Xt Xv] yt] yv]|];
    cbn [mbind result_bind]; [|done].
  destruct (extend_codes lm ls _) as [te1|] eqn:Ete; cbn [mbind result_bind]; [|done].
  destruct (extend_codes lm yt _) as [tr1|] eqn:Etr; cbn [mbind result_bind]; [|done].
  destruct (extend_codes lm yv _) as [va1|] eqn:Eva; cbn [mbind result_bind]; [|done].
  intros [= <- <- <-] (Htr & Hva & Hte).
  split_and!; (eapply extend_codes_coded; [eassumption|done]).
Qed.

(** A code of an assembled partition is the code of one of its blocks. *)
Lemma assemble_codes (bs : list (list A * Z)) c :
  c ∈ SAMRaman.labels (assemble bs) → ∃ b, (b, c) ∈ bs.
Proof.
  unfold assemble. cbn [SAMRaman.labels].
  intros ([b c'] & [-> _]%elem_of_replicate & Hin)%list_elem_of_bind. by exists b.
Qed.

(** X10.  In either mode, every code stored in the label sequence of a
    partition is a class index: it lies in [[0, num_classes)], it is the
    code of a raw label, and [_get_original_label] decodes it to a label
    of which it is the code. *)
Theorem partition_codes_decode (g0 : rng_state) (fs : Np.files A) cfg o g' part c :
  __init__ g0 fs cfg = Ok (o, g') →
  part ∈ [train_set o; val_set o; test_set o] → c ∈ SAMRaman.labels part →
  0 ≤ c < Z.of_nat (size (label_map o))
  ∧ ∃ l, label_map o !! l = Some c ∧ _get_original_label o c = Ok l.
Proof.
  intros Hinit Hpart Hc.
  assert (Hl : ∃ l, label_map o !! l = Some c); last first.
  { destruct Hl as [l Hl]. destruct (init_decode _ _ _ _ _ _ _ Hinit Hl). eauto. }
  destruct (use_pre_split cfg) eqn:Hmode.
  - assert (Hall : coded_by (label_map o) (train_set o)
                   ∧ coded_by (label_map o) (val_set o)
                   ∧ coded_by (label_map o) (test_set o)).
    { apply init_inv in Hinit as (g & _ & _ & _ & Hsplits).
      unfold _get_splits in Hsplits. rewrite Hmode in Hsplits.
      destruct (for_loop _ _ _) as [[[tr va] te]|] eqn:Hloop;
        cbn [mbind result_bind] in Hsplits; [|done].
      injection Hsplits as <- <- <- _.
      apply (for_loop_invariant
               (λ st : splits A, coded_by (label_map o) st.1.1
                                 ∧ coded_by (label_map o) st.1.2
                                 ∧ coded_by (label_map o) st.2) _ _ _ _)
        in Hloop; [done| |].
      - intros [[tr0 va0] te0] grp [[tr1 va1] te1] _ Hst Hb. cbn [fst snd] in *.
        by eapply split_given_coded.
      - cbn. by repeat constructor. }
    destruct Hall as (Htr & Hva & Hte). unfold coded_by in *.
    rewrite !elem_of_cons in Hpart.
    destruct Hpart as [->|[->|[->|[]%elem_of_nil]]];
      [eapply Forall_forall in Htr|eapply Forall_forall in Hva
      |eapply Forall_forall in Hte]; done.
  - destruct (init_generation_blocks _ _ _ _ _ _ Hmode Hinit Hpart) as (bs & -> & Hbs).
    apply assemble_codes in Hc as [b Hin].
    eapply Forall_forall in Hbs; [|exact Hin].
    destruct Hbs as (grp & _ & _ & _ & Hcode). by exists (grp_label grp).
Qed.

End Items.

(** ** Pre-split mode with several groups; the vocabulary as a function of
    the labels seen *)

Section PreSplit.
Context {A : Type} `{NumpyRandom} `{Sklearn A}.
Import SAMRaman Blocks Shares.

Implicit Types (lm : gmap Z Z).

(** What a round of pre-split mode went through when it returns. *)
Lemma split_given_inv (fs : Np.files A) lm sd (tr va te tr' va' te' : split_set A)
    trd trl ted tel :
  split_given fs lm sd (tr, va, te) (trd, trl, ted, tel) = Ok (tr', va', te') →
  ∃ X y d Xt Xv yt yv,
    Np.spectra_files fs !! trd = Some X ∧ Np.label_files fs !! trl = Some y
    ∧ Np.spectra_files fs !! ted = Some d
    ∧ train_test_split X y sd = Ok (Xt, Xv, yt, yv)
    ∧ data tr' = Xt ∧ data va' = Xv ∧ data te' = d.
Proof.
  unfold split_given, Np.load_spectra, Np.load_labels.
  destruct (Np.spectra_files fs !! ted) as [d|]; cbn [mbind result_bind]; [|done].
  destruct (Np.label_files fs !! tel) as [ls|]; cbn [mbind result_bind]; [|done].
  destruct (Np.spectra_files fs !! trd) as [X|]; cbn [mbind result_bind]; [|done].
  destruct (Np.label_files fs !! trl) as [y|]; cbn [mbind result_bind]; [|done].
  destruct (train_test_split X y sd) as [[[[Xt Xv] yt] yv]|] eqn:Hsplit;
    cbn [mbind result_bind]; [|done].
  destruct (extend_codes lm ls _) as [te1|] eqn:Ete; cbn [mbind result_bind]; [|done].
  destruct (extend_codes lm yt _) as [tr1|] eqn:Etr; cbn [mbind result_bind]; [|done].
  destruct (extend_codes lm yv _) as [va1|] eqn:Eva; cbn [mbind result_bind]; [|done].
  intros [= <- <- <-].
  apply extend_codes_spec in Ete as (Hte & _). apply extend_codes_spec in Etr as (Htr & _).
  apply extend_codes_spec in Eva as (Hva & _). cbn [data] in *.
  by exists X, y, d, Xt, Xv, yt, yv.
Qed.

(** The test labels accumulate over the groups. *)
Lemma pre_split_loop_test_labels (fs : Np.files A) lm sd groups (st st' : splits A) :
  for_loop (split_given fs lm sd) groups st = Ok st' →
  ∃ codes, SAMRaman.labels st'.2 = SAMRaman.labels st.2 ++ codes
    ∧ Forall2 (λ l c, lm !! l = Some c)
        (groups ≫= λ grp, default [] (Np.label_files fs !! grp.2)) codes.
Proof.
  revert st. induction groups as [|[[[trd trl] ted] tel] groups IH]; intros st.
  - simpl. intros [= <-]. exists []. by rewrite app_nil_r.
  - cbn [for_loop]. destruct st as [[tr va] te].
    destruct (split_given _ _ _ _ _) as [[[tr1 va1] te1]|] eqn:Hb;
      cbn [mbind result_bind]; [|done].
    apply split_given_test in Hb as (d & ls & codes1 & _ & Hls & _ & Hlab & Hc1).
    intros (codes & Hlab' & Hc)%IH. cbn [snd] in *.
    exists (codes1 ++ codes). rewrite Hlab', Hlab, <- app_assoc. split; [done|].
    rewrite bind_cons. cbn [snd]. rewrite Hls. cbn [default from_option id].
    by apply Forall2_app.
Qed.

(** X11.  In pre-split mode with at least one group, a construction that
    returns leaves in each partition the samples of the last group only:
    the two parts into which [train_test_split] cut its training array, and
    its test array.  The label sequence of the test partition holds the
    codes of the test labels of all the groups.  The ambient generator is
    left as seeded.  An index of the test dataset at or beyond the length
    of the last test array, although below [len], raises [IndexError]. *)
Theorem pre_split_last_group_only (g0 : rng_state) (fs : Np.files A) cfg o g'
    groups trd trl ted tel :
  use_pre_split cfg = true →
  pre_split_groups cfg = groups ++ [(trd, trl, ted, tel)] →
  __init__ g0 fs cfg = Ok (o, g') →
  ∃ X y d Xt Xv yt yv,
    Np.spectra_files fs !! trd = Some X ∧ Np.label_files fs !! trl = Some y
    ∧ Np.spectra_files fs !! ted = Some d
    ∧ train_test_split X y (seed cfg) = Ok (Xt, Xv, yt, yv)
    ∧ data (train_set o) = Xt ∧ data (val_set o) = Xv ∧ data (test_set o) = d
    ∧ Forall2 (λ l c, label_map o !! l = Some c)
        (pre_split_test_labels fs cfg) (SAMRaman.labels (test_set o))
    ∧ g' = np_random_seed_state (seed cfg)
    ∧ ∀ idx, Z.of_nat (length d) ≤ idx
             < SAMRamanDataset.__len__ (dataset (test_loader o)) →
        SAMRamanDataset.__getitem__ (dataset (test_loader o)) idx = Raise IndexError.
Proof.
  intros Hmode Hgroups Hinit.
  destruct (init_loaders _ _ _ _ _ Hinit) as (_ & _ & Ete).
  apply init_inv in Hinit as (g & Hseed & _ & _ & Hsplits).
  unfold _get_splits in Hsplits. rewrite Hmode in Hsplits.
  fold (pre_split_groups cfg) in Hsplits.
  destruct (for_loop _ _ _) as [[[tr va] te]|] eqn:Hloop;
    cbn [mbind result_bind] in Hsplits; [|done].
  injection Hsplits as Qtr Qva Qte <-. rewrite <- Qte in Ete. rewrite <- Qtr, <- Qva, <- Qte.
  clear Qtr Qva Qte.
  pose proof (pre_split_loop_test_labels _ _ _ _ _ _ Hloop) as (codes & Hlab & Hcodes).
  cbn [snd empty_set SAMRaman.labels app] in Hlab.
  rewrite Hgroups, for_loop_app in Hloop.
  destruct (for_loop _ groups _) as [[[tr1 va1] te1]|];
    cbn [mbind result_bind for_loop] in Hloop; [|done].
  destruct (split_given _ _ _ _ _) as [[[tr2 va2] te2]|] eqn:Hlast;
    cbn [mbind result_bind] in Hloop; [|done].
  injection Hloop as -> -> ->.
  apply split_given_inv in Hlast
    as (X & y & d & Xt & Xv & yt & yv & HX & Hy & Hd & Hsplit & Htr & Hva & Hte).
  exists X, y, d, Xt, Xv, yt, yv. split_and!; try done.
  - unfold pre_split_test_labels. by rewrite Hlab.
  - unfold np_random_seed in Hseed. case_decide; [|done]. by injection Hseed as <-.
  - intros idx Hidx. rewrite Ete in Hidx |- *. cbn [dataset] in *.
    unfold SAMRamanDataset.__getitem__, dataset_of.
    cbn [SAMRamanDataset.spectral_data].
    unfold SAMRamanDataset.__len__ in Hidx. cbn [SAMRamanDataset.labels] in Hidx.
    rewrite Hte, (getitem_outside d) by lia.
    reflexivity.
Qed.

End PreSplit.

Section VocabularySet.
Import SAMRaman Blocks.

(** Two ascending sequences with the same elements are equal. *)
Lemma sorted_ext (u v : list Z) :
  StronglySorted Z.lt u → StronglySorted Z.lt v → (∀ x, x ∈ u ↔ x ∈ v) → u = v.
Proof.
  intros Hu. revert v. induction Hu as [|a u Hu IH Ha]; intros v Hv Hext.
  - destruct v as [|b v]; [done|]. exfalso.
    apply (not_elem_of_nil b), Hext. left.
  - destruct v as [|b v]; [exfalso; apply (not_elem_of_nil a), Hext; left|].
    apply StronglySorted_inv in Hv as [Hv Hb].
    assert (a = b) as <-.
    { assert (Hab : a ∈ b :: v) by (apply Hext; left).
      assert (Hba : b ∈ a :: u) by (apply Hext; left).
      apply elem_of_cons in Hab as [?|Hab]; [done|].
      apply elem_of_cons in Hba as [?|Hba]; [done|].
      eapply Forall_forall in Ha; [|exact Hba].
      eapply Forall_forall in Hb; [|exact Hab]. lia. }
    f_equal. apply IH; [done|]. intros x. split; intros Hx.
    + assert (Hx' : x ∈ a :: v) by (apply Hext; by right).
      apply elem_of_cons in Hx' as [->|?]; [|done].
      eapply Forall_forall in Ha; [|exact Hx]. lia.
    + assert (Hx' : x ∈ a :: u) by (apply Hext; by right).
      apply elem_of_cons in Hx' as [->|?]; [|done].
      eapply Forall_forall in Hb; [|exact Hx]. lia.
Qed.

(** X12.  The label map depends on the set of the labels seen only: two
    vocabulary constructions that see the same labels, in whatever files,
    order, number of occurrences or mode, return the same map. *)
Theorem label_map_of_seen_set {A B} (fs : Np.files A) (fs' : Np.files B) cfg cfg' lm lm' :
  _get_label_mapping fs cfg = Ok lm → _get_label_mapping fs' cfg' = Ok lm' →
  (∀ l, seen fs cfg l ↔ seen fs' cfg' l) → lm = lm'.
Proof.
  intros (labels & -> & Hseen)%get_label_mapping_spec
         (labels' & -> & Hseen')%get_label_mapping_spec Hsame.
  unfold label_mapping_of. do 3 f_equal.
  apply sorted_ext; [apply unique_sorted..|].
  intros x. rewrite !elem_of_unique, Hseen, Hseen'. apply Hsame.
Qed.

End VocabularySet.

(** ** The use of the generator *)

Section Draws.
Context {A : Type} `{NumpyRandom} `{Sklearn A}.
Import SAMRaman Blocks Shares.

Lemma foldl_list_bind {X Y Z'} (f : Z' → Y → Z') (h : X → list Y) (z : Z') (xs : list X) :
  foldl f z (xs ≫= h) = foldl (λ z x, foldl f z (h x)) z xs.
Proof.
  revert z. induction xs as [|x xs IH]; intros z; [done|].
  by rewrite bind_cons, foldl_app, IH.
Qed.

(** X13.  In generation mode the ambient generator, seeded with [seed],
    is advanced by one permutation per (source, label) group, and by
    nothing else: the permutation of [arange(num_patients)] of the group,
    the groups being taken source after source and, in a source, by
    ascending label. *)
Theorem generation_draws (g0 : rng_state) (fs : Np.files A) cfg o g' :
  use_pre_split cfg = false → __init__ g0 fs cfg = Ok (o, g') →
  g' = draws (np_random_seed_state (seed cfg)) (label_groups fs cfg).
Proof.
  intros Hmode (g & Hseed & _ & _ & Hsplits)%init_inv.
  unfold np_random_seed in Hseed.
  destruct (decide (0 ≤ seed cfg < 2 ^ 32)); [|done]. injection Hseed as <-.
  unfold _get_splits in Hsplits. rewrite Hmode in Hsplits.
  unfold draws, label_groups. rewrite foldl_list_bind. fold (sources cfg) in Hsplits.
  apply (for_loop_fold snd
           (λ g src, foldl (λ g grp, (np_random_permutation g
                                        (Np.arange (num_patients grp))).2)
                           g (source_groups fs src))) in Hsplits; [done|].
  intros [st1 g1] [[sp lp] p] [st2 g2] _ Hb. cbn [snd].
  unfold split_source, Np.load_spectra, Np.load_labels in Hb.
  unfold source_groups, groups_of. cbn [fst snd].
  destruct (Np.spectra_files fs !! sp) as [spectra|]; cbn [mbind result_bind] in Hb;
    [|done].
  destruct (Np.label_files fs !! lp) as [lbls|]; cbn [mbind result_bind] in Hb; [|done].
  cbn [default from_option id]. rewrite foldl_fmap.
  apply (for_loop_fold snd
           (λ g l, (np_random_permutation g (Np.arange (num_patients
              {| grp_interval := p; grp_label := l;
                 grp_spectra := Np.select_rows spectra (Np.eq_scalar lbls l) |}))).2))
    in Hb; [done|].
  intros [[[tr va] te] g3] l [st4 g4] _ Hl. cbn [snd].
  apply split_label_inv in Hl as (_ & _ & ea & eb & tr' & va' & te' & _ & _ & Heq & _).
  by injection Heq as _ ->.
Qed.

End Draws.

(** ** The label sequences of generation mode *)

Section LabelSequences.
Context {A : Type} `{NumpyRandom} `{Sklearn A}.
Import SAMRaman Blocks Shares.

Implicit Types (rows spectra : list A) (lm : gmap Z Z).

(** Appending a list per element appends their concatenation. *)
Lemma foldl_snoc_bind {X Y} (f : X → list Y) (acc : list Y) (xs : list X) :
  foldl (λ acc x, acc ++ f x) acc xs = acc ++ (xs ≫= f).
Proof.
  revert acc. induction xs as [|x xs IH]; intros acc; cbn [foldl].
  - by rewrite app_nil_r.
  - by rewrite IH, bind_cons, app_assoc.
Qed.

(** [[c] * p] once per index is one run of [c]. *)
Lemma repeat_bind_replicate {X} (c p : Z) (idxs : list X) :
  idxs ≫= (λ _, Py.list_repeat c p) = replicate (length idxs * Z.to_nat p) c.
Proof.
  induction idxs as [|i idxs IH]; [done|].
  rewrite bind_cons, IH. unfold Py.list_repeat. simpl length.
  by rewrite <- replicate_add.
Qed.

(** A sequence of the state to which every round of the loop over labels
    appends a run [sh] that depends on the group only is, at the end of
    generation mode, the runs of the groups one after the other. *)
Lemma generation_append (ν : splits A → list Z) (sh : label_group A → list Z)
    (fs : Np.files A) cfg lm (g g' : rng_state) st' :
  (∀ spectra lbls p st l st' g1 g2,
     0 < p → split_label lm spectra lbls p (st, g1) l = Ok (st', g2) →
     ν st' = ν st ++ sh {| grp_interval := p; grp_label := l;
                           grp_spectra := Np.select_rows spectra (Np.eq_scalar lbls l) |}) →
  use_pre_split cfg = false → Forall (λ p, 0 < p) (patient_intervals cfg) →
  _get_splits fs cfg lm g = Ok (st', g') →
  ν st' = ν (empty_set, empty_set, empty_set) ++ (label_groups fs cfg ≫= sh).
Proof.
  intros Hround Hmode Hpos. unfold _get_splits. rewrite Hmode. intros Hloop.
  unfold label_groups. rewrite bind_bind. fold (sources cfg) in Hloop.
  apply (for_loop_fold (λ s, ν s.1)
           (λ acc src, acc ++ (source_groups fs src ≫= sh))) in Hloop;
    [cbn [fst] in Hloop; by rewrite Hloop, foldl_snoc_bind|].
  intros [st1 g1] [[sp lp] p] [st2 g2] Hsrc Hb. cbn [fst].
  apply elem_of_sources in Hsrc as (_ & _ & Hp).
  eapply Forall_forall in Hpos; [|exact Hp]. cbn beta in Hpos.
  unfold split_source, Np.load_spectra, Np.load_labels in Hb.
  unfold source_groups, groups_of. cbn [fst snd].
  destruct (Np.spectra_files fs !! sp) as [spectra|]; cbn [mbind result_bind] in Hb;
    [|done].
  destruct (Np.label_files fs !! lp) as [lbls|]; cbn [mbind result_bind] in Hb; [|done].
  cbn [default from_option id]. rewrite list_fmap_bind.
  apply (for_loop_fold (λ s, ν s.1)
           (λ acc l, acc ++ sh {| grp_interval := p; grp_label := l;
                                  grp_spectra := Np.select_rows spectra
                                                   (Np.eq_scalar lbls l) |}))
    in Hb; [cbn [fst] in Hb; by rewrite Hb, foldl_snoc_bind|].
  intros [st3 g3] l [st4 g4] _ Hl. cbn [fst]. by eapply Hround.
Qed.

(** The codes appended for [k] patient indices are the run of [k] patients. *)
Lemma code_run_length lm (k : label_group A → Z) (grp : label_group A) (idxs : list Z) :
  0 ≤ grp_interval grp → Z.of_nat (length idxs) = k grp →
  idxs ≫= (λ _, Py.list_repeat (default 0 (lm !! grp_label grp)) (grp_interval grp))
  = code_run lm k grp.
Proof.
  intros Hp Hk. rewrite repeat_bind_replicate. unfold code_run, code_of. f_equal.
  rewrite <- Hk, Z2Nat.inj_mul, Nat2Z.id by lia. done.
Qed.

(** One round of the loop over labels, with a positive interval, appends
    to the label sequence of each partition the run of codes of the share
    of the group. *)
Lemma split_label_codes lm spectra lbls p (tr va te tr' va' te' : split_set A)
    (g g' : rng_state) l :
  0 < p →
  split_label lm spectra lbls p (tr, va, te, g) l = Ok (tr', va', te', g') →
  let grp := {| grp_interval := p; grp_label := l;
                grp_spectra := Np.select_rows spectra (Np.eq_scalar lbls l) |} in
  SAMRaman.labels tr' = SAMRaman.labels tr ++ code_run lm train_end grp
  ∧ SAMRaman.labels va'
    = SAMRaman.labels va ++ code_run lm (λ g, validation_end g - train_end g) grp
  ∧ SAMRaman.labels te'
    = SAMRaman.labels te ++ code_run lm (λ g, num_patients g - validation_end g) grp.
Proof.
  intros Hp Hst grp.
  apply split_label_inv in Hst
    as (Hlen & _ & a & b & tr1 & va1 & te1 & Ha & Hb & Heq & Hloops).
  injection Heq as -> -> -> _. cbv zeta in Hloops.
  set (rows := Np.select_rows spectra (Np.eq_scalar lbls l)) in *.
  set (n := Z.of_nat (length rows) `div` p) in *.
  assert (Hn : 0 ≤ n) by (apply Z.div_pos; lia).
  pose proof (split_ends_ordered n a b Hn Ha Hb) as Hab.
  destruct (validation_end_below n b Hn Hb) as [Hbn _].
  pose proof (permutation_length g n Hn) as Hplen.
  destruct (slice_lengths (np_random_permutation g (Np.arange n)).1 a b Hab ltac:(lia))
    as (H1 & H2 & H3).
  destruct Hloops as (E1 & E2 & E3).
  apply for_loop_extend_block_inv in E1 as (_ & _ & ->).
  apply for_loop_extend_block_inv in E2 as (_ & _ & ->).
  apply for_loop_extend_block_inv in E3 as (_ & _ & ->).
  assert (Hends : train_end grp = a ∧ validation_end grp = b ∧ num_patients grp = n).
  { unfold train_end, validation_end, num_patients. cbn [grp grp_spectra grp_interval].
    fold rows. fold n. by rewrite Ha, Hb. }
  destruct Hends as (Ea & Eb & En).
  split_and!; f_equal;
    apply (code_run_length lm _ grp); cbn [grp grp_interval]; lia.
Qed.

(** X15.  In generation mode with positive intervals the label sequence of
    each partition does not depend on the permutations drawn: it is, group
    after group (source after source and, in a source, by ascending label),
    a run of the code of the group, as long as the share of the group:
    [train_split_end * p_int] codes in the training partition,
    [(validation_split_end - train_split_end) * p_int] in the validation
    partition and [(num_patients - validation_split_end) * p_int] in the
    test partition. *)
Theorem generation_label_sequences (g0 : rng_state) (fs : Np.files A) cfg o g' :
  use_pre_split cfg = false → Forall (λ p, 0 < p) (patient_intervals cfg) →
  __init__ g0 fs cfg = Ok (o, g') →
  let gs := label_groups fs cfg in
  SAMRaman.labels (train_set o) = gs ≫= code_run (label_map o) train_end
  ∧ SAMRaman.labels (val_set o)
    = gs ≫= code_run (label_map o) (λ g, validation_end g - train_end g)
  ∧ SAMRaman.labels (test_set o)
    = gs ≫= code_run (label_map o) (λ g, num_patients g - validation_end g).
Proof.
  intros Hmode Hpos (g & _ & _ & _ & Hsplits)%init_inv gs.
  split_and!.
  - apply (generation_append (λ st, SAMRaman.labels st.1.1)
             (code_run (label_map o) train_end)) in Hsplits; [done| |done..].
    intros spectra lbls p [[tr va] te] l [[tr' va'] te'] g1 g2 Hp Hl.
    by apply split_label_codes in Hl as (? & ? & ?).
  - apply (generation_append (λ st, SAMRaman.labels st.1.2)
             (code_run (label_map o) (λ g, validation_end g - train_end g)))
      in Hsplits; [done| |done..].
    intros spectra lbls p [[tr va] te] l [[tr' va'] te'] g1 g2 Hp Hl.
    by apply split_label_codes in Hl as (? & ? & ?).
  - apply (generation_append (λ st, SAMRaman.labels st.2)
             (code_run (label_map o) (λ g, num_patients g - validation_end g)))
      in Hsplits; [done| |done..].
    intros spectra lbls p [[tr va] te] l [[tr' va'] te'] g1 g2 Hp Hl.
    by apply split_label_codes in Hl as (? & ? & ?).
Qed.

End LabelSequences.

(** ** The exceptions of pre-split mode *)

Section PreSplitExceptions.
Context {A : Type} `{NumpyRandom} `{Sklearn A}.
Import SAMRaman Blocks Shares.

Implicit Types (lm : gmap Z Z).

(** Looking the codes up raises [KeyError] at a label without a code, and
    nothing else. *)
Lemma extend_codes_raise lm ls (part : split_set A) e :
  extend_codes lm ls part = Raise e → e = KeyError ∧ ∃ l, l ∈ ls ∧ lm !! l = None.
Proof.
  unfold extend_codes. intros (l & part1 & Hin & Hb)%for_loop_raise.
  unfold Py.dict_getitem in Hb. destruct (lm !! l) eqn:Hl; [done|].
  injection Hb as <-. split; [done|]. by exists l.
Qed.

(** The exceptions of a round of the loop over the groups of pre-split
    mode, each with its cause. *)
Lemma split_given_raise (fs : Np.files A) lm sd (st : splits A) grp e :
  split_given fs lm sd st grp = Raise e →
  (e = FileNotFoundError
   ∧ (Np.spectra_files fs !! grp.1.1.1 = None ∨ Np.label_files fs !! grp.1.1.2 = None
      ∨ Np.spectra_files fs !! grp.1.2 = None ∨ Np.label_files fs !! grp.2 = None))
  ∨ (∃ X y, Np.spectra_files fs !! grp.1.1.1 = Some X
       ∧ Np.label_files fs !! grp.1.1.2 = Some y
       ∧ train_test_split X y sd = Raise e)
  ∨ (e = KeyError
     ∧ ∃ ls l, Np.label_files fs !! grp.2 = Some ls ∧ l ∈ ls ∧ lm !! l = None)
  ∨ (e = KeyError
     ∧ ∃ X y Xt Xv yt yv l, Np.spectra_files fs !! grp.1.1.1 = Some X
         ∧ Np.label_files fs !! grp.1.1.2 = Some y
         ∧ train_test_split X y sd = Ok (Xt, Xv, yt, yv)
         ∧ l ∈ yt ++ yv ∧ lm !! l = None).
Proof.
  destruct st as [[tr va] te], grp as [[[trd trl] ted] tel]. cbn [fst snd].
  unfold split_given, Np.load_spectra, Np.load_labels.
  destruct (Np.spectra_files fs !! ted) as [d|]; cbn [mbind result_bind];
    [|intros [= <-]; left; tauto].
  destruct (Np.label_files fs !! tel) as [ls|]; cbn [mbind result_bind];
    [|intros [= <-]; left; tauto].
  destruct (Np.spectra_files fs !! trd) as [X|]; cbn [mbind result_bind];
    [|intros [= <-]; left; tauto].
  destruct (Np.label_files fs !! trl) as [y|]; cbn [mbind result_bind];
    [|intros [= <-]; left; tauto].
  destruct (train_test_split X y sd) as [[[[Xt Xv] yt] yv]|e1] eqn:Hsplit;
    cbn [mbind result_bind]; [|intros [= <-]; right; left; by exists X, y].
  destruct (extend_codes lm ls _) as [te1|e1] eqn:Ete; cbn [mbind result_bind];
    last first.
  { intros [= <-]. apply extend_codes_raise in Ete as (-> & l & Hl & Hnone).
    right; right; left. split; [done|]. by exists ls, l. }
  destruct (extend_codes lm yt _) as [tr1|e1] eqn:Etr; cbn [mbind result_bind];
    last first.
  { intros [= <-]. apply extend_codes_raise in Etr as (-> & l & Hl & Hnone).
    do 3 right. split; [done|]. exists X, y, Xt, Xv, yt, yv, l.
    split_and!; [done..| |done]. apply elem_of_app. by left. }
  destruct (extend_codes lm yv _) as [va1|e1] eqn:Eva; cbn [mbind result_bind];
    [done|].
  intros [= <-]. apply extend_codes_raise in Eva as (-> & l & Hl & Hnone).
  do 3 right. split; [done|]. exists X, y, Xt, Xv, yt, yv, l.
  split_and!; [done..| |done]. apply elem_of_app. by right.
Qed.

(** The label paths of a zipped group are among the label paths. *)
Lemma elem_of_pre_split_groups cfg grp :
  grp ∈ pre_split_groups cfg →
  grp.1.1.2 ∈ train_labels_path cfg ∧ grp.2 ∈ test_labels_path cfg.
Proof.
  destruct grp as [[[trd trl] ted] tel]. unfold pre_split_groups, zip4. intros Hin.
  pose proof (elem_of_zip_l _ _ _ _ Hin) as H1.
  pose proof (elem_of_zip_l _ _ _ _ H1) as H2.
  split; [by eapply elem_of_zip_r|by eapply elem_of_zip_r].
Qed.

(** One pre-split group extends the training labels by the codes of the
    training labels that [train_test_split] hands back. *)
Lemma split_given_train (fs : Np.files A) lm sd (tr va te tr' va' te' : split_set A)
    grp :
  split_given fs lm sd (tr, va, te) grp = Ok (tr', va', te') →
  ∃ X y Xt Xv yt yv codes,
    Np.spectra_files fs !! grp.1.1.1 = Some X ∧ Np.label_files fs !! grp.1.1.2 = Some y
    ∧ train_test_split X y sd = Ok (Xt, Xv, yt, yv)
    ∧ SAMRaman.labels tr' = SAMRaman.labels tr ++ codes
    ∧ length codes = length yt.
Proof.
  destruct grp as [[[trd trl] ted] tel]. cbn [fst snd].
  unfold split_given, Np.load_spectra, Np.load_labels.
  destruct (Np.spectra_files fs !! ted) as [d|]; cbn [mbind result_bind]; [|done].
  destruct (Np.label_files fs !! tel) as [ls|]; cbn [mbind result_bind]; [|done].
  destruct (Np.spectra_files fs !! trd) as [X|]; cbn [mbind result_bind]; [|done].
  destruct (Np.label_files fs !! trl) as [y|]; cbn [mbind result_bind]; [|done].
  destruct (train_test_split X y sd) as [[[[Xt Xv] yt] yv]|] eqn:Hsplit;
    cbn [mbind result_bind]; [|done].
  destruct (extend_codes lm ls _) as [te1|] eqn:Ete; cbn [mbind result_bind]; [|done].
  destruct (extend_codes lm yt _) as [tr1|] eqn:Etr; cbn [mbind result_bind]; [|done].
  destruct (extend_codes lm yv _) as [va1|] eqn:Eva; cbn [mbind result_bind]; [|done].
  intros [= <- <- <-].
  apply extend_codes_spec in Etr as (_ & codes & Hlab & Hcodes). cbn [SAMRaman.labels] in Hlab.
  exists X, y, Xt, Xv, yt, yv, codes. split_and!; [done..|].
  symmetry. by eapply Forall2_length.
Qed.

(** When the training labels are empty after the loop over the groups,
    no group was handed back a training label. *)
Lemma pre_split_loop_no_train_label (fs : Np.files A) lm sd groups (st st' : splits A) :
  for_loop (split_given fs lm sd) groups st = Ok st' →
  SAMRaman.labels st'.1.1 = [] →
  SAMRaman.labels st.1.1 = []
  ∧ ∀ grp X y Xt Xv yt yv, grp ∈ groups →
      Np.spectra_files fs !! grp.1.1.1 = Some X → Np.label_files fs !! grp.1.1.2 = Some y →
      train_test_split X y sd = Ok (Xt, Xv, yt, yv) → yt = [].
Proof.
  revert st. induction groups as [|grp groups IH]; intros st; cbn [for_loop].
  - intros [= <-] Hnil. split; [done|]. by intros ??????? ?%elem_of_nil.
  - destruct st as [[tr va] te].
    destruct (split_given _ _ _ _ _) as [[[tr1 va1] te1]|] eqn:Hb;
      cbn [mbind result_bind]; [|done].
    intros Hrest Hnil. destruct (IH _ Hrest Hnil) as [Hnil1 Hgroups]. cbn [fst] in *.
    apply split_given_train in Hb
      as (X0 & y0 & Xt0 & Xv0 & yt0 & yv0 & codes & HX0 & Hy0 & Hsplit0 & Hlab & Hlen).
    rewrite Hlab in Hnil1. apply app_eq_nil in Hnil1 as [Htr ->].
    split; [done|].
    intros grp' X y Xt Xv yt yv [->|Hin]%elem_of_cons HX Hy Hsplit; [|by eapply Hgroups].
    rewrite HX0 in HX. injection HX as <-. rewrite Hy0 in Hy. injection Hy as <-.
    rewrite Hsplit0 in Hsplit. injection Hsplit as _ _ <- _.
    by destruct yt0.
Qed.

(** X16.  The exceptions of a construction in pre-split mode, each with
    its cause.  It raises [ValueError] at a seed outside [[0, 2^32)];
    [FileNotFoundError] at a missing file, among the training and test
    label paths or among the spectra of a zipped group; whatever
    [train_test_split] raises on the training arrays of a zipped group;
    [KeyError] when [train_test_split] returns a label that is not in the
    label array it was given; or, once the partitions are made,
    [ValueError] from [DataLoader], when the batch size is not positive or
    the training partition has no label, no zipped group having been
    handed back a training label.  The test labels, and the training labels
    that are handed back, always have a code. *)
Theorem pre_split_exceptions (g0 : rng_state) (fs : Np.files A) cfg e :
  use_pre_split cfg = true → __init__ g0 fs cfg = Raise e →
  (e = ValueError ∧ ¬ (0 ≤ seed cfg < 2 ^ 32))
  ∨ (e = FileNotFoundError
     ∧ ((∃ path, path ∈ train_labels_path cfg ++ test_labels_path cfg
           ∧ Np.label_files fs !! path = None)
        ∨ ∃ grp, grp ∈ pre_split_groups cfg
            ∧ (Np.spectra_files fs !! grp.1.1.1 = None
               ∨ Np.spectra_files fs !! grp.1.2 = None)))
  ∨ (∃ grp X y, grp ∈ pre_split_groups cfg
       ∧ Np.spectra_files fs !! grp.1.1.1 = Some X
       ∧ Np.label_files fs !! grp.1.1.2 = Some y
       ∧ train_test_split X y (seed cfg) = Raise e)
  ∨ (e = KeyError
     ∧ ∃ grp X y Xt Xv yt yv l, grp ∈ pre_split_groups cfg
         ∧ Np.spectra_files fs !! grp.1.1.1 = Some X
         ∧ Np.label_files fs !! grp.1.1.2 = Some y
         ∧ train_test_split X y (seed cfg) = Ok (Xt, Xv, yt, yv)
         ∧ l ∈ yt ++ yv ∧ l ∉ y)
  ∨ (e = ValueError
     ∧ (batch_size cfg ≤ 0
        ∨ ∀ grp X y Xt Xv yt yv, grp ∈ pre_split_groups cfg →
            Np.spectra_files fs !! grp.1.1.1 = Some X →
            Np.label_files fs !! grp.1.1.2 = Some y →
            train_test_split X y (seed cfg) = Ok (Xt, Xv, yt, yv) → yt = [])).
Proof.
  intros Hmode. unfold __init__, np_random_seed.
  destruct (decide (0 ≤ seed cfg < 2 ^ 32)) as [Hseed|Hseed]; cbn [mbind result_bind];
    [|intros [= <-]; by left].
  destruct (_get_label_mapping fs cfg) as [lm|e1] eqn:Hlm; cbn [mbind result_bind];
    last first.
  { intros [= <-]. right; left.
    destruct (get_label_mapping_raise fs cfg) as [Hexn Hok].
    rewrite (Hexn e1 Hlm) in *. split; [done|]. left.
    unfold label_sources in Hok. rewrite Hmode, Hlm in Hok.
    destruct (decide (Forall (λ path, is_Some (Np.label_files fs !! path))
                        (train_labels_path cfg ++ test_labels_path cfg)))
      as [Hall|Hnot]; [by apply Hok in Hall|].
    apply not_Forall_Exists in Hnot; [|apply _].
    apply Exists_exists in Hnot as (path & Hin & Hnone).
    exists path. split; [done|]. by apply eq_None_not_Some. }
  destruct (_get_splits fs cfg lm _) as [[[[tr va] te] g1]|e1] eqn:Hsplits;
    cbn [mbind result_bind].
  { destruct (_create_dataloaders _ tr va te) as [[[l1 l2] l3]|e1] eqn:Hld;
      cbn [mbind result_bind]; [done|].
    intros [= <-]. apply create_dataloaders_raise in Hld as (-> & [Hbs|Htr]);
      do 4 right; (split; [done|]); [by left|right].
    unfold _get_splits in Hsplits. rewrite Hmode in Hsplits.
    fold (pre_split_groups cfg) in Hsplits.
    destruct (for_loop _ _ _) as [st|] eqn:Hloop; cbn [mbind result_bind] in Hsplits;
      [|done].
    injection Hsplits as -> _.
    by destruct (pre_split_loop_no_train_label _ _ _ _ _ _ Hloop Htr) as [_ Hgroups]. }
  intros [= ->]. unfold _get_splits in Hsplits. rewrite Hmode in Hsplits.
  fold (pre_split_groups cfg) in Hsplits.
  destruct (for_loop _ _ _) as [st|e1] eqn:Hloop; cbn [mbind result_bind] in Hsplits;
    [done|]. injection Hsplits as ->.
  apply for_loop_raise in Hloop as (grp & st1 & Hgrp & Hb).
  destruct (elem_of_pre_split_groups cfg grp Hgrp) as [Htrl Htel].
  assert (Hcode : ∀ path ls l, path ∈ train_labels_path cfg ++ test_labels_path cfg →
            Np.label_files fs !! path = Some ls → l ∈ ls → is_Some (lm !! l)).
  { intros path ls l Hpath Hfile Hl.
    apply get_label_mapping_spec in Hlm as (labels & -> & Hseen).
    apply label_mapping_is_Some, Hseen. exists path, ls.
    unfold label_sources. by rewrite Hmode. }
  apply split_given_raise in Hb
    as [[-> Hmiss]|[(X & y & ?)|[(-> & ls & l & Hfile & Hl & Hnone)
        |(-> & X & y & Xt & Xv & yt & yv & l & HX & Hy & Hsplit & Hl & Hnone)]]].
  - right; left. split; [done|].
    destruct Hmiss as [?|[Hnone|[?|Hnone]]].
    + right. exists grp. tauto.
    + left. exists grp.1.1.2. split; [|done]. apply elem_of_app. by left.
    + right. exists grp. tauto.
    + left. exists grp.2. split; [|done]. apply elem_of_app. by right.
  - right; right; left. by exists grp, X, y.
  - exfalso. destruct (Hcode grp.2 ls l) as [c Hc]; [|done..|congruence].
    apply elem_of_app. by right.
  - do 3 right. left. split; [done|]. exists grp, X, y, Xt, Xv, yt, yv, l.
    split_and!; [done..|]. intros Hin.
    destruct (Hcode grp.1.1.2 y l) as [c Hc]; [|done..|congruence].
    apply elem_of_app. by left.
Qed.

End PreSplitExceptions.

(** ** The further properties on the concrete inputs *)

Section OnFurtherExamples.
Import SAMRaman Blocks Shares Examples.

(** A seed of [2^32], and a label path that names no file. *)
Lemma init_fails_early_witness :
  init_with files_two_labels cfg_bad_seed = Raise ValueError
  ∧ init_with files_two_labels cfg_absent_labels = Raise FileNotFoundError.
Proof.
  split.
  - apply (proj1 (init_fails_early (H := reversing_random) (H0 := quarter_splitter)
                    0 files_two_labels cfg_bad_seed)).
    vm_compute. intros [_ Hlt]. discriminate.
  - apply (proj2 (init_fails_early (H := reversing_random) (H0 := quarter_splitter)
                    0 files_two_labels cfg_absent_labels)).
    + vm_compute. split; [discriminate|reflexivity].
    + exists "absent.npy". split; [vm_compute; right; left|vm_compute; reflexivity].
Defined.

(** The interval 0 on the seven rows, and the interval 4, which leaves no
    group with two patients. *)
Lemma generation_exceptions_witness :
  (init_with files_two_labels cfg_zero_interval = Raise ZeroDivisionError
   ∧ ∃ src, src ∈ sources cfg_zero_interval ∧ src.2 = 0)
  ∧ (init_with files_two_labels cfg_one_patient = Raise ValueError
     ∧ Forall (λ grp, num_patients grp < 2)
         (label_groups files_two_labels cfg_one_patient)).
Proof.
  assert (E : init_with files_two_labels cfg_zero_interval = Raise ZeroDivisionError)
    by (vm_compute; reflexivity).
  assert (E' : init_with files_two_labels cfg_one_patient = Raise ValueError)
    by (vm_compute; reflexivity).
  split; (split; [done|]).
  - exact (generation_exceptions (H := reversing_random) (H0 := quarter_splitter)
             0 files_two_labels cfg_zero_interval ZeroDivisionError eq_refl E).
  - destruct (generation_exceptions (H := reversing_random) (H0 := quarter_splitter)
                0 files_two_labels cfg_one_patient ValueError eq_refl E')
      as [Hseed|[Hbs|Hall]]; [| |exact Hall].
    + exfalso. apply Hseed. vm_compute. split; [discriminate|reflexivity].
    + exfalso. apply Hbs. reflexivity.
Defined.

(** The seven rows pass, and their group of label 1 has two patients. *)
Lemma generation_returns_iff_witness :
  is_ok (init_with files_two_labels cfg_two_labels) = true.
Proof.
  apply (proj2 (generation_returns_iff (H := reversing_random) (H0 := quarter_splitter)
                  0 files_two_labels cfg_two_labels eq_refl
                  ltac:(repeat constructor))).
  split; [vm_compute; split; [discriminate|reflexivity]|].
  split; [reflexivity|].
  split; [repeat constructor; vm_compute; by eexists|].
  split.
  - repeat constructor. eexists _, _.
    split; [vm_compute; reflexivity|]. split; [vm_compute; reflexivity|].
    right. split; [reflexivity|discriminate].
  - apply Exists_exists.
    exists {| grp_interval := 2; grp_label := 1; grp_spectra := [0; 1; 2; 5] |}.
    split; [vm_compute; right; left|vm_compute; discriminate].
Defined.

(** Ninety patients: the boundaries are 62 and 76. *)
Lemma split_ends_within_witness :
  0 ≤ 62 ≤ 76 ∧ 76 ≤ 90 ∧ (0 < 90 → 76 < 90) ∧ (2 ≤ 90 → 0 < 62).
Proof.
  apply (split_ends_within 90 62 76); [lia|vm_compute; reflexivity..].
Defined.

(** Ninety patients again: 62 is one less than [7 * 90 / 10]. *)
Lemma split_ends_near_floor_witness :
  train_split_end_of 90 = Ok 62 ∧ validation_split_end_of 90 = Ok 76
  ∧ 10 * 62 ≤ 7 * 90 ≤ 10 * (62 + 1) ∧ 20 * 76 ≤ 17 * 90 ≤ 20 * (76 + 1).
Proof.
  destruct (split_ends_near_floor 90) as (a & b & Ha & Hb & Hfa & Hfb);
    [vm_compute; split; discriminate|].
  assert (a = 62) as -> by (vm_compute in Ha; congruence).
  assert (b = 76) as -> by (vm_compute in Hb; congruence).
  split_and!; [exact Ha|exact Hb|apply Hfa..|apply Hfb|apply Hfb].
Defined.

(** The seven rows: one block of label 0 and two of label 1. *)
Lemma generation_partition_sizes_witness :
  ∃ o g', init_with files_two_labels cfg_two_labels = Ok (o, g')
    ∧ length (data (train_set o)) = 2%nat
    ∧ length (data (val_set o)) = 0%nat
    ∧ length (data (test_set o)) = 4%nat.
Proof.
  destruct (init_with files_two_labels cfg_two_labels) as [[o g']|e] eqn:E;
    [|vm_compute in E; discriminate].
  exists o, g'. split; [reflexivity|].
  destruct (generation_partition_sizes (H := reversing_random) (H0 := quarter_splitter)
              0 files_two_labels cfg_two_labels o g' eq_refl
              ltac:(repeat constructor) E) as (Htr & Hva & Hte).
  vm_compute in Htr, Hva, Hte.
  split_and!; apply Nat2Z.inj; [exact Htr|exact Hva|exact Hte].
Defined.

(** The group of label 1 of the seven rows has two blocks. *)
Lemma generation_class_coverage_witness :
  ∃ o g', init_with files_two_labels cfg_two_labels = Ok (o, g')
    ∧ holds_block (label_map o)
        {| grp_interval := 2; grp_label := 1; grp_spectra := [0; 1; 2; 5] |} (test_set o)
    ∧ holds_block (label_map o)
        {| grp_interval := 2; grp_label := 1; grp_spectra := [0; 1; 2; 5] |} (train_set o).
Proof.
  destruct (init_with files_two_labels cfg_two_labels) as [[o g']|e] eqn:E;
    [|vm_compute in E; discriminate].
  exists o, g'. split; [reflexivity|].
  destruct (generation_class_coverage (H := reversing_random) (H0 := quarter_splitter)
              0 files_two_labels cfg_two_labels o g'
              {| grp_interval := 2; grp_label := 1; grp_spectra := [0; 1; 2; 5] |}
              eq_refl E) as (Hte & Htr).
  { vm_compute. right. left. }
  split; [apply Hte|apply Htr]; vm_compute; [reflexivity|discriminate].
Defined.

(** The interval -2 on the seven rows. *)
Lemma nonpositive_intervals_keep_nothing_witness :
  init_with files_two_labels cfg_negative_interval = Raise ValueError
  ∧ _get_splits (H := reversing_random) (H0 := quarter_splitter)
      files_two_labels cfg_negative_interval
      (label_mapping_of [1; 1; 1; 0; 0; 1; 0]) 42
    = Ok (empty_set, empty_set, empty_set, 44).
Proof.
  destruct (nonpositive_intervals_keep_nothing (H := reversing_random)
              (H0 := quarter_splitter) 0 files_two_labels cfg_negative_interval eq_refl)
    as (Hempty & _ & Hraise).
  { repeat constructor. vm_compute. discriminate. }
  destruct (_get_splits (H := reversing_random) (H0 := quarter_splitter)
              files_two_labels cfg_negative_interval
              (label_mapping_of [1; 1; 1; 0; 0; 1; 0]) 42) as [[st g']|] eqn:Hs;
    [|vm_compute in Hs; discriminate].
  split.
  - apply (Hraise (label_mapping_of [1; 1; 1; 0; 0; 1; 0]) 42 g' st);
      [vm_compute; reflexivity..|exact Hs].
  - rewrite (Hempty _ _ _ _ Hs). vm_compute in Hs. by injection Hs as _ <-.
Defined.

(** The last item of the test dataset of the seven rows. *)
Lemma generation_items_witness :
  ∃ o g', init_with files_two_labels cfg_two_labels = Ok (o, g')
    ∧ ∃ r c grp,
        SAMRamanDataset.__getitem__ (dataset (test_loader o)) (-1) = Ok ([r], c)
        ∧ grp ∈ label_groups files_two_labels cfg_two_labels ∧ r ∈ grp_spectra grp
        ∧ label_map o !! grp_label grp = Some c
        ∧ _get_original_label o c = Ok (grp_label grp).
Proof.
  destruct (init_with files_two_labels cfg_two_labels) as [[o g']|e] eqn:E;
    [|vm_compute in E; discriminate].
  exists o, g'. split; [reflexivity|].
  apply (generation_items (H := reversing_random) (H0 := quarter_splitter)
           0 files_two_labels cfg_two_labels o g' (test_loader o) (-1) eq_refl E).
  - right. right. left.
  - pose proof E as E'. vm_compute in E'. injection E' as <- <-.
    vm_compute. split; [discriminate|reflexivity].
Defined.

(** The code 1 in the test labels of the two pre-split groups. *)
Lemma partition_codes_decode_witness :
  ∃ o g', init_with files_pre_split cfg_pre_split = Ok (o, g')
    ∧ 0 ≤ 1 < Z.of_nat (size (label_map o))
    ∧ ∃ l, label_map o !! l = Some 1 ∧ _get_original_label o 1 = Ok l.
Proof.
  destruct (init_with files_pre_split cfg_pre_split) as [[o g']|e] eqn:E;
    [|vm_compute in E; discriminate].
  exists o, g'. split; [reflexivity|].
  apply (partition_codes_decode (H := reversing_random) (H0 := quarter_splitter)
           0 files_pre_split cfg_pre_split o g' (test_set o) 1 E).
  - right. right. left.
  - pose proof E as E'. vm_compute in E'. injection E' as <- <-.
    vm_compute. right. left.
Defined.

(** The two pre-split groups: the second one alone is kept. *)
Lemma pre_split_last_group_only_witness :
  ∃ o g', init_with files_pre_split cfg_pre_split = Ok (o, g')
    ∧ data (train_set o) = [20; 21; 22; 23; 24; 25]
    ∧ data (val_set o) = [26; 27] ∧ data (test_set o) = [28]
    ∧ SAMRamanDataset.__len__ (dataset (test_loader o)) = 2
    ∧ SAMRamanDataset.__getitem__ (dataset (test_loader o)) 1 = Raise IndexError.
Proof.
  destruct (init_with files_pre_split cfg_pre_split) as [[o g']|e] eqn:E;
    [|vm_compute in E; discriminate].
  exists o, g'. split; [reflexivity|].
  destruct (pre_split_last_group_only (H := reversing_random) (H0 := quarter_splitter)
              0 files_pre_split cfg_pre_split o g'
              [("tr1.npy", "trl1.npy", "te1.npy", "tel1.npy")]
              "tr2.npy" "trl2.npy" "te2.npy" "tel2.npy" eq_refl eq_refl E)
    as (X & y & d & Xt & Xv & yt & yv & HX & Hy & Hd & Hsplit & Htr & Hva & Hte
        & _ & _ & Hidx).
  vm_compute in HX, Hy, Hd. injection HX as <-. injection Hy as <-. injection Hd as <-.
  vm_compute in Hsplit. injection Hsplit as <- <- _ _.
  assert (Hlen : SAMRamanDataset.__len__ (dataset (test_loader o)) = 2).
  { pose proof E as E'. vm_compute in E'. injection E' as <- <-. reflexivity. }
  split_and!; [exact Htr|exact Hva|exact Hte|exact Hlen|].
  apply Hidx. rewrite Hlen. vm_compute. split; [discriminate|reflexivity].
Defined.

(** The same label files in the other order. *)
Lemma label_map_of_seen_set_witness :
  _get_label_mapping files_unequal cfg_unequal
  = _get_label_mapping files_unequal cfg_unequal_swapped.
Proof.
  destruct (_get_label_mapping files_unequal cfg_unequal) as [lm|e] eqn:E;
    [|vm_compute in E; discriminate].
  destruct (_get_label_mapping files_unequal cfg_unequal_swapped) as [lm'|e] eqn:E';
    [|vm_compute in E'; discriminate].
  f_equal. apply (label_map_of_seen_set files_unequal files_unequal cfg_unequal
                    cfg_unequal_swapped lm lm' E E').
  intros l. unfold seen.
  split; intros (path & a & Hin & Ha & Hl); exists path, a;
    (split; [|by split]);
    cbv [label_sources cfg_unequal cfg_unequal_swapped config_of use_pre_split label_dirs]
      in Hin |- *;
    rewrite !elem_of_cons in Hin |- *; tauto.
Defined.

(** Two groups, two draws from the state 42. *)
Lemma generation_draws_witness :
  ∃ o, init_with files_two_labels cfg_two_labels = Ok (o, 44).
Proof.
  destruct (init_with files_two_labels cfg_two_labels) as [[o g']|e] eqn:E;
    [|vm_compute in E; discriminate].
  exists o. do 2 f_equal.
  rewrite (generation_draws (H := reversing_random) (H0 := quarter_splitter)
             0 files_two_labels cfg_two_labels o g' eq_refl E).
  vm_compute. reflexivity.
Defined.

(** A hundred patients: 85 of them before the test slice. *)
Lemma validation_end_exact_witness : validation_split_end_of 100 = Ok 85.
Proof.
  apply (validation_end_exact 100). vm_compute. split; discriminate.
Defined.

(** The seven rows: a block of label 0, then two of label 1. *)
Lemma generation_label_sequences_witness :
  ∃ o g', init_with files_two_labels cfg_two_labels = Ok (o, g')
    ∧ SAMRaman.labels (train_set o) = [1; 1]
    ∧ SAMRaman.labels (val_set o) = []
    ∧ SAMRaman.labels (test_set o) = [0; 0; 1; 1].
Proof.
  destruct (init_with files_two_labels cfg_two_labels) as [[o g']|e] eqn:E;
    [|vm_compute in E; discriminate].
  exists o, g'. split; [reflexivity|].
  destruct (generation_label_sequences (H := reversing_random) (H0 := quarter_splitter)
              0 files_two_labels cfg_two_labels o g' eq_refl
              ltac:(repeat constructor) E) as (Htr & Hva & Hte).
  pose proof E as E'. vm_compute in E'. injection E' as <- <-.
  vm_compute in Htr, Hva, Hte. by split_and!.
Defined.

(** Eight training rows against one training label. *)
Lemma pre_split_exceptions_witness :
  init_with files_pre_split cfg_ragged = Raise ValueError
  ∧ ∃ grp X y, grp ∈ pre_split_groups cfg_ragged
      ∧ Np.spectra_files files_pre_split !! grp.1.1.1 = Some X
      ∧ Np.label_files files_pre_split !! grp.1.1.2 = Some y
      ∧ train_test_split (Sklearn := quarter_splitter) X y (seed cfg_ragged)
        = Raise ValueError.
Proof.
  assert (E : init_with files_pre_split cfg_ragged = Raise ValueError)
    by (vm_compute; reflexivity).
  split; [exact E|].
  destruct (pre_split_exceptions (H := reversing_random) (H0 := quarter_splitter)
              0 files_pre_split cfg_ragged ValueError eq_refl E)
    as [[_ Hseed]|[[Hexn _]|[Hsplit|[[Hexn _]|[_ [Hbs|Hall]]]]]];
    [|discriminate|exact Hsplit|discriminate| |].
  - exfalso. apply Hseed. vm_compute. split; [discriminate|reflexivity].
  - exfalso. apply Hbs. reflexivity.
  - exists ("tr1.npy", "tel1.npy", "te1.npy", "tel1.npy"), [10; 11; 12; 13; 14; 15; 16; 17], [0].
    split; [vm_compute; left|]. by split_and!.
Defined.

End OnFurtherExamples.
